(** * DailyWhy: the heuristic decision engine and the weekly metrics analyzer

    A shallow embedding of
      - [localAnalyzeDecision] and its helpers (the Supabase AI client),
      - [calculateFatigueScore], [analyzeBiases] and
        [generateInsightsFromMetrics] (lib/ai/insights-engine.ts),
      - the copies of the first two in supabase/functions/weekly-insights,
    followed by the properties established about them.

    Conventions of the embedding.
      - JavaScript strings are modelled as [string]; the text functions
        ([toLowerCase], [trim], [split(/\s+/)]) are the ASCII ones.
      - JavaScript numbers that hold counts, scores and seconds are modelled
        as [Z] (they are integers far below 2^53, where double arithmetic is
        exact); numbers that hold ratios are IEEE 754 binary64 values,
        modelled with the executable [SpecFloat] operations.
      - A thrown exception is a [None] result. *)

From Stdlib Require Import ZArith List String Ascii Bool Lia Permutation Sorted.
From Stdlib Require Import SpecFloat.
From Stdlib Require Import DecimalString.
Import ListNotations.

Local Open Scope string_scope.
Local Open Scope Z_scope.

(* ===================================================================== *)
(** ** JavaScript strings (ASCII) *)

Module JsString.

(** [\s] restricted to ASCII: TAB, LF, VT, FF, CR and SPACE. *)
Definition isSpace (c : ascii) : bool :=
  let n := nat_of_ascii c in
  ((9 <=? n) && (n <=? 13))%nat || (n =? 32)%nat.

Definition lowerChar (c : ascii) : ascii :=
  let n := nat_of_ascii c in
  if ((65 <=? n) && (n <=? 90))%nat then ascii_of_nat (n + 32) else c.

Definition upperChar (c : ascii) : ascii :=
  let n := nat_of_ascii c in
  if ((97 <=? n) && (n <=? 122))%nat then ascii_of_nat (n - 32) else c.

Fixpoint toLowerCase (s : string) : string :=
  match s with
  | EmptyString => EmptyString
  | String c s' => String (lowerChar c) (toLowerCase s')
  end.

Fixpoint trimStart (s : string) : string :=
  match s with
  | EmptyString => EmptyString
  | String c s' => if isSpace c then trimStart s' else s
  end.

Fixpoint trimEnd (s : string) : string :=
  match s with
  | EmptyString => EmptyString
  | String c s' =>
      match trimEnd s' with
      | EmptyString => if isSpace c then EmptyString else String c EmptyString
      | t => String c t
      end
  end.

Definition trim (s : string) : string := trimEnd (trimStart s).

(** [s.includes(sub)] *)
Fixpoint includes (s sub : string) : bool :=
  String.prefix sub s ||
  match s with
  | EmptyString => false
  | String _ s' => includes s' sub
  end.

(** [s.split(/\s+/)]: the pieces between maximal runs of white space; a
    leading or trailing run leaves an empty piece, and the empty string
    splits into one empty piece. [cur] is the piece being read and
    [inSep] tells that the previous character was white space. *)
Fixpoint splitWsFrom (s cur : string) (inSep : bool) : list string :=
  match s with
  | EmptyString => [cur]
  | String c s' =>
      if isSpace c then
        if inSep then splitWsFrom s' EmptyString true
        else cur :: splitWsFrom s' EmptyString true
      else splitWsFrom s' (cur ++ String c EmptyString) false
  end.

Definition splitWs (s : string) : list string := splitWsFrom s EmptyString false.

(** [\w] *)
Definition isWordChar (c : ascii) : bool :=
  let n := nat_of_ascii c in
  (((48 <=? n) && (n <=? 57)) || ((65 <=? n) && (n <=? 90)) ||
   ((97 <=? n) && (n <=? 122)) || (n =? 95))%nat.

(** [s.replace(/_/g, ' ')] *)
Fixpoint underscoresToSpaces (s : string) : string :=
  match s with
  | EmptyString => EmptyString
  | String c s' =>
      String (if Ascii.eqb c "_" then " "%char else c) (underscoresToSpaces s')
  end.

(** [s.replace(/\b\w/g, l => l.toUpperCase())]; [prevWord] tells that
    the previous character was a word character. *)
Fixpoint capitalizeWordsFrom (s : string) (prevWord : bool) : string :=
  match s with
  | EmptyString => EmptyString
  | String c s' =>
      String (if isWordChar c && negb prevWord then upperChar c else c)
        (capitalizeWordsFrom s' (isWordChar c))
  end.

Definition capitalizeWords (s : string) : string := capitalizeWordsFrom s false.

(** [s.charAt(0).toUpperCase() + s.slice(1)] *)
Definition capitalizeFirst (s : string) : string :=
  match s with
  | EmptyString => EmptyString
  | String c s' => String (upperChar c) s'
  end.

(** [s.split('_')], for a one-character separator; [cur] is the piece
    being read. *)
Fixpoint splitCharFrom (sep : ascii) (s cur : string) : list string :=
  match s with
  | EmptyString => [cur]
  | String c s' =>
      if Ascii.eqb c sep then cur :: splitCharFrom sep s' EmptyString
      else splitCharFrom sep s' (cur ++ String c EmptyString)
  end.

Definition splitChar (sep : ascii) (s : string) : list string :=
  splitCharFrom sep s EmptyString.

(** [pieces.join(sep)] *)
Fixpoint join (sep : string) (pieces : list string) : string :=
  match pieces with
  | [] => EmptyString
  | [piece] => piece
  | piece :: rest => piece ++ sep ++ join sep rest
  end.

(** The text of an integer in a template literal. *)
Definition showZ (z : Z) : string := NilZero.string_of_int (Z.to_int z).

(** A string is truthy when it is not empty. *)
Definition truthy (s : string) : bool :=
  match s with EmptyString => false | _ => true end.

End JsString.

(* ===================================================================== *)
(** ** JavaScript numbers: IEEE 754 binary64 *)

Module JsNumber.

Definition float := spec_float.

Definition prec : Z := 53.
Definition emax : Z := 1024.

Definition ofZ (z : Z) : float := binary_normalize prec emax z 0 false.
Definition add : float -> float -> float := SFadd prec emax.
Definition mul : float -> float -> float := SFmul prec emax.
Definition div : float -> float -> float := SFdiv prec emax.

(** [a < b], [a <= b], [a > b], [a >= b]; all false on NaN. *)
Definition lt (a b : float) : bool := SFltb a b.
Definition le (a b : float) : bool := SFleb a b.
Definition gt (a b : float) : bool := SFltb b a.
Definition ge (a b : float) : bool := SFleb b a.

(** [Math.min(a, b)]: NaN when either is NaN, and -0 is below +0. *)
Definition min (a b : float) : float :=
  match SFcompare a b with
  | None => S754_nan
  | Some Lt => a
  | Some Gt => b
  | Some Eq => match a with S754_zero true => a | _ => b end
  end.

(** Truthiness of a number: false for +0, -0 and NaN. *)
Definition truthy (a : float) : bool :=
  match a with
  | S754_zero _ | S754_nan => false
  | _ => true
  end.

(** A decimal literal [n/d] denotes the double nearest to that rational,
    which is what the correctly rounded quotient of the two (exactly
    representable) integers is. *)
Definition lit (n d : Z) : float := div (ofZ n) (ofZ d).

End JsNumber.

(* ===================================================================== *)
(** ** JavaScript arrays *)

Module JsArray.

Section Sort.
Context {A : Type}.
Variable key : A -> Z.

(** [arr.sort((a, b) => key(b) - key(a))]: descending by [key].
    [Array.prototype.sort] is stable, so the result is the unique
    stable descending arrangement; insertion from the right builds
    it. *)
Fixpoint insertDesc (x : A) (l : list A) : list A :=
  match l with
  | [] => [x]
  | y :: l' => if key y <=? key x then x :: l else y :: insertDesc x l'
  end.

Fixpoint sortDesc (l : list A) : list A :=
  match l with
  | [] => []
  | x :: l' => insertDesc x (sortDesc l')
  end.
End Sort.

(** [arr.map((x, i) => f(x, i))], counting from [i]. *)
Fixpoint mapiFrom {A B : Type} (f : A -> Z -> B) (i : Z) (l : list A) : list B :=
  match l with
  | [] => []
  | x :: l' => f x i :: mapiFrom f (i + 1) l'
  end.

Definition mapi {A B : Type} (f : A -> Z -> B) (l : list A) : list B :=
  mapiFrom f 0 l.

(** [Math.max(...l)] and [Math.min(...l)] of a non-empty array given as
    head and tail. *)
Definition maxOf (x : Z) (l : list Z) : Z := fold_left Z.max l x.
Definition minOf (x : Z) (l : list Z) : Z := fold_left Z.min l x.

(** [arr.push(x)] *)
Definition push {A : Type} (l : list A) (x : A) : list A := app l [x].

(** [arr.find(p)] *)
Definition find {A : Type} (p : A -> bool) (l : list A) : option A := List.find p l.

End JsArray.

(* ===================================================================== *)
(** ** The Supabase AI client: [localAnalyzeDecision] *)

Module SupabaseAI.
Import JsString JsArray.

Record DecisionOption := {
  id : string;
  text : string;
  pros : option (list string);   (* [pros?: string[]] *)
  cons : option (list string)    (* [cons?: string[]] *)
}.

Inductive RiskLevel := low | medium | high.

Record AIRanking := {
  option_id : string;
  rank : Z;
  score : Z;
  predicted_outcome : string;
  risk_level : RiskLevel;
  time_horizon : string
}.

Record DecisionContext := {
  title : string;
  description : option string;
  category : string;
  urgency : string;
  options : list DecisionOption
}.

(** The fields of the result that are computed from the rankings. The
    narrative fields ([reasoning], [summary], [key_factors],
    [potential_biases]) are texts assembled afterwards; they never throw
    and nothing here reads them, so they are left out, as is the
    [userHistory] input that only [key_factors] reads. *)
Record AIAnalysisResult := {
  rankings : list AIRanking;
  confidence_score : JsNumber.float;
  recommended_action : string
}.

Definition workWords : list string :=
  ["work"; "project"; "job"; "task"; "assignment"; "study"; "homework";
   "deadline"; "school"; "college"; "office"].

Definition avoidanceWords : list string :=
  ["sleep"; "rest"; "relax"; "nothing"; "later"; "tomorrow"; "skip";
   "ignore"; "avoid"; "procrastinate"; "delay"; "netflix"; "game"; "play";
   "chill"].

Definition productiveWords : list string :=
  ["work"; "project"; "study"; "complete"; "finish"; "start"; "begin";
   "do"; "create"; "build"; "learn"; "practice"; "maths"; "math";
   "graphics"; "code"; "write"; "research"; "prepare"].

Definition positiveWords : list string :=
  ["best"; "better"; "good"; "great"; "important"; "priority"; "urgent";
   "deadline"; "required"; "necessary"].

Definition negativeWords : list string :=
  ["risk"; "bad"; "problem"; "difficult"; "hard"; "boring"; "tedious"].

(** [l?.length || 0] *)
Definition lengthOr0 (l : option (list string)) : Z :=
  match l with
  | Some l => Z.of_nat (List.length l)
  | None => 0
  end.

(** The outcome phrases, keyed by category. *)
Definition outcomes (category : string) : option (list string) :=
  if String.eqb category "career" then
    Some ["career advancement"; "professional growth"; "skill development"; "network expansion"]
  else if String.eqb category "finance" then
    Some ["financial stability"; "investment returns"; "cost savings"; "budget optimization"]
  else if String.eqb category "health" then
    Some ["improved wellness"; "better habits"; "increased energy"; "long-term health benefits"]
  else if String.eqb category "relationships" then
    Some ["stronger connections"; "better communication"; "mutual understanding"; "trust building"]
  else if String.eqb category "lifestyle" then
    Some ["improved quality of life"; "better work-life balance"; "personal satisfaction"; "new experiences"]
  else if String.eqb category "general" then
    Some ["positive progress"; "goal achievement"; "personal growth"; "favorable results"]
  else None.

(** [outcomes] is an object literal, so a category that names a member
    of [Object.prototype] finds that member, which is truthy and has no
    indexed elements: the phrase read from it is [undefined]. *)
Definition objectPrototypeKeys : list string :=
  ["constructor"; "hasOwnProperty"; "isPrototypeOf"; "propertyIsEnumerable";
   "toLocaleString"; "toString"; "valueOf"; "__proto__"; "__defineGetter__";
   "__defineSetter__"; "__lookupGetter__"; "__lookupSetter__"].

Definition outcomePhrase (category : string) (textLength : nat) : string :=
  if existsb (String.eqb category) objectPrototypeKeys then "undefined"
  else
    let categoryOutcomes :=
      match outcomes category with
      | Some l => l
      | None => match outcomes "general" with Some l => l | None => [] end
      end in
    let outcomeIndex := (textLength mod List.length categoryOutcomes)%nat in
    nth outcomeIndex categoryOutcomes "undefined".

Definition generateOutcome (option : DecisionOption) (category : string) : string :=
  let phrase := outcomePhrase category (String.length (text option)) in
  let prosCount := lengthOr0 (pros option) in
  let consCount := lengthOr0 (cons option) in
  if consCount <? prosCount then
    "Likely to result in " ++ phrase ++ " with manageable challenges"
  else if prosCount <? consCount then
    "May face obstacles but could lead to " ++ phrase ++ " with careful execution"
  else
    "Balanced outcome expected with potential for " ++ phrase.

(** The callback of [options.map((option, index) => ...)]. The unused
    local [isChoiceBetween] is not modelled; [Math.round] is the identity
    on the integer [score]. *)
Definition rankOption (context : DecisionContext) (isWorkDecision : bool)
    (titleLower : string) (option : DecisionOption) (index : Z) : AIRanking :=
  let optionText := trim (toLowerCase (text option)) in
  let score := 50 in
  let isAvoidance := existsb (includes optionText) avoidanceWords in
  let isProductive := existsb (includes optionText) productiveWords in
  let score :=
    if isWorkDecision then
      let score := if isAvoidance then score - 25 else score in
      if isProductive then score + 15 else score
    else score in
  let titleWords := filter (fun w => (3 <? String.length w)%nat) (splitWs titleLower) in
  let score :=
    fold_left (fun sc word => if includes optionText word then sc + 10 else sc)
      titleWords score in
  let score :=
    fold_left (fun sc word => if includes optionText word then sc + 5 else sc)
      positiveWords score in
  let score :=
    fold_left (fun sc word => if includes optionText word then sc - 3 else sc)
      negativeWords score in
  let score := score + lengthOr0 (pros option) * 10 in
  let score := score - lengthOr0 (cons option) * 7 in
  let wordCount := Z.of_nat (List.length (splitWs optionText)) in
  let score := if (2 <=? wordCount) && (wordCount <=? 10) then score + 5 else score in
  let score := score + Z.max 0 (3 - index) in
  let score := Z.min 95 (Z.max 20 score) in
  let risk_level :=
    if isAvoidance && isWorkDecision then high
    else if isProductive then low
    else medium in
  {| option_id := id option;
     rank := 0;
     score := score;
     predicted_outcome := generateOutcome option (category context);
     risk_level := risk_level;
     time_horizon :=
       if String.eqb (urgency context) "high" || String.eqb (urgency context) "critical"
       then "short-term" else "long-term" |}.

Definition rawRankings (context : DecisionContext) : list AIRanking :=
  let titleLower := toLowerCase (title context) in
  let descLower :=
    toLowerCase (match description context with
                 | Some d => if truthy d then d else ""
                 | None => ""
                 end) in
  let fullContext := titleLower ++ " " ++ descLower in
  let isWorkDecision := existsb (includes fullContext) workWords in
  mapi (rankOption context isWorkDecision titleLower) (options context).

Definition setScore (r : AIRanking) (s : Z) : AIRanking :=
  {| option_id := option_id r; rank := rank r; score := s;
     predicted_outcome := predicted_outcome r; risk_level := risk_level r;
     time_horizon := time_horizon r |}.

Definition setRank (r : AIRanking) (k : Z) : AIRanking :=
  {| option_id := option_id r; rank := k; score := score r;
     predicted_outcome := predicted_outcome r; risk_level := risk_level r;
     time_horizon := time_horizon r |}.

(** [Math.max(...scores) - Math.min(...scores)]; on the empty array the
    difference is -Infinity, which no test below tells from 0 - 1. *)
Definition spreadOf (scores : list Z) : Z :=
  match scores with
  | [] => -1
  | s :: ss => maxOf s ss - minOf s ss
  end.

(** [Math.max(25, Math.min(95, 85 - (i * 15)))] *)
Definition positionScore (i : Z) : Z := Z.max 25 (Z.min 95 (85 - i * 15)).

(** "Spread scores more": sort, then overwrite the score by position. *)
Definition spreadScores (rankings : list AIRanking) : list AIRanking :=
  mapi (fun r i => setScore r (positionScore i)) (sortDesc score rankings).

(** [maxScore - minScore < 15 && rankings.length > 1] *)
Definition needsSpreading (rankings : list AIRanking) : bool :=
  (spreadOf (map score rankings) <? 15) && (1 <? Z.of_nat (List.length rankings)).

(** "Ensure score differentiation" *)
Definition differentiate (rankings : list AIRanking) : list AIRanking :=
  if needsSpreading rankings then spreadScores rankings else rankings.

(** "Sort by score and assign ranks" *)
Definition assignRanks (rankings : list AIRanking) : list AIRanking :=
  mapi (fun r i => setRank r (i + 1)) (sortDesc score rankings).

Definition confidenceOfSpread (spread : Z) : JsNumber.float :=
  JsNumber.min (JsNumber.lit 95 100)
    (JsNumber.add (JsNumber.lit 5 10)
       (JsNumber.mul (JsNumber.div (JsNumber.ofZ spread) (JsNumber.ofZ 100))
          (JsNumber.lit 4 10))).

(** [topOption?.text || options[0]?.text || 'Make a choice'] *)
Definition recommendedAction (topOption : option DecisionOption)
    (options : list DecisionOption) : string :=
  match topOption with
  | Some o => if truthy (text o) then text o else
      match options with
      | o0 :: _ => if truthy (text o0) then text o0 else "Make a choice"
      | [] => "Make a choice"
      end
  | None =>
      match options with
      | o0 :: _ => if truthy (text o0) then text o0 else "Make a choice"
      | [] => "Make a choice"
      end
  end.

(** [None] is the TypeError of [rankings[0].option_id] on an empty
    array. *)
Definition localAnalyzeDecision (context : DecisionContext) : option AIAnalysisResult :=
  let rankings := assignRanks (differentiate (rawRankings context)) in
  match rankings with
  | [] => None
  | top :: _ =>
      let topOption := find (fun o => String.eqb (id o) (option_id top)) (options context) in
      let finalScores := map score rankings in
      let spread := spreadOf finalScores in
      Some {| rankings := rankings;
              confidence_score := confidenceOfSpread spread;
              recommended_action := recommendedAction topOption (options context) |}
  end.

Definition analyzeDecision := localAnalyzeDecision.

Definition firstFavoredWarning : string :=
  "The first option you listed has more positives - sometimes we unconsciously favor what comes to mind first".

Definition tooManyChoicesWarning : string :=
  "With so many choices, it can be tough to pick one. Consider if you can group similar options together".

Definition timePressureWarning : string :=
  "When pressed for time, we sometimes miss important details. Take a moment to breathe before deciding".

Definition positiveFramingWarning : string :=
  "You've listed lots of positives and fewer negatives. That's great, but also consider what could go wrong".

Definition negativeFramingWarning : string :=
  "You're focusing more on what could go wrong. Don't forget to also consider the good things that could happen".

Definition balancedMessage : string :=
  "Your analysis seems balanced - no major red flags in how you're approaching this".

(** [options.reduce((sum, o) => sum + (f(o)?.length || 0), 0)] *)
Definition totalLength (f : DecisionOption -> option (list string))
    (options : list DecisionOption) : Z :=
  fold_left (fun sum o => sum + lengthOr0 (f o)) options 0.

(** [detectBiases]; the averages are quotients of doubles, NaN on an
    empty list of options. *)
Definition detectBiases (context : DecisionContext) : list string :=
  let watchOuts := [] in
  let watchOuts :=
    match options context with
    | firstOption :: _ =>
        if lengthOr0 (cons firstOption) + 2 <? lengthOr0 (pros firstOption)
        then push watchOuts firstFavoredWarning else watchOuts
    | [] => watchOuts
    end in
  let watchOuts :=
    if 5 <? Z.of_nat (List.length (options context))
    then push watchOuts tooManyChoicesWarning else watchOuts in
  let watchOuts :=
    if String.eqb (urgency context) "critical"
    then push watchOuts timePressureWarning else watchOuts in
  let count := JsNumber.ofZ (Z.of_nat (List.length (options context))) in
  let avgPros := JsNumber.div (JsNumber.ofZ (totalLength pros (options context))) count in
  let avgCons := JsNumber.div (JsNumber.ofZ (totalLength cons (options context))) count in
  let watchOuts :=
    if JsNumber.gt avgPros (JsNumber.mul avgCons (JsNumber.ofZ 2))
    then push watchOuts positiveFramingWarning
    else if JsNumber.gt avgCons (JsNumber.mul avgPros (JsNumber.ofZ 2))
    then push watchOuts negativeFramingWarning
    else watchOuts in
  if Z.of_nat (List.length watchOuts) =? 0
  then push watchOuts balancedMessage else watchOuts.

Definition genericProsPatterns : list string :=
  ["offers a viable path"; "addresses the decision"; "provides a definitive choice";
   "takes action rather than remaining stuck"; "allows you to move forward";
   "first option that comes to mind"; "requires less decision"; "offers an alternative";
   "provides more options"].

Definition genericConsPatterns : list string :=
  ["requires careful consideration of trade-offs"; "may involve trade-offs";
   "has trade-offs like any"; "means not choosing"].

(** [/pattern/i.test(text)], for a pattern that is a plain lower-case
    text. *)
Definition testIgnoreCase (pattern text : string) : bool :=
  includes (toLowerCase text) pattern.

(** [items?.filter(item => !patterns.some(pattern => pattern.test(item))) || []] *)
Definition meaningful (patterns : list string) (items : option (list string)) : list string :=
  match items with
  | Some l => filter (fun item => negb (existsb (fun p => testIgnoreCase p item) patterns)) l
  | None => []
  end.

Definition quote : string := String "034"%char EmptyString.
Definition newline : string := String "010"%char EmptyString.

Definition closeOptionsParagraph : string :=
  newline ++ newline ++
  "Honestly, all your options are pretty close in quality. Trust your gut feeling on this one - there's no clearly " ++
  quote ++ "wrong" ++ quote ++ " choice here.".

Definition clearWinnerParagraph : string :=
  newline ++ newline ++
  "There's a noticeable difference between the options. The top choice clearly has more going for it compared to the others.".

(** The closing paragraph for a middling spread; [topText] is
    [topOption?.text]. *)
Definition whileParagraph (topText : string) : string :=
  newline ++ newline ++ "While " ++ quote ++ topText ++ quote ++
  " seems strongest, the other options have their merits too. Consider what matters most to you personally.".

(** The parts pushed for the top option, given the first ranking. *)
Definition topOptionParts (top : AIRanking) (topOption : DecisionOption) : list string :=
  let parts :=
    [newline ++ newline ++ "**Why " ++ quote ++ text topOption ++ quote ++ " stands out:**"] in
  let meaningfulPros := meaningful genericProsPatterns (pros topOption) in
  let parts :=
    if 0 <? Z.of_nat (List.length meaningfulPros) then
      push parts (newline ++ "This option has some really strong points: " ++
                  join "; " (firstn 3 meaningfulPros) ++ ".")
    else
      push parts (newline ++ "This option scored well (" ++ showZ (score top) ++
                  "/100) based on the overall analysis.") in
  let meaningfulCons := meaningful genericConsPatterns (cons topOption) in
  let parts :=
    if 0 <? Z.of_nat (List.length meaningfulCons) then
      push parts (newline ++ "However, keep in mind: " ++ join "; " (firstn 2 meaningfulCons) ++
                  ". These aren't deal-breakers, just things to be aware of.")
    else parts in
  match risk_level top with
  | low =>
      push parts (newline ++ "Overall, this is a pretty safe choice with manageable downsides.")
  | high =>
      push parts (newline ++ "This option does carry some risk, so make sure you're prepared for potential challenges.")
  | medium => parts
  end.

(** The [parts] array of [generateReasoning] when it returns; [None] is
    the TypeError of reading the first ranking of an empty array, which
    happens when there is a top option. *)
Definition reasoningParts (context : DecisionContext) (rankings : list AIRanking)
    (topOption : option DecisionOption) : option (list string) :=
  let parts :=
    ["I looked at all " ++ showZ (Z.of_nat (List.length (options context))) ++
     " options you're considering for " ++ quote ++ title context ++ quote ++ "."] in
  let parts :=
    if String.eqb (urgency context) "high" || String.eqb (urgency context) "critical" then
      push parts "Since this decision is urgent, I focused on which option will give you the best results quickly."
    else
      push parts "I evaluated each option based on its potential benefits and drawbacks." in
  let withTop :=
    match topOption, rankings with
    | Some o, top :: _ => Some (app parts (topOptionParts top o))
    | Some _, [] => None
    | None, _ => Some parts
    end in
  match withTop with
  | None => None
  | Some parts =>
      let scoreSpread := spreadOf (map score rankings) in
      Some
        (if scoreSpread <? 15 then push parts closeOptionsParagraph
         else if 30 <? scoreSpread then push parts clearWinnerParagraph
         else
           push parts
             (whileParagraph
                match topOption with Some o => text o | None => "undefined" end))
  end.

(** [generateReasoning]: the parts joined by a space. *)
Definition generateReasoning (context : DecisionContext) (rankings : list AIRanking)
    (topOption : option DecisionOption) : option string :=
  match reasoningParts context rankings topOption with
  | Some parts => Some (join " " parts)
  | None => None
  end.

(** The [reasoning] member that [localAnalyzeDecision] computes for its
    result: [generateReasoning(context, rankings, topOption)] on the
    final rankings. *)
Definition reasoning (context : DecisionContext) : option string :=
  let rankings := assignRanks (differentiate (rawRankings context)) in
  match rankings with
  | [] => None
  | top :: _ =>
      generateReasoning context rankings
        (find (fun o => String.eqb (id o) (option_id top)) (options context))
  end.

End SupabaseAI.

(* ===================================================================== *)
(** ** The weekly metrics analyzer: lib/ai/insights-engine.ts *)

Module InsightsEngine.
Import JsString.

(** An element of the [options] column and the [chosen_option] column:
    the code reads only their [id]. *)
Record ChoiceRef := { ref_id : string }.

(** A row of the [decisions] table. [time_to_decide] is an INTEGER
    column of seconds and [confidence_score] a DECIMAL one. *)
Record Decision := {
  id : string;
  user_id : string;
  title : string;
  category : string;
  urgency : string;
  options : option (list ChoiceRef);
  chosen_option : option ChoiceRef;
  confidence_score : option JsNumber.float;
  time_to_decide : option Z;
  is_completed : bool;
  created_at : string
}.

(** [counts[day] = (counts[day] || 0) + 1] on an object whose entries
    are kept in insertion order. *)
Fixpoint bump (day : string) (counts : list (string * Z)) : list (string * Z) :=
  match counts with
  | [] => [(day, (0 + 1))]
  | (k, n) :: rest =>
      if String.eqb k day
      then (k, (if n =? 0 then 0 else n) + 1) :: rest
      else (k, n) :: bump day rest
  end.

(** The accumulators of the loop in [calculateFatigueScore]. *)
Record FatigueTally := {
  dailyDecisionCounts : list (string * Z);
  highUrgencyCount : Z;
  totalTimeToDecide : Z;
  decisionsWithTime : Z;
  incompleteCount : Z
}.

Definition emptyTally : FatigueTally :=
  {| dailyDecisionCounts := []; highUrgencyCount := 0; totalTimeToDecide := 0;
     decisionsWithTime := 0; incompleteCount := 0 |}.

(** [if (d.time_to_decide)]: a number is truthy when it is present and
    not 0. *)
Definition recordedTime (d : Decision) : option Z :=
  match time_to_decide d with
  | Some t => if t =? 0 then None else Some t
  | None => None
  end.

(** The four weighted terms added to [fatigue], in the order of the
    code. *)
Record FatigueTerms := {
  dailyTerm : JsNumber.float;
  urgencyTerm : JsNumber.float;
  timeTerm : JsNumber.float;
  incompleteTerm : JsNumber.float
}.

Definition sumValues (counts : list (string * Z)) : Z :=
  fold_left (fun a kv => a + snd kv) counts 0.

Definition fatigueTerms (t : FatigueTally) (n : Z) : FatigueTerms :=
  let avgDailyDecisions :=
    JsNumber.div (JsNumber.ofZ (sumValues (dailyDecisionCounts t)))
      (JsNumber.ofZ (Z.of_nat (List.length (dailyDecisionCounts t)))) in
  let urgencyRatio := JsNumber.div (JsNumber.ofZ (highUrgencyCount t)) (JsNumber.ofZ n) in
  let avgTimeToDecide :=
    if 0 <? decisionsWithTime t
    then JsNumber.div (JsNumber.ofZ (totalTimeToDecide t)) (JsNumber.ofZ (decisionsWithTime t))
    else JsNumber.ofZ 0 in
  let incompleteRatio := JsNumber.div (JsNumber.ofZ (incompleteCount t)) (JsNumber.ofZ n) in
  {| dailyTerm := JsNumber.min (JsNumber.div avgDailyDecisions (JsNumber.ofZ 5)) (JsNumber.lit 25 10);
     urgencyTerm := JsNumber.mul urgencyRatio (JsNumber.lit 25 10);
     timeTerm := JsNumber.min (JsNumber.div avgTimeToDecide (JsNumber.ofZ 300)) (JsNumber.lit 25 10);
     incompleteTerm := JsNumber.mul incompleteRatio (JsNumber.lit 25 10) |}.

Definition fatigueOfTerms (c : FatigueTerms) : JsNumber.float :=
  let fatigue := JsNumber.ofZ 0 in
  let fatigue := JsNumber.add fatigue (dailyTerm c) in
  let fatigue := JsNumber.add fatigue (urgencyTerm c) in
  let fatigue := JsNumber.add fatigue (timeTerm c) in
  let fatigue := JsNumber.add fatigue (incompleteTerm c) in
  JsNumber.min fatigue (JsNumber.ofZ 10).

Section WithDate.
(** [new Date(s).toISOString().split('T')[0]]: the UTC calendar day of
    a timestamp, or [None] for the RangeError thrown on a string that
    is not a date. *)
Variable isoDay : string -> option string.

Definition tallyStep (acc : option FatigueTally) (d : Decision) : option FatigueTally :=
  match acc with
  | None => None
  | Some t =>
      match isoDay (created_at d) with
      | None => None
      | Some day =>
          let high := String.eqb (urgency d) "high" || String.eqb (urgency d) "critical" in
          Some {| dailyDecisionCounts := bump day (dailyDecisionCounts t);
                  highUrgencyCount :=
                    if high then highUrgencyCount t + 1 else highUrgencyCount t;
                  totalTimeToDecide :=
                    match recordedTime d with
                    | Some s => totalTimeToDecide t + s
                    | None => totalTimeToDecide t
                    end;
                  decisionsWithTime :=
                    match recordedTime d with
                    | Some _ => decisionsWithTime t + 1
                    | None => decisionsWithTime t
                    end;
                  incompleteCount :=
                    if negb (is_completed d) then incompleteCount t + 1
                    else incompleteCount t |}
      end
  end.

Definition tally (decisions : list Decision) : option FatigueTally :=
  fold_left tallyStep decisions (Some emptyTally).

(** The four terms for a non-empty list of decisions. *)
Definition fatigueTermsOf (decisions : list Decision) : option FatigueTerms :=
  match tally decisions with
  | Some t => Some (fatigueTerms t (Z.of_nat (List.length decisions)))
  | None => None
  end.

Definition calculateFatigueScore (decisions : list Decision) : option JsNumber.float :=
  match decisions with
  | [] => Some (JsNumber.ofZ 0)
  | _ =>
      match fatigueTermsOf decisions with
      | Some c => Some (fatigueOfTerms c)
      | None => None
      end
  end.
End WithDate.

(** The counters of the loop in [analyzeBiases]. *)
Record BiasTally := {
  firstOptionCount : Z;
  lastOptionCount : Z;
  highConfidenceLowSuccess : Z;
  longDecisionTime : Z
}.

Definition biasStep (acc : BiasTally) (d : Decision) : BiasTally :=
  let '(first, last) :=
    match options d, chosen_option d with
    | Some (o :: os), Some chosen =>
        (String.eqb (ref_id o) (ref_id chosen),
         String.eqb (ref_id (List.last os o)) (ref_id chosen))
    | _, _ => (false, false)
    end in
  let confident :=
    match confidence_score d with
    | Some c => JsNumber.truthy c && JsNumber.gt c (JsNumber.lit 8 10)
    | None => false
    end in
  let slow :=
    match time_to_decide d with
    | Some t => negb (t =? 0) && (600 <? t)
    | None => false
    end in
  {| firstOptionCount := if first then firstOptionCount acc + 1 else firstOptionCount acc;
     lastOptionCount := if last then lastOptionCount acc + 1 else lastOptionCount acc;
     highConfidenceLowSuccess :=
       if confident then highConfidenceLowSuccess acc + 1 else highConfidenceLowSuccess acc;
     longDecisionTime := if slow then longDecisionTime acc + 1 else longDecisionTime acc |}.

(** The returned object, as its entries in property order. *)
Definition analyzeBiases (decisions : list Decision) : list (string * JsNumber.float) :=
  let t := fold_left biasStep decisions
             {| firstOptionCount := 0; lastOptionCount := 0;
                highConfidenceLowSuccess := 0; longDecisionTime := 0 |} in
  let n := Z.of_nat (List.length decisions) in
  let total := if n =? 0 then 1 else n in
  [ ("first_option_bias", JsNumber.div (JsNumber.ofZ (firstOptionCount t)) (JsNumber.ofZ total));
    ("last_option_bias", JsNumber.div (JsNumber.ofZ (lastOptionCount t)) (JsNumber.ofZ total));
    ("status_quo_bias", JsNumber.ofZ 0);
    ("overconfidence_bias",
      JsNumber.div (JsNumber.ofZ (highConfidenceLowSuccess t)) (JsNumber.ofZ total));
    ("analysis_paralysis",
      JsNumber.div (JsNumber.ofZ (longDecisionTime t)) (JsNumber.ofZ total)) ].

(** The members of [UserMetrics] that insight generation reads.
    [biasAnalysis] and [categoryPerformance] are objects, given by their
    entries in property order. *)
Record CategoryStats := { total : Z; positive : Z }.

Record UserMetrics := {
  successRate : JsNumber.float;
  fatigueScore : JsNumber.float;
  biasAnalysis : list (string * JsNumber.float);
  categoryPerformance : list (string * CategoryStats)
}.

(** The [metrics] payload of an insight. In [Insight], the members
    [user_id] and [category] carry the prefix [insight_], since
    [Decision] has members of these names. *)
Inductive InsightMetrics :=
| MetricNumber (key : string) (value : JsNumber.float)
| MetricCategories (entries : list (string * CategoryStats)).

(** A key that an object literal inherits from [Object.prototype]:
    reading it finds the inherited member, which is truthy. In
    [analyzeCategoryPerformance] no own property is then created for a
    category of that name and the increments go to the inherited
    member; in [generateInsightsFromMetrics] the lookup
    [biasDescriptions[bias]] succeeds and yields that member. *)
Definition inheritedKey (k : string) : bool :=
  existsb (String.eqb k) SupabaseAI.objectPrototypeKeys.

(** What [insight_text] holds: a text, or the member of
    [Object.prototype] of the given name (a function, or the prototype
    itself for "__proto__") when the description was looked up under a
    bias key that every object inherits. *)
Inductive InsightText :=
| Text (s : string)
| PrototypeMember (key : string).

Record Insight := {
  insight_user_id : string;
  insight_type : string;
  insight_title : string;
  insight_text : InsightText;
  metrics : InsightMetrics;
  insight_category : option string;
  period_start : string;
  period_end : string;
  action_items : option (list string);
  priority : Z
}.

(** [biasDescriptions[bias]]: one of the four texts of the literal, the
    inherited member for a key of [Object.prototype], and [None]
    ([undefined]) for any other key. *)
Definition biasDescriptions (bias : string) : option InsightText :=
  if String.eqb bias "first_option_bias" then
    Some (Text "You tend to choose the first option presented. Consider evaluating all options equally.")
  else if String.eqb bias "last_option_bias" then
    Some (Text "You tend to favor the last option you consider. The earlier options might be better.")
  else if String.eqb bias "overconfidence_bias" then
    Some (Text "Your high confidence doesn't always match outcomes. Consider seeking second opinions.")
  else if String.eqb bias "analysis_paralysis" then
    Some (Text "You spend significant time on decisions. Try setting time limits for choices.")
  else if inheritedKey bias then Some (PrototypeMember bias)
  else None.

(** [stats.total > 0 ? stats.positive / stats.total : 0] *)
Definition rateOf (stats : CategoryStats) : JsNumber.float :=
  if 0 <? total stats
  then JsNumber.div (JsNumber.ofZ (positive stats)) (JsNumber.ofZ (total stats))
  else JsNumber.ofZ 0.

Definition noCategory : string * CategoryStats := ("none", {| total := 0; positive := 0 |}).

(** The callback of [categories.reduce(...)]. *)
Definition betterCategory (best entry : string * CategoryStats) : string * CategoryStats :=
  let rate := rateOf (snd entry) in
  let bestRate := rateOf (snd best) in
  if JsNumber.gt rate bestRate then entry else best.

Definition bestCategory (categories : list (string * CategoryStats)) : string * CategoryStats :=
  fold_left betterCategory categories noCategory.

Section WithFormat.
(** [x.toFixed(digits)] *)
Variable toFixed : JsNumber.float -> nat -> string.

Definition percent (x : JsNumber.float) : JsNumber.float :=
  JsNumber.mul x (JsNumber.ofZ 100).

Definition successInsights (userId : string) (m : UserMetrics)
    (periodStart periodEnd : string) : list Insight :=
  if JsNumber.ge (successRate m) (JsNumber.lit 7 10) then
    [ {| insight_user_id := userId;
         insight_type := "weekly";
         insight_title := "Strong Decision Performance";
         insight_text :=
           Text ("Your success rate of " ++ toFixed (percent (successRate m)) 1 ++
                 "% shows excellent decision-making skills this period.");
         metrics := MetricNumber "successRate" (successRate m);
         insight_category := None;
         period_start := periodStart;
         period_end := periodEnd;
         action_items := None;
         priority := 5 |} ]
  else if JsNumber.lt (successRate m) (JsNumber.lit 5 10) then
    [ {| insight_user_id := userId;
         insight_type := "weekly";
         insight_title := "Decision Quality Alert";
         insight_text :=
           Text ("Your success rate of " ++ toFixed (percent (successRate m)) 1 ++
                 "% suggests room for improvement. Consider taking more time for important decisions.");
         metrics := MetricNumber "successRate" (successRate m);
         insight_category := None;
         period_start := periodStart;
         period_end := periodEnd;
         action_items :=
           Some ["Review recent decisions that didn't work out";
                 "Consider seeking input before major choices"];
         priority := 8 |} ]
  else [].

Definition fatigueInsights (userId : string) (m : UserMetrics)
    (periodStart periodEnd : string) : list Insight :=
  if JsNumber.ge (fatigueScore m) (JsNumber.ofZ 7) then
    [ {| insight_user_id := userId;
         insight_type := "pattern";
         insight_title := "High Decision Fatigue Detected";
         insight_text :=
           Text ("Your fatigue score of " ++ toFixed (fatigueScore m) 1 ++
                 "/10 indicates you might be overwhelmed. Consider batching smaller decisions.");
         metrics := MetricNumber "fatigueScore" (fatigueScore m);
         insight_category := None;
         period_start := periodStart;
         period_end := periodEnd;
         action_items :=
           Some ["Batch similar decisions together";
                 "Delegate minor decisions when possible";
                 "Set decision-making time limits"];
         priority := 9 |} ]
  else [].

Definition biasInsight (userId : string) (periodStart periodEnd : string)
    (entry : string * JsNumber.float) : list Insight :=
  let '(bias, score) := entry in
  if JsNumber.gt score (JsNumber.lit 4 10) then
    match biasDescriptions bias with
    | Some description =>
        [ {| insight_user_id := userId;
             insight_type := "pattern";
             insight_title := capitalizeWords (underscoresToSpaces bias) ++ " Detected";
             insight_text := description;
             metrics := MetricNumber bias score;
             insight_category := None;
             period_start := periodStart;
             period_end := periodEnd;
             action_items := None;
             priority := 7 |} ]
    | None => []
    end
  else [].

Definition categoryInsights (userId : string) (m : UserMetrics)
    (periodStart periodEnd : string) : list Insight :=
  let best := bestCategory (categoryPerformance m) in
  if negb (String.eqb (fst best) "none") && (3 <=? total (snd best)) then
    [ {| insight_user_id := userId;
         insight_type := "category";
         insight_title := "Strong in " ++ capitalizeFirst (fst best) ++ " Decisions";
         insight_text :=
           Text ("You excel at " ++ fst best ++ " decisions with a " ++
                 toFixed (percent (JsNumber.div (JsNumber.ofZ (positive (snd best)))
                                     (JsNumber.ofZ (total (snd best))))) 0 ++
                 "% success rate.");
         metrics := MetricCategories (categoryPerformance m);
         insight_category := Some (fst best);
         period_start := periodStart;
         period_end := periodEnd;
         action_items := None;
         priority := 4 |} ]
  else [].

Definition generateInsightsFromMetrics (userId : string) (m : UserMetrics)
    (periodStart periodEnd : string) : list Insight :=
  successInsights userId m periodStart periodEnd ++
  fatigueInsights userId m periodStart periodEnd ++
  flat_map (biasInsight userId periodStart periodEnd) (biasAnalysis m) ++
  categoryInsights userId m periodStart periodEnd.
End WithFormat.

(** A row of the [outcomes] table; [outcome_score] is an INTEGER column.
    Its members [id] and [user_id] carry the prefix [outcome_]. *)
Record Outcome := {
  outcome_id : string;
  decision_id : string;
  outcome_user_id : string;
  outcome_type : string;
  outcome_score : option Z
}.

(** [o.outcome_type === 'positive' || (o.outcome_score && o.outcome_score >= 7)] *)
Definition isPositive (o : Outcome) : bool :=
  String.eqb (outcome_type o) "positive" ||
  match outcome_score o with
  | Some s => negb (s =? 0) && (7 <=? s)
  | None => false
  end.

Definition calculateSuccessRate (outcomes : list Outcome) : JsNumber.float :=
  match outcomes with
  | [] => JsNumber.ofZ 0
  | _ =>
      let positiveOutcomes := Z.of_nat (List.length (filter isPositive outcomes)) in
      JsNumber.div (JsNumber.ofZ positiveOutcomes)
        (JsNumber.ofZ (Z.of_nat (List.length outcomes)))
  end.

(** A keyed store in insertion order: [set] overwrites the value of a
    key that is present and appends a new key; [get] reads it. It models
    the [Map] of outcomes and the own properties of the [categoryStats]
    object. *)
Fixpoint storeSet {V : Type} (k : string) (v : V) (m : list (string * V))
  : list (string * V) :=
  match m with
  | [] => [(k, v)]
  | (k', v') :: m' =>
      if String.eqb k' k then (k', v) :: m' else (k', v') :: storeSet k v m'
  end.

Fixpoint storeGet {V : Type} (k : string) (m : list (string * V)) : option V :=
  match m with
  | [] => None
  | (k', v') :: m' => if String.eqb k' k then Some v' else storeGet k m'
  end.

(** [outcomes.forEach((o) => outcomesByDecision.set(o.decision_id, o))] *)
Definition outcomesByDecision (outcomes : list Outcome) : list (string * Outcome) :=
  fold_left (fun m o => storeSet (decision_id o) o m) outcomes [].

(** The accumulator kept per category. *)
Record CategoryTally := {
  tallyTotal : Z;
  tallyPositive : Z;
  confidenceSum : JsNumber.float
}.

(** The body of [decisions.forEach] in [analyzeCategoryPerformance]. *)
Definition categoryStep (byDecision : list (string * Outcome))
    (stats : list (string * CategoryTally)) (d : Decision)
  : list (string * CategoryTally) :=
  let category := if truthy (category d) then category d else "general" in
  if inheritedKey category then stats
  else
    let current :=
      match storeGet category stats with
      | Some t => t
      | None => {| tallyTotal := 0; tallyPositive := 0; confidenceSum := JsNumber.ofZ 0 |}
      end in
    let confidence :=
      match confidence_score d with
      | Some c => if JsNumber.truthy c then c else JsNumber.ofZ 0
      | None => JsNumber.ofZ 0
      end in
    let positiveOutcome :=
      match storeGet (id d) byDecision with
      | Some outcome => isPositive outcome
      | None => false
      end in
    storeSet category
      {| tallyTotal := tallyTotal current + 1;
         tallyPositive :=
           if positiveOutcome then tallyPositive current + 1 else tallyPositive current;
         confidenceSum := JsNumber.add (confidenceSum current) confidence |}
      stats.

(** The value of a decimal digit string. *)
Definition digitValue (c : ascii) : option Z :=
  let n := nat_of_ascii c in
  if ((48 <=? n) && (n <=? 57))%nat then Some (Z.of_nat n - 48) else None.

Fixpoint digitsValue (s : string) (acc : Z) : option Z :=
  match s with
  | EmptyString => Some acc
  | String c s' =>
      match digitValue c with
      | Some v => digitsValue s' (acc * 10 + v)
      | None => None
      end
  end.

(** A key that is an array index: the canonical decimal text of an integer
    from 0 to 2^32 - 2. *)
Definition arrayIndex (k : string) : option Z :=
  match k with
  | EmptyString => None
  | String c rest =>
      if Ascii.eqb c "0" && negb (String.eqb rest "") then None
      else
        match digitsValue k 0 with
        | Some v => if v <=? 4294967294 then Some v else None
        | None => None
        end
  end.

Fixpoint insertByIndex {V : Type} (e : Z * (string * V)) (l : list (Z * (string * V)))
  : list (Z * (string * V)) :=
  match l with
  | [] => [e]
  | e' :: l' => if fst e <=? fst e' then e :: l else e' :: insertByIndex e l'
  end.

(** [Object.entries(o)] of an object whose own properties were created
    in the order of [m]: the array-index keys come first, in ascending
    numeric order, then the other keys in creation order. *)
Definition objectEntries {V : Type} (m : list (string * V)) : list (string * V) :=
  let indexed :=
    fold_right
      (fun kv acc =>
         match arrayIndex (fst kv) with
         | Some i => insertByIndex (i, kv) acc
         | None => acc
         end) [] m in
  map snd indexed ++
  filter (fun kv => match arrayIndex (fst kv) with Some _ => false | None => true end) m.

(** An entry of the returned object. Its members [total] and [positive]
    carry the prefix [perf_]. *)
Record CategoryPerformance := {
  perf_total : Z;
  perf_positive : Z;
  avgConfidence : JsNumber.float
}.

Definition categoryTallies (decisions : list Decision) (outcomes : list Outcome)
  : list (string * CategoryTally) :=
  fold_left (categoryStep (outcomesByDecision outcomes)) decisions [].

(** The returned object, as its entries in property order. *)
Definition analyzeCategoryPerformance (decisions : list Decision) (outcomes : list Outcome)
  : list (string * CategoryPerformance) :=
  map (fun kv =>
         (fst kv,
          {| perf_total := tallyTotal (snd kv);
             perf_positive := tallyPositive (snd kv);
             avgConfidence :=
               if 0 <? tallyTotal (snd kv)
               then JsNumber.div (confidenceSum (snd kv)) (JsNumber.ofZ (tallyTotal (snd kv)))
               else JsNumber.ofZ 0 |}))
    (objectEntries (categoryTallies decisions outcomes)).


Section WithClock.
(** [new Date(s).getHours()]: the hour of a timestamp in the local time
    zone, or [None] for the NaN of a string that is not a date. *)
Variable hourOf : string -> option Z.


End WithClock.

End InsightsEngine.

(* ===================================================================== *)
(** ** The scheduled job: supabase/functions/weekly-insights/index.ts

    The job declares the same [Decision] row type and carries its own
    copies of the two functions. *)

Module WeeklyInsights.
Import InsightsEngine.

Section WithDate.
Variable isoDay : string -> option string.

(** The body of [for (const d of decisions)]. *)
Definition tallyStep (acc : option FatigueTally) (d : Decision) : option FatigueTally :=
  match acc with
  | None => None
  | Some t =>
      match isoDay (created_at d) with
      | None => None
      | Some day =>
          let counts := bump day (dailyDecisionCounts t) in
          let high :=
            if String.eqb (urgency d) "high" || String.eqb (urgency d) "critical"
            then highUrgencyCount t + 1 else highUrgencyCount t in
          let '(totalTime, timeCount) :=
            match time_to_decide d with
            | Some s =>
                if s =? 0 then (totalTimeToDecide t, decisionsWithTime t)
                else (totalTimeToDecide t + s, decisionsWithTime t + 1)
            | None => (totalTimeToDecide t, decisionsWithTime t)
            end in
          let incomplete :=
            if negb (is_completed d) then incompleteCount t + 1 else incompleteCount t in
          Some {| dailyDecisionCounts := counts; highUrgencyCount := high;
                  totalTimeToDecide := totalTime; decisionsWithTime := timeCount;
                  incompleteCount := incomplete |}
      end
  end.

Definition fatigueTermsOf (decisions : list Decision) : option FatigueTerms :=
  match fold_left tallyStep decisions (Some emptyTally) with
  | Some t => Some (fatigueTerms t (Z.of_nat (List.length decisions)))
  | None => None
  end.

Definition calculateFatigueScore (decisions : list Decision) : option JsNumber.float :=
  match decisions with
  | [] => Some (JsNumber.ofZ 0)
  | _ =>
      match fatigueTermsOf decisions with
      | Some c => Some (fatigueOfTerms c)
      | None => None
      end
  end.
End WithDate.

Definition biasStep (acc : Z * Z * Z) (d : Decision) : Z * Z * Z :=
  let '(firstOption, highConfidence, longTime) := acc in
  let first :=
    match options d, chosen_option d with
    | Some (o :: _), Some chosen => String.eqb (ref_id o) (ref_id chosen)
    | _, _ => false
    end in
  let confident :=
    match confidence_score d with
    | Some c => JsNumber.truthy c && JsNumber.gt c (JsNumber.lit 8 10)
    | None => false
    end in
  let slow :=
    match time_to_decide d with
    | Some t => negb (t =? 0) && (600 <? t)
    | None => false
    end in
  (if first then firstOption + 1 else firstOption,
   if confident then highConfidence + 1 else highConfidence,
   if slow then longTime + 1 else longTime).

Definition analyzeBiases (decisions : list Decision) : list (string * JsNumber.float) :=
  let '(firstOption, highConfidence, longTime) := fold_left biasStep decisions (0, 0, 0) in
  let n := Z.of_nat (List.length decisions) in
  let total := if n =? 0 then 1 else n in
  [ ("first_option_bias", JsNumber.div (JsNumber.ofZ firstOption) (JsNumber.ofZ total));
    ("overconfidence_bias", JsNumber.div (JsNumber.ofZ highConfidence) (JsNumber.ofZ total));
    ("analysis_paralysis", JsNumber.div (JsNumber.ofZ longTime) (JsNumber.ofZ total)) ].

(** The job's [calculateSuccessRate]. *)
Definition calculateSuccessRate (outcomes : list Outcome) : JsNumber.float :=
  match outcomes with
  | [] => JsNumber.ofZ 0
  | _ =>
      let positive := Z.of_nat (List.length (filter isPositive outcomes)) in
      JsNumber.div (JsNumber.ofZ positive) (JsNumber.ofZ (Z.of_nat (List.length outcomes)))
  end.

(** The job's [UserMetrics]. *)
Record JobMetrics := {
  job_successRate : JsNumber.float;
  job_fatigueScore : JsNumber.float;
  job_productivityScore : JsNumber.float;
  job_biasAnalysis : list (string * JsNumber.float)
}.

(** The [metrics] payload of an insight of the job. *)
Inductive JobInsightMetrics :=
| SummaryMetrics (totalDecisions : Z)
    (successRate fatigueScore productivityScore : JsNumber.float)
| NumberMetric (key : string) (value : JsNumber.float).

Record JobInsight := {
  job_user_id : string;
  job_insight_type : string;
  job_insight_title : string;
  job_insight_text : InsightText;
  job_metrics : JobInsightMetrics;
  job_period_start : string;
  job_period_end : string;
  job_priority : Z;
  job_action_items : option (list string)
}.

(** [descriptions[bias]]: one of the three texts of the literal, the
    inherited member for a key of [Object.prototype], and [None]
    ([undefined]) for any other key. *)
Definition descriptions (bias : string) : option InsightText :=
  if String.eqb bias "first_option_bias" then
    Some (Text "You tend to choose the first option. Consider evaluating all options equally.")
  else if String.eqb bias "overconfidence_bias" then
    Some (Text "High confidence doesn't always match outcomes. Consider seeking second opinions.")
  else if String.eqb bias "analysis_paralysis" then
    Some (Text "You spend significant time on decisions. Try setting time limits.")
  else if inheritedKey bias then Some (PrototypeMember bias)
  else None.

(** [bias.split('_').map(w => w.charAt(0).toUpperCase() + w.slice(1)).join(' ')] *)
Definition biasTitle (bias : string) : string :=
  JsString.join " " (map JsString.capitalizeFirst (JsString.splitChar "_" bias)).

Section WithFormat.
(** [x.toFixed(digits)] *)
Variable toFixed : JsNumber.float -> nat -> string.

Definition summaryInsight (userId : string) (m : JobMetrics) (totalDecisions : Z)
    (periodStart periodEnd : string) : JobInsight :=
  {| job_user_id := userId;
     job_insight_type := "weekly";
     job_insight_title := "Weekly Decision Summary";
     job_insight_text :=
       Text ("This week you made " ++ JsString.showZ totalDecisions ++ " decisions with a " ++
             toFixed (JsNumber.mul (job_successRate m) (JsNumber.ofZ 100)) 1 ++
             "% success rate.");
     job_metrics :=
       SummaryMetrics totalDecisions (job_successRate m) (job_fatigueScore m)
         (job_productivityScore m);
     job_period_start := periodStart;
     job_period_end := periodEnd;
     job_priority := 5;
     job_action_items := None |}.

Definition fatigueAlert (userId : string) (m : JobMetrics)
    (periodStart periodEnd : string) : list JobInsight :=
  if JsNumber.ge (job_fatigueScore m) (JsNumber.ofZ 7) then
    [ {| job_user_id := userId;
         job_insight_type := "pattern";
         job_insight_title := "High Decision Fatigue";
         job_insight_text :=
           Text ("Your fatigue score of " ++ toFixed (job_fatigueScore m) 1 ++
                 "/10 suggests you may be overwhelmed. Consider batching decisions or delegating minor ones.");
         job_metrics := NumberMetric "fatigueScore" (job_fatigueScore m);
         job_period_start := periodStart;
         job_period_end := periodEnd;
         job_priority := 9;
         job_action_items :=
           Some ["Batch similar decisions"; "Set time limits for choices";
                 "Delegate minor decisions"] |} ]
  else [].

Definition biasAlert (userId : string) (periodStart periodEnd : string)
    (entry : string * JsNumber.float) : list JobInsight :=
  let '(bias, score) := entry in
  if JsNumber.gt score (JsNumber.lit 4 10) then
    match descriptions bias with
    | Some description =>
        [ {| job_user_id := userId;
             job_insight_type := "pattern";
             job_insight_title := biasTitle bias;
             job_insight_text := description;
             job_metrics := NumberMetric bias score;
             job_period_start := periodStart;
             job_period_end := periodEnd;
             job_priority := 7;
             job_action_items := None |} ]
    | None => []
    end
  else [].

Definition generateInsightsFromMetrics (userId : string) (m : JobMetrics)
    (totalDecisions : Z) (periodStart periodEnd : string) : list JobInsight :=
  summaryInsight userId m totalDecisions periodStart periodEnd ::
  fatigueAlert userId m periodStart periodEnd ++
  flat_map (biasAlert userId periodStart periodEnd) (job_biasAnalysis m).
End WithFormat.

End WeeklyInsights.

(* ===================================================================== *)
(** ** Vocabulary of the statements *)

(** Descending by [key]: every entry is at least every later one. *)
Definition Descending {A : Type} (key : A -> Z) (l : list A) : Prop :=
  StronglySorted (fun a b => key b <= key a) l.

(** The entries of [l] whose key is [s], in the order of [l]. *)
Definition withKey {A : Type} (key : A -> Z) (s : Z) (l : list A) : list A :=
  filter (fun a => key a =? s) l.

(** [l1] is [l2] with some entries left out, the order kept. *)
Inductive Subsequence {A : Type} : list A -> list A -> Prop :=
| Subsequence_nil : forall l, Subsequence [] l
| Subsequence_take : forall x l1 l2, Subsequence l1 l2 -> Subsequence (x :: l1) (x :: l2)
| Subsequence_skip : forall x l1 l2, Subsequence l1 l2 -> Subsequence l1 (x :: l2).

(** The integers 1, 2, ..., n. *)
Definition oneTo (n : nat) : list Z := map Z.of_nat (seq 1 n).

(** What a ranking says about its option, apart from score and rank. *)
Definition subject (r : SupabaseAI.AIRanking)
  : string * string * SupabaseAI.RiskLevel * string :=
  (SupabaseAI.option_id r, SupabaseAI.predicted_outcome r,
   SupabaseAI.risk_level r, SupabaseAI.time_horizon r).

(** What the two sorts and the two loops of the normalizer amount to: one
    stable sort of the raw rankings by raw score, then a pass that writes
    the rank and, when the raw scores are close, the score of each
    position. [finish] is the step of that pass. *)
Definition finish (spreading : bool) (r : SupabaseAI.AIRanking) (i : Z)
  : SupabaseAI.AIRanking :=
  SupabaseAI.setRank
    (if spreading then SupabaseAI.setScore r (SupabaseAI.positionScore i) else r)
    (i + 1).

Definition plainOption (i t : string) : SupabaseAI.DecisionOption :=
  {| SupabaseAI.id := i; SupabaseAI.text := t;
     SupabaseAI.pros := None; SupabaseAI.cons := None |}.

(** The example of the specification. *)
Definition finishOrSleep : SupabaseAI.DecisionContext :=
  {| SupabaseAI.title := "Finish project or sleep";
     SupabaseAI.description := None;
     SupabaseAI.category := "work";
     SupabaseAI.urgency := "high";
     SupabaseAI.options :=
       [plainOption "1" "Finish the project"; plainOption "2" "Go to sleep"] |}.

(** Six options with close raw scores (53, 52, 51, 50, 43, 50): the fifth
    has one con, so the sixth is ahead of it by raw score. *)
Definition sixOptions : SupabaseAI.DecisionContext :=
  {| SupabaseAI.title := "x";
     SupabaseAI.description := None;
     SupabaseAI.category := "general";
     SupabaseAI.urgency := "low";
     SupabaseAI.options :=
       [plainOption "1" "a"; plainOption "2" "b"; plainOption "3" "c";
        plainOption "4" "d";
        {| SupabaseAI.id := "5"; SupabaseAI.text := "e";
           SupabaseAI.pros := None; SupabaseAI.cons := Some ["slow"] |};
        plainOption "6" "f"] |}.

(** Two options, the first with an empty text. *)
Definition emptyFirstText : SupabaseAI.DecisionContext :=
  {| SupabaseAI.title := "t";
     SupabaseAI.description := None;
     SupabaseAI.category := "general";
     SupabaseAI.urgency := "low";
     SupabaseAI.options := [plainOption "1" ""; plainOption "2" "x"] |}.

(** Two options with the same text. *)
Definition twins : SupabaseAI.DecisionContext :=
  {| SupabaseAI.title := "Lunch";
     SupabaseAI.description := None;
     SupabaseAI.category := "general";
     SupabaseAI.urgency := "low";
     SupabaseAI.options := [plainOption "a" "Pizza"; plainOption "b" "Pizza"] |}.

(** The ranking property with ties in the final score read as "in input
    order": for each score, the options that end with that score are
    listed in the order of the input. *)
Definition rankedWithTiesInInputOrder (context : SupabaseAI.DecisionContext) : Prop :=
  exists r,
    SupabaseAI.localAnalyzeDecision context = Some r /\
    List.length (SupabaseAI.rankings r) = List.length (SupabaseAI.options context) /\
    map SupabaseAI.rank (SupabaseAI.rankings r) =
      oneTo (List.length (SupabaseAI.options context)) /\
    forall s,
      Subsequence
        (map SupabaseAI.option_id (withKey SupabaseAI.score s (SupabaseAI.rankings r)))
        (map SupabaseAI.id (SupabaseAI.options context)).

(** [options[0]?.text || 'Make a choice'] *)
Definition firstTextOrDefault (opts : list SupabaseAI.DecisionOption) : string :=
  match opts with
  | o0 :: _ =>
      if JsString.truthy (SupabaseAI.text o0) then SupabaseAI.text o0 else "Make a choice"
  | [] => "Make a choice"
  end.

(** The recommendation is the text of the option ranked first. *)
Definition recommendsTopText (context : SupabaseAI.DecisionContext) : Prop :=
  exists r,
    SupabaseAI.localAnalyzeDecision context = Some r /\
    forall e o,
      In e (SupabaseAI.rankings r) -> SupabaseAI.rank e = 1 ->
      In o (SupabaseAI.options context) ->
      SupabaseAI.id o = SupabaseAI.option_id e ->
      SupabaseAI.recommended_action r = SupabaseAI.text o.

(** [isoDay] on timestamps written in UTC as YYYY-MM-DDThh:mm:ssZ, where
    the day is the text before the T; anything else is taken as not a
    date. The examples use it. *)
Definition utcDayOfTimestamp (s : string) : option string :=
  if String.eqb (substring 10 1 s) "T" then Some (substring 0 10 s) else None.

Definition criticalDecision (i stamp : string) : InsightsEngine.Decision :=
  {| InsightsEngine.id := i;
     InsightsEngine.user_id := "u1";
     InsightsEngine.title := "decide";
     InsightsEngine.category := "work";
     InsightsEngine.urgency := "critical";
     InsightsEngine.options := None;
     InsightsEngine.chosen_option := None;
     InsightsEngine.confidence_score := None;
     InsightsEngine.time_to_decide := Some 900;
     InsightsEngine.is_completed := false;
     InsightsEngine.created_at := stamp |}.

(** Five critical, slow, open decisions on 4 March 2024. *)
Definition busyDay : list InsightsEngine.Decision :=
  [criticalDecision "d1" "2024-03-04T08:00:00Z";
   criticalDecision "d2" "2024-03-04T10:30:00Z";
   criticalDecision "d3" "2024-03-04T13:15:00Z";
   criticalDecision "d4" "2024-03-04T17:45:00Z";
   criticalDecision "d5" "2024-03-04T22:05:00Z"].

(** The state of one decision of the example list of the specification. *)
Definition criticalSlowOpenOn (isoDay : string -> option string) (day : string)
    (d : InsightsEngine.Decision) : Prop :=
  InsightsEngine.urgency d = "critical" /\
  InsightsEngine.time_to_decide d = Some 900 /\
  InsightsEngine.is_completed d = false /\
  isoDay (InsightsEngine.created_at d) = Some day.

(** A term "hits or approaches" its cap of 2.5, read generously: it is at
    least half the cap and at most the cap. *)
Definition nearCap (c : JsNumber.float) : Prop :=
  JsNumber.le (JsNumber.lit 125 100) c = true /\
  JsNumber.le c (JsNumber.lit 25 10) = true.

Definition allTermsNearCap (isoDay : string -> option string)
    (decisions : list InsightsEngine.Decision) : Prop :=
  exists c,
    InsightsEngine.fatigueTermsOf isoDay decisions = Some c /\
    nearCap (InsightsEngine.dailyTerm c) /\
    nearCap (InsightsEngine.urgencyTerm c) /\
    nearCap (InsightsEngine.timeTerm c) /\
    nearCap (InsightsEngine.incompleteTerm c).

(** [d] with another [time_to_decide]. *)
Definition setTime (d : InsightsEngine.Decision) (t : option Z) : InsightsEngine.Decision :=
  {| InsightsEngine.id := InsightsEngine.id d;
     InsightsEngine.user_id := InsightsEngine.user_id d;
     InsightsEngine.title := InsightsEngine.title d;
     InsightsEngine.category := InsightsEngine.category d;
     InsightsEngine.urgency := InsightsEngine.urgency d;
     InsightsEngine.options := InsightsEngine.options d;
     InsightsEngine.chosen_option := InsightsEngine.chosen_option d;
     InsightsEngine.confidence_score := InsightsEngine.confidence_score d;
     InsightsEngine.time_to_decide := t;
     InsightsEngine.is_completed := InsightsEngine.is_completed d;
     InsightsEngine.created_at := InsightsEngine.created_at d |}.

(** [d'] is [d], except that a [time_to_decide] of null may have become 0
    and one of 0 may have become null. *)
Definition swapsNullAndZero (d d' : InsightsEngine.Decision) : Prop :=
  d' = d \/
  (InsightsEngine.time_to_decide d = None /\ d' = setTime d (Some 0)) \/
  (InsightsEngine.time_to_decide d = Some 0 /\ d' = setTime d None).

(** Three decisions, and the same three with null and 0 exchanged. *)
Definition timedDecisions : list InsightsEngine.Decision :=
  [setTime (criticalDecision "d1" "2024-03-04T08:00:00Z") None;
   setTime (criticalDecision "d2" "2024-03-05T09:00:00Z") (Some 0);
   criticalDecision "d3" "2024-03-05T11:00:00Z"].

Definition timedDecisionsSwapped : list InsightsEngine.Decision :=
  [setTime (criticalDecision "d1" "2024-03-04T08:00:00Z") (Some 0);
   setTime (criticalDecision "d2" "2024-03-05T09:00:00Z") None;
   criticalDecision "d3" "2024-03-05T11:00:00Z"].

(** Every category has zero positive outcomes. *)
Definition noPositives (categories : list (string * InsightsEngine.CategoryStats)) : Prop :=
  Forall (fun entry => InsightsEngine.positive (snd entry) = 0) categories.

(** Some category with at least 3 decisions is selected as the best one
    and reported by a category insight. *)
Definition reportsSomeCategory (toFixed : JsNumber.float -> nat -> string)
    (m : InsightsEngine.UserMetrics) : Prop :=
  exists name stats,
    In (name, stats) (InsightsEngine.categoryPerformance m) /\
    3 <= InsightsEngine.total stats /\
    InsightsEngine.bestCategory (InsightsEngine.categoryPerformance m) = (name, stats) /\
    exists insight,
      In insight (InsightsEngine.generateInsightsFromMetrics toFixed "u1" m
                    "2024-03-04T00:00:00.000Z" "2024-03-11T00:00:00.000Z") /\
      InsightsEngine.insight_type insight = "category" /\
      InsightsEngine.insight_category insight = Some name.

(** Two categories, three and five decisions, not one positive outcome. *)
Definition fruitlessWeek : InsightsEngine.UserMetrics :=
  {| InsightsEngine.successRate := JsNumber.ofZ 0;
     InsightsEngine.fatigueScore := JsNumber.ofZ 3;
     InsightsEngine.biasAnalysis := [];
     InsightsEngine.categoryPerformance :=
       [("work", {| InsightsEngine.total := 3; InsightsEngine.positive := 0 |});
        ("health", {| InsightsEngine.total := 5; InsightsEngine.positive := 0 |})] |}.

(** A decision with a single option. *)
Definition onlyOneOption : SupabaseAI.DecisionContext :=
  {| SupabaseAI.title := "Gym";
     SupabaseAI.description := None;
     SupabaseAI.category := "health";
     SupabaseAI.urgency := "low";
     SupabaseAI.options := [plainOption "a" "Go to the gym"] |}.

(** The number of entries of [l] that satisfy [p]. *)
Definition countZ {A : Type} (p : A -> bool) (l : list A) : Z :=
  Z.of_nat (List.length (filter p l)).

Definition sumZ (l : list Z) : Z := fold_right Z.add 0 l.

Definition isHighUrgency (d : InsightsEngine.Decision) : bool :=
  String.eqb (InsightsEngine.urgency d) "high" ||
  String.eqb (InsightsEngine.urgency d) "critical".

Definition hasRecordedTime (d : InsightsEngine.Decision) : bool :=
  match InsightsEngine.recordedTime d with Some _ => true | None => false end.

Definition isOpen (d : InsightsEngine.Decision) : bool :=
  negb (InsightsEngine.is_completed d).

(** The seconds of the decisions that recorded a time, added up. *)
Definition recordedSeconds (decisions : list InsightsEngine.Decision) : Z :=
  sumZ (map (fun d => match InsightsEngine.recordedTime d with
                      | Some s => s
                      | None => 0
                      end) decisions).

(** A double whose sign is not negative: +0, a finite or infinite value
    of positive sign, or NaN. *)
Definition notNegative (x : JsNumber.float) : bool :=
  match x with
  | S754_nan => true
  | S754_zero s | S754_infinity s | S754_finite s _ _ => negb s
  end.

(** [d.category || 'general'] *)
Definition countedCategory (d : InsightsEngine.Decision) : string :=
  if JsString.truthy (InsightsEngine.category d) then InsightsEngine.category d
  else "general".

(** The decisions that [analyzeCategoryPerformance] counts: those whose
    category does not name an inherited member of the object. *)
Definition isCounted (d : InsightsEngine.Decision) : bool :=
  negb (InsightsEngine.inheritedKey (countedCategory d)).

(** [d.confidence_score || 0] *)
Definition givenConfidence (d : InsightsEngine.Decision) : JsNumber.float :=
  match InsightsEngine.confidence_score d with
  | Some c => if JsNumber.truthy c then c else JsNumber.ofZ 0
  | None => JsNumber.ofZ 0
  end.

(** What [UserMetrics.categoryPerformance] declares of an entry. *)
Definition statsOfPerformance (entry : string * InsightsEngine.CategoryPerformance)
  : string * InsightsEngine.CategoryStats :=
  (fst entry,
   {| InsightsEngine.total := InsightsEngine.perf_total (snd entry);
      InsightsEngine.positive := InsightsEngine.perf_positive (snd entry) |}).

Definition decisionIn (i cat stamp : string) : InsightsEngine.Decision :=
  {| InsightsEngine.id := i;
     InsightsEngine.user_id := "u1";
     InsightsEngine.title := "decide";
     InsightsEngine.category := cat;
     InsightsEngine.urgency := "medium";
     InsightsEngine.options := Some [ {| InsightsEngine.ref_id := "a" |};
                                      {| InsightsEngine.ref_id := "b" |} ];
     InsightsEngine.chosen_option := Some {| InsightsEngine.ref_id := "a" |};
     InsightsEngine.confidence_score := Some (JsNumber.lit 9 10);
     InsightsEngine.time_to_decide := Some 120;
     InsightsEngine.is_completed := true;
     InsightsEngine.created_at := stamp |}.

(** Four decisions in three categories; one has no category, one is
    filed under a name that every object inherits, one has a timestamp
    that is not a date. *)
Definition mixedDecisions : list InsightsEngine.Decision :=
  [decisionIn "d1" "work" "2024-03-04T08:00:00Z";
   decisionIn "d2" "" "2024-03-04T09:00:00Z";
   decisionIn "d3" "constructor" "2024-03-05T09:00:00Z";
   decisionIn "d4" "work" "soon"].

Definition outcomeOf (decision type : string) (score : option Z) : InsightsEngine.Outcome :=
  {| InsightsEngine.outcome_id := "o-" ++ decision;
     InsightsEngine.decision_id := decision;
     InsightsEngine.outcome_user_id := "u1";
     InsightsEngine.outcome_type := type;
     InsightsEngine.outcome_score := score |}.

(** Outcomes for [mixedDecisions]: two for the first decision, the later
    one negative, and a neutral one with a high score for the last. *)
Definition mixedOutcomes : list InsightsEngine.Outcome :=
  [outcomeOf "d1" "positive" None;
   outcomeOf "d4" "neutral" (Some 8);
   outcomeOf "d1" "negative" (Some 2)].

Definition productiveWeek : InsightsEngine.UserMetrics :=
  {| InsightsEngine.successRate := JsNumber.lit 8 10;
     InsightsEngine.fatigueScore := JsNumber.ofZ 8;
     InsightsEngine.biasAnalysis :=
       [("first_option_bias", JsNumber.lit 5 10); ("status_quo_bias", JsNumber.ofZ 0)];
     InsightsEngine.categoryPerformance :=
       [("work", {| InsightsEngine.total := 4; InsightsEngine.positive := 3 |});
        ("health", {| InsightsEngine.total := 3; InsightsEngine.positive := 1 |})] |}.

(** Every character of [s] is a word character (a letter, a digit or an
    underscore). *)
Fixpoint allWordChars (s : string) : bool :=
  match s with
  | EmptyString => true
  | String c s' => JsString.isWordChar c && allWordChars s'
  end.

(** Counts that are not negative, as counts are. *)
Definition plausibleStats (entry : string * InsightsEngine.CategoryStats) : Prop :=
  0 <= InsightsEngine.total (snd entry) /\ 0 <= InsightsEngine.positive (snd entry).

(** A per-category accumulator that the loop can have built. *)
Definition soundTally (t : InsightsEngine.CategoryTally) : Prop :=
  1 <= InsightsEngine.tallyTotal t /\
  0 <= InsightsEngine.tallyPositive t <= InsightsEngine.tallyTotal t.

(** The outcome that [analyzeCategoryPerformance] finds for a decision
    is positive. *)
Definition hasPositiveOutcome (outcomes : list InsightsEngine.Outcome)
    (d : InsightsEngine.Decision) : bool :=
  match InsightsEngine.storeGet (InsightsEngine.id d)
          (InsightsEngine.outcomesByDecision outcomes) with
  | Some outcome => InsightsEngine.isPositive outcome
  | None => false
  end.

(* ===================================================================== *)
(** ** Facts about the array operations *)

Module ArrayFacts.
Import JsArray.

Section Sorting.
Context {A : Type}.
Variable key : A -> Z.

Lemma insertDesc_perm (x : A) (l : list A) :
  Permutation (insertDesc key x l) (x :: l).
Proof.
  induction l as [|y l IH]; simpl; [reflexivity|].
  destruct (key y <=? key x); [reflexivity|].
  rewrite IH. apply perm_swap.
Qed.

Lemma sortDesc_perm (l : list A) : Permutation (sortDesc key l) l.
Proof.
  induction l as [|x l IH]; simpl; [constructor|].
  rewrite insertDesc_perm. now constructor.
Qed.

Lemma sortDesc_length (l : list A) : List.length (sortDesc key l) = List.length l.
Proof. apply Permutation_length, sortDesc_perm. Qed.

Lemma insertDesc_descending (x : A) (l : list A) :
  Descending key l -> Descending key (insertDesc key x l).
Proof.
  unfold Descending. induction 1 as [|y l Hl IH Hy]; simpl.
  - repeat constructor.
  - destruct (key y <=? key x) eqn:E.
    + apply Z.leb_le in E. constructor; [now constructor|].
      constructor; [exact E|].
      eapply Forall_impl; [|exact Hy]. simpl. intros; lia.
    + apply Z.leb_gt in E. constructor; [exact IH|].
      eapply Permutation_Forall; [symmetry; apply insertDesc_perm|].
      constructor; [lia|exact Hy].
Qed.

Lemma sortDesc_descending (l : list A) : Descending key (sortDesc key l).
Proof.
  induction l as [|x l IH]; simpl; [constructor|].
  now apply insertDesc_descending.
Qed.

(** Stability: entries of equal key keep their order. *)
Lemma insertDesc_withKey (s : Z) (x : A) (l : list A) :
  withKey key s (insertDesc key x l) = withKey key s (x :: l).
Proof.
  unfold withKey. induction l as [|y l IH]; simpl; [reflexivity|].
  destruct (key y <=? key x) eqn:E; [reflexivity|].
  apply Z.leb_gt in E. simpl in *. rewrite IH.
  destruct (key x =? s) eqn:Ex, (key y =? s) eqn:Ey; try reflexivity.
  apply Z.eqb_eq in Ex, Ey. lia.
Qed.

Lemma sortDesc_stable (s : Z) (l : list A) :
  withKey key s (sortDesc key l) = withKey key s l.
Proof.
  induction l as [|x l IH]; simpl; [reflexivity|].
  rewrite insertDesc_withKey. unfold withKey in *. simpl. now rewrite IH.
Qed.

(** Sorting an array that is already in order leaves it as it is. *)
Lemma sortDesc_fixed (l : list A) : Descending key l -> sortDesc key l = l.
Proof.
  unfold Descending. induction 1 as [|x l Hl IH Hx]; simpl; [reflexivity|].
  rewrite IH. destruct l as [|y l]; simpl; [reflexivity|].
  inversion Hx; subst.
  destruct (key y <=? key x) eqn:E; [reflexivity|].
  apply Z.leb_gt in E. lia.
Qed.
End Sorting.

Section Indexed.
Context {A B : Type}.

Lemma mapiFrom_length (f : A -> Z -> B) (l : list A) (i : Z) :
  List.length (mapiFrom f i l) = List.length l.
Proof. revert i; induction l; simpl; intros; [reflexivity|now rewrite IHl]. Qed.

Lemma mapiFrom_In (f : A -> Z -> B) (l : list A) (i : Z) (y : B) :
  In y (mapiFrom f i l) ->
  exists x j, In x l /\ i <= j < i + Z.of_nat (List.length l) /\ y = f x j.
Proof.
  revert i; induction l as [|x l IH]; simpl; intros i H; [contradiction|].
  destruct H as [<-|H].
  - exists x, i. repeat split; auto; lia.
  - destruct (IH _ H) as (x' & j & Hin & Hj & ->).
    exists x', j. repeat split; auto; lia.
Qed.

Lemma mapiFrom_map {C : Type} (g : B -> C) (h : A -> C) (f : A -> Z -> B)
    (l : list A) (i : Z) :
  (forall x j, g (f x j) = h x) ->
  map g (mapiFrom f i l) = map h l.
Proof.
  intros H. revert i; induction l; simpl; intros; [reflexivity|].
  now rewrite H, IHl.
Qed.

Lemma mapiFrom_nth_error (f : A -> Z -> B) (l : list A) (i : Z) (k : nat) :
  nth_error (mapiFrom f i l) k =
  option_map (fun x => f x (i + Z.of_nat k)) (nth_error l k).
Proof.
  revert i k; induction l as [|x l IH]; intros i [|k]; simpl; try reflexivity.
  - now rewrite Z.add_0_r.
  - rewrite IH. destruct (nth_error l k); simpl; [|reflexivity].
    do 2 f_equal. lia.
Qed.
End Indexed.

Lemma maxOf_spec (l : list Z) (x : Z) :
  In (maxOf x l) (x :: l) /\ Forall (fun y => y <= maxOf x l) (x :: l).
Proof.
  unfold maxOf. revert x; induction l as [|a l IH]; intros x; simpl.
  - split; [now left|]. repeat constructor. lia.
  - destruct (IH (Z.max x a)) as [Hin Hall]. simpl in Hin.
    inversion Hall as [|? ? Hhd Htl]; subst. split.
    + destruct Hin as [Hin|Hin]; [|now right; right].
      rewrite <- Hin. destruct (Z.max_spec x a) as [[_ ->]|[_ ->]]; auto.
    + constructor; [lia|]. constructor; [lia|exact Htl].
Qed.

Lemma minOf_spec (l : list Z) (x : Z) :
  In (minOf x l) (x :: l) /\ Forall (fun y => minOf x l <= y) (x :: l).
Proof.
  unfold minOf. revert x; induction l as [|a l IH]; intros x; simpl.
  - split; [now left|]. repeat constructor. lia.
  - destruct (IH (Z.min x a)) as [Hin Hall]. simpl in Hin.
    inversion Hall as [|? ? Hhd Htl]; subst. split.
    + destruct Hin as [Hin|Hin]; [|now right; right].
      rewrite <- Hin. destruct (Z.min_spec x a) as [[_ ->]|[_ ->]]; auto.
    + constructor; [lia|]. constructor; [lia|exact Htl].
Qed.

End ArrayFacts.

(* ===================================================================== *)
(** ** Facts about the decision analysis *)

Module DecisionFacts.
Import JsArray SupabaseAI ArrayFacts.

(** *** Raw rankings *)

Lemma rankOption_score_range context w t o i :
  20 <= score (rankOption context w t o i) <= 95.
Proof. unfold rankOption. cbv zeta. cbn [score]. lia. Qed.

Lemma rankOption_option_id context w t o i :
  option_id (rankOption context w t o i) = id o.
Proof. reflexivity. Qed.

Lemma rawRankings_length context :
  List.length (rawRankings context) = List.length (options context).
Proof. unfold rawRankings, mapi. cbv zeta. apply mapiFrom_length. Qed.

Lemma rawRankings_ids context :
  map option_id (rawRankings context) = map id (options context).
Proof.
  unfold rawRankings, mapi. cbv zeta. apply mapiFrom_map.
  intros; apply rankOption_option_id.
Qed.

Lemma rawRankings_score_range context :
  Forall (fun r => 20 <= score r <= 95) (rawRankings context).
Proof.
  apply Forall_forall. intros r Hr.
  unfold rawRankings, mapi in Hr. cbv zeta in Hr.
  apply mapiFrom_In in Hr. destruct Hr as (o & j & _ & _ & ->).
  apply rankOption_score_range.
Qed.

(** *** The normalizer *)

Lemma positionScore_range i : 25 <= positionScore i <= 95.
Proof. unfold positionScore. lia. Qed.

Lemma positionScore_antitone i j : i <= j -> positionScore j <= positionScore i.
Proof. unfold positionScore. lia. Qed.


Lemma spread_descending (l : list AIRanking) (i : Z) :
  Descending score (mapiFrom (fun r j => setScore r (positionScore j)) i l).
Proof.
  unfold Descending. revert i; induction l as [|x l IH]; intros i; simpl.
  - constructor.
  - constructor; [apply IH|].
    apply Forall_forall. intros y Hy.
    apply mapiFrom_In in Hy. destruct Hy as (x' & j & _ & Hj & ->).
    simpl. apply positionScore_antitone. lia.
Qed.

Lemma mapiFrom_compose {A B C : Type} (f : A -> Z -> B) (g : B -> Z -> C)
    (l : list A) (i : Z) :
  mapiFrom g i (mapiFrom f i l) = mapiFrom (fun x j => g (f x j) j) i l.
Proof. revert i; induction l; simpl; intros; [reflexivity|now rewrite IHl]. Qed.

Lemma normalize_shape (raw : list AIRanking) :
  assignRanks (differentiate raw) =
  mapi (finish (needsSpreading raw)) (sortDesc score raw).
Proof.
  unfold assignRanks, differentiate, finish.
  destruct (needsSpreading raw).
  - unfold spreadScores, mapi.
    rewrite (sortDesc_fixed score _ (spread_descending _ _)).
    apply mapiFrom_compose.
  - reflexivity.
Qed.

Lemma finish_option_id b r i : option_id (finish b r i) = option_id r.
Proof. unfold finish; destruct b; reflexivity. Qed.

Lemma finish_rank b r i : rank (finish b r i) = i + 1.
Proof. reflexivity. Qed.

Lemma finish_score b r i :
  score (finish b r i) = if b then positionScore i else score r.
Proof. unfold finish; destruct b; reflexivity. Qed.

Lemma normalize_length raw :
  List.length (assignRanks (differentiate raw)) = List.length raw.
Proof.
  rewrite normalize_shape. unfold mapi.
  now rewrite mapiFrom_length, sortDesc_length.
Qed.

Lemma ranks_from (g : AIRanking -> Z -> AIRanking) (l : list AIRanking) (i : Z) :
  (forall r j, rank (g r j) = j + 1) ->
  map rank (mapiFrom g i l) = map (fun k => i + Z.of_nat k) (seq 1 (List.length l)).
Proof.
  intros Hg. revert i; induction l as [|x l IH]; intros i; simpl; [reflexivity|].
  rewrite Hg, IH. change (i + Z.of_nat 1) with (i + 1).
  f_equal.
  rewrite <- (seq_shift _ 1), map_map. apply map_ext. intros; lia.
Qed.

Lemma normalize_ranks raw :
  map rank (assignRanks (differentiate raw)) = oneTo (List.length raw).
Proof.
  rewrite normalize_shape. unfold mapi, oneTo.
  rewrite (ranks_from _ _ _ (finish_rank _)), sortDesc_length.
  apply map_ext. intros; lia.
Qed.

Lemma normalize_score_range raw :
  Forall (fun r => 20 <= score r <= 95) raw ->
  Forall (fun r => 20 <= score r <= 95) (assignRanks (differentiate raw)).
Proof.
  intros Hraw. rewrite normalize_shape. apply Forall_forall. intros y Hy.
  apply mapiFrom_In in Hy. destruct Hy as (x & j & Hx & _ & ->).
  rewrite finish_score. destruct (needsSpreading raw).
  - pose proof (positionScore_range j). lia.
  - rewrite Forall_forall in Hraw. apply Hraw.
    eapply Permutation_in; [apply sortDesc_perm|exact Hx].
Qed.

Lemma normalize_descending raw :
  Descending score (assignRanks (differentiate raw)).
Proof.
  unfold assignRanks, mapi.
  generalize (sortDesc_descending score (differentiate raw)).
  generalize (sortDesc score (differentiate raw)). generalize 0.
  unfold Descending. intros i l H. revert i.
  induction H as [|x l Hl IH Hx]; intros i; simpl; constructor.
  - apply IH.
  - apply Forall_forall. intros y Hy.
    apply mapiFrom_In in Hy. destruct Hy as (x' & j & Hin & _ & ->).
    rewrite Forall_forall in Hx. simpl. now apply Hx.
Qed.

Lemma finish_subject b r i : subject (finish b r i) = subject r.
Proof. unfold finish; destruct b; reflexivity. Qed.

Lemma normalize_subjects raw :
  map subject (assignRanks (differentiate raw)) = map subject (sortDesc score raw).
Proof.
  rewrite normalize_shape. unfold mapi. apply mapiFrom_map.
  intros; apply finish_subject.
Qed.

Lemma normalize_option_ids raw :
  map option_id (assignRanks (differentiate raw)) = map option_id (sortDesc score raw).
Proof.
  rewrite normalize_shape. unfold mapi. apply mapiFrom_map.
  intros; apply finish_option_id.
Qed.

Lemma normalize_nth_error raw k :
  nth_error (assignRanks (differentiate raw)) k =
  option_map (fun r => finish (needsSpreading raw) r (Z.of_nat k))
    (nth_error (sortDesc score raw) k).
Proof. rewrite normalize_shape. unfold mapi. apply mapiFrom_nth_error. Qed.

(** *** The result *)

Lemma localAnalyzeDecision_result context :
  options context <> [] ->
  exists top rest,
    assignRanks (differentiate (rawRankings context)) = top :: rest /\
    localAnalyzeDecision context =
      Some {| rankings := top :: rest;
              confidence_score := confidenceOfSpread (spreadOf (map score (top :: rest)));
              recommended_action :=
                recommendedAction
                  (find (fun o => String.eqb (id o) (option_id top)) (options context))
                  (options context) |}.
Proof.
  intros Hne. unfold localAnalyzeDecision. cbv zeta.
  pose proof (normalize_length (rawRankings context)) as Hlen.
  rewrite rawRankings_length in Hlen.
  destruct (assignRanks (differentiate (rawRankings context))) as [|top rest].
  - destruct (options context); [congruence|discriminate].
  - exists top, rest. split; reflexivity.
Qed.

Lemma two_options_nonempty context :
  (2 <= List.length (options context))%nat -> options context <> [].
Proof. destruct (options context); simpl; [lia|discriminate]. Qed.

(** *** Ties *)

Lemma Subsequence_filter_map {A B : Type} (f : A -> B) (p : A -> bool) (l : list A) :
  Subsequence (map f (filter p l)) (map f l).
Proof.
  induction l as [|x l IH]; simpl; [constructor|].
  destruct (p x); simpl; constructor; exact IH.
Qed.

Lemma withKey_mapiFrom (g : AIRanking -> Z -> AIRanking) (s : Z)
    (l : list AIRanking) (i : Z) :
  (forall r j, score (g r j) = score r) ->
  (forall r j, option_id (g r j) = option_id r) ->
  map option_id (withKey score s (mapiFrom g i l)) =
  map option_id (withKey score s l).
Proof.
  intros Hs Hi. unfold withKey.
  revert i; induction l as [|x l IH]; intros i; simpl; [reflexivity|].
  rewrite Hs. destruct (score x =? s); simpl; now rewrite ?Hi, IH.
Qed.

Lemma kept_scores_ties_in_input_order context s :
  needsSpreading (rawRankings context) = false ->
  Subsequence
    (map option_id (withKey score s (assignRanks (differentiate (rawRankings context)))))
    (map id (options context)).
Proof.
  intros Hkeep. rewrite normalize_shape, Hkeep. unfold mapi.
  rewrite withKey_mapiFrom by reflexivity.
  rewrite sortDesc_stable, <- rawRankings_ids.
  apply Subsequence_filter_map.
Qed.

Ltac refute_subsequence :=
  repeat match goal with
         | H : Subsequence _ _ |- _ => inversion H; clear H; subst
         end.

(** C1, counterexample. With six options and close raw scores the
    fifth and the sixth option both end with score 25, and the sixth,
    whose raw score is higher, is ranked ahead of the fifth: the tie in
    the final score is not broken by input order. *)
Lemma final_ties_not_in_input_order :
  (2 <= List.length (options sixOptions))%nat /\
  ~ rankedWithTiesInInputOrder sixOptions.
Proof.
  split; [simpl; lia|].
  intros (r & Hr & _ & _ & Hties).
  vm_compute in Hr. injection Hr as <-.
  specialize (Hties 25). vm_compute in Hties.
  refute_subsequence.
Qed.

(** C1. With at least two options the analysis returns as many
    rankings as there are options, their ranks are 1, 2, ..., N in this
    order, and the final scores descend along the list. The list is in
    the order of the stable descending sort of the raw scores: higher
    raw score first, equal raw scores in input order. Hence ties in the
    final score are broken by input order whenever the raw scores are
    kept. *)
Theorem rankings_ranked_by_raw_score context :
  (2 <= List.length (options context))%nat ->
  exists r,
    localAnalyzeDecision context = Some r /\
    List.length (rankings r) = List.length (options context) /\
    map rank (rankings r) = oneTo (List.length (options context)) /\
    Descending score (rankings r) /\
    map option_id (rawRankings context) = map id (options context) /\
    (exists byRaw,
        Permutation byRaw (rawRankings context) /\
        Descending score byRaw /\
        (forall s, withKey score s byRaw = withKey score s (rawRankings context)) /\
        map subject (rankings r) = map subject byRaw) /\
    (needsSpreading (rawRankings context) = false ->
     forall s,
       Subsequence (map option_id (withKey score s (rankings r)))
         (map id (options context))).
Proof.
  intros HN.
  destruct (localAnalyzeDecision_result context (two_options_nonempty _ HN))
    as (top & rest & Hfinal & ->).
  eexists; split; [reflexivity|]. cbn [rankings]. rewrite <- Hfinal.
  repeat split.
  - now rewrite normalize_length, rawRankings_length.
  - now rewrite normalize_ranks, rawRankings_length.
  - apply normalize_descending.
  - apply rawRankings_ids.
  - exists (sortDesc score (rawRankings context)). repeat split.
    + apply sortDesc_perm.
    + apply sortDesc_descending.
    + intros s; apply sortDesc_stable.
    + apply normalize_subjects.
  - intros Hkeep s. now apply kept_scores_ties_in_input_order.
Qed.

Lemma rankings_ranked_by_raw_score_witness :
  (2 <= List.length (options sixOptions))%nat /\
  exists r, localAnalyzeDecision sixOptions = Some r /\
            List.length (rankings r) = 6%nat /\
            map rank (rankings r) = [1; 2; 3; 4; 5; 6] /\
            Descending score (rankings r).
Proof.
  assert (2 <= List.length (options sixOptions))%nat as HN by (simpl; lia).
  split; [exact HN|].
  destruct (rankings_ranked_by_raw_score sixOptions HN)
    as (r & Hr & Hlen & Hranks & Hdesc & _).
  exists r. repeat split; assumption.
Defined.

(** C2. With at least two options every final score lies in [20, 95]:
    the raw scores are clamped to that range, and the scores written by
    the low-spread reassignment lie in [25, 95]. *)
Theorem final_scores_within_bounds context :
  (2 <= List.length (options context))%nat ->
  exists r,
    localAnalyzeDecision context = Some r /\
    Forall (fun e => 20 <= score e <= 95) (rankings r) /\
    Forall (fun e => 20 <= score e <= 95) (rawRankings context) /\
    (needsSpreading (rawRankings context) = true ->
     Forall (fun e => 25 <= score e <= 95) (rankings r)) /\
    (needsSpreading (rawRankings context) = false ->
     Permutation (map score (rankings r)) (map score (rawRankings context))).
Proof.
  intros HN.
  destruct (localAnalyzeDecision_result context (two_options_nonempty _ HN))
    as (top & rest & Hfinal & ->).
  eexists; split; [reflexivity|]. cbn [rankings]. rewrite <- Hfinal.
  repeat split.
  - apply normalize_score_range, rawRankings_score_range.
  - apply rawRankings_score_range.
  - intros Hlow. rewrite normalize_shape, Hlow. apply Forall_forall.
    intros y Hy. apply mapiFrom_In in Hy. destruct Hy as (x & j & _ & _ & ->).
    rewrite finish_score. apply positionScore_range.
  - intros Hkeep. rewrite normalize_shape, Hkeep. unfold mapi.
    rewrite (mapiFrom_map score score) by reflexivity.
    apply Permutation_map, sortDesc_perm.
Qed.

Lemma final_scores_within_bounds_witness :
  (2 <= List.length (options finishOrSleep))%nat /\
  exists r, localAnalyzeDecision finishOrSleep = Some r /\
            Forall (fun e => 20 <= score e <= 95) (rankings r).
Proof.
  assert (2 <= List.length (options finishOrSleep))%nat as HN by (simpl; lia).
  split; [exact HN|].
  destruct (final_scores_within_bounds finishOrSleep HN) as (r & Hr & Hfinal & _).
  exists r. split; assumption.
Defined.

(** *** The recommendation *)

Lemma find_by_id (l : list DecisionOption) (o : DecisionOption) :
  NoDup (map id l) -> In o l ->
  find (fun o' => String.eqb (id o') (id o)) l = Some o.
Proof.
  unfold find. induction l as [|a l IH]; simpl; intros Hnd Hin; [contradiction|].
  inversion Hnd as [|? ? Hnotin Hnd']; subst.
  destruct Hin as [->|Hin].
  - now rewrite String.eqb_refl.
  - destruct (String.eqb (id a) (id o)) eqn:E.
    + apply String.eqb_eq in E. exfalso. apply Hnotin.
      rewrite E. now apply in_map.
    + now apply IH.
Qed.

Lemma unique_by_id (l : list DecisionOption) (o o' : DecisionOption) :
  NoDup (map id l) -> In o l -> In o' l -> id o' = id o -> o' = o.
Proof.
  intros Hnd Ho Ho' Hid.
  pose proof (find_by_id l o Hnd Ho) as H1.
  pose proof (find_by_id l o' Hnd Ho') as H2.
  rewrite Hid in H2. congruence.
Qed.

Lemma rank_one_is_first raw top rest e :
  assignRanks (differentiate raw) = top :: rest ->
  In e (top :: rest) -> rank e = 1 -> e = top.
Proof.
  intros Hfinal Hin Hrank.
  apply In_nth_error in Hin. destruct Hin as [k Hk].
  pose proof Hk as Hk'. rewrite <- Hfinal, normalize_nth_error in Hk'.
  destruct (nth_error (sortDesc score raw) k); [|discriminate].
  injection Hk' as <-. rewrite finish_rank in Hrank.
  assert (k = 0%nat) as -> by lia. simpl in Hk. now injection Hk.
Qed.

(** The chain [topOption?.text || options[0]?.text || 'Make a choice']:
    with at least two options of pairwise distinct ids, exactly one
    ranking has rank 1 and exactly one option has its id; the
    recommendation is the text of that option when the text is not
    empty, and otherwise the first option's text or, when that is empty
    too, "Make a choice". *)
Lemma recommendation_chain context :
  (2 <= List.length (options context))%nat ->
  NoDup (map id (options context)) ->
  exists r e o,
    localAnalyzeDecision context = Some r /\
    In e (rankings r) /\ rank e = 1 /\
    In o (options context) /\ id o = option_id e /\
    (forall e', In e' (rankings r) -> rank e' = 1 -> e' = e) /\
    (forall o', In o' (options context) -> id o' = option_id e -> o' = o) /\
    (text o <> "" -> recommended_action r = text o) /\
    (text o = "" -> recommended_action r = firstTextOrDefault (options context)).
Proof.
  intros HN Hnd.
  destruct (localAnalyzeDecision_result context (two_options_nonempty _ HN))
    as (top & rest & Hfinal & ->).
  assert (In (option_id top) (map id (options context))) as Hid.
  { rewrite <- rawRankings_ids.
    eapply Permutation_in; [apply Permutation_map, sortDesc_perm|].
    rewrite <- normalize_option_ids, Hfinal. now left. }
  apply in_map_iff in Hid. destruct Hid as (o & Hido & Ho).
  exists {| rankings := top :: rest;
            confidence_score := confidenceOfSpread (spreadOf (map score (top :: rest)));
            recommended_action :=
              recommendedAction
                (find (fun o' => String.eqb (id o') (option_id top)) (options context))
                (options context) |}, top, o.
  cbn [rankings recommended_action].
  assert (rank top = 1) as Htop.
  { pose proof (normalize_nth_error (rawRankings context) 0) as H0.
    rewrite Hfinal in H0. simpl in H0.
    destruct (sortDesc score (rawRankings context)); [discriminate|].
    simpl in H0. injection H0 as ->. reflexivity. }
  rewrite <- Hido, (find_by_id _ _ Hnd Ho).
  repeat split; auto.
  - now left.
  - intros e' He' Hr. eapply rank_one_is_first; eauto.
  - intros o' Ho' Hid'. eapply unique_by_id; eauto.
  - intros Htext. simpl. destruct (text o) eqn:E; [congruence|reflexivity].
  - intros Htext. simpl. rewrite Htext. reflexivity.
Qed.

(** C3. With at least two options of pairwise distinct ids and
    non-empty texts, the recommendation is the text of the option whose
    ranking has rank 1: there is exactly one ranking of rank 1 and
    exactly one option with its id, and [recommended_action] is the
    text of that option. *)
Theorem recommendation_is_top_text context :
  (2 <= List.length (options context))%nat ->
  NoDup (map id (options context)) ->
  Forall (fun o => text o <> "") (options context) ->
  recommendsTopText context /\
  exists r e o,
    localAnalyzeDecision context = Some r /\
    In e (rankings r) /\ rank e = 1 /\
    In o (options context) /\ id o = option_id e /\
    (forall e', In e' (rankings r) -> rank e' = 1 -> e' = e) /\
    (forall o', In o' (options context) -> id o' = option_id e -> o' = o) /\
    recommended_action r = text o.
Proof.
  intros HN Hnd Htexts.
  destruct (recommendation_chain context HN Hnd)
    as (r & e & o & Hr & He & Hrank & Ho & Hid & Hfirst & Hone & Htext & _).
  assert (recommended_action r = text o) as Hrec.
  { apply Htext. rewrite Forall_forall in Htexts. now apply Htexts. }
  split.
  - exists r. split; [exact Hr|].
    intros e' o' He' Hrank' Ho' Hid'.
    rewrite (Hfirst e' He' Hrank') in Hid'.
    now rewrite (Hone o' Ho' Hid').
  - exists r, e, o. repeat split; assumption.
Qed.

Lemma recommendation_is_top_text_witness :
  (2 <= List.length (options finishOrSleep))%nat /\
  NoDup (map id (options finishOrSleep)) /\
  Forall (fun o => text o <> "") (options finishOrSleep) /\
  recommendsTopText finishOrSleep.
Proof.
  assert (2 <= List.length (options finishOrSleep))%nat as HN by (simpl; lia).
  assert (NoDup (map id (options finishOrSleep))) as Hnd
    by (simpl; repeat constructor; simpl; intuition discriminate).
  assert (Forall (fun o => text o <> "") (options finishOrSleep)) as Htexts
    by (simpl; repeat constructor; discriminate).
  split; [exact HN|]. split; [exact Hnd|]. split; [exact Htexts|].
  apply (recommendation_is_top_text finishOrSleep HN Hnd Htexts).
Defined.

(** *** Confidence *)

Lemma confidenceOfSpread_bounds (s : Z) :
  0 <= s <= 75 ->
  JsNumber.le (JsNumber.lit 5 10) (confidenceOfSpread s) = true /\
  JsNumber.le (confidenceOfSpread s) (JsNumber.lit 95 100) = true.
Proof.
  intros Hs.
  assert (forallb (fun k =>
                     JsNumber.le (JsNumber.lit 5 10) (confidenceOfSpread (Z.of_nat k)) &&
                     JsNumber.le (confidenceOfSpread (Z.of_nat k)) (JsNumber.lit 95 100))
            (seq 0 76) = true) as Hall by (vm_compute; reflexivity).
  rewrite forallb_forall in Hall.
  specialize (Hall (Z.to_nat s)).
  rewrite Z2Nat.id in Hall by lia.
  apply andb_true_iff. apply Hall. apply in_seq. lia.
Qed.

(** C4. With at least two options the confidence is
    min(0.95, 0.5 + (finalSpread / 100) * 0.4) in double arithmetic,
    where finalSpread is the largest final score minus the smallest,
    and it lies in [0.5, 0.95]. *)
Theorem confidence_from_final_spread context :
  (2 <= List.length (options context))%nat ->
  exists r hi lo,
    localAnalyzeDecision context = Some r /\
    In hi (map score (rankings r)) /\
    Forall (fun y => y <= hi) (map score (rankings r)) /\
    In lo (map score (rankings r)) /\
    Forall (fun y => lo <= y) (map score (rankings r)) /\
    confidence_score r =
      JsNumber.min (JsNumber.lit 95 100)
        (JsNumber.add (JsNumber.lit 5 10)
           (JsNumber.mul (JsNumber.div (JsNumber.ofZ (hi - lo)) (JsNumber.ofZ 100))
              (JsNumber.lit 4 10))) /\
    JsNumber.le (JsNumber.lit 5 10) (confidence_score r) = true /\
    JsNumber.le (confidence_score r) (JsNumber.lit 95 100) = true.
Proof.
  intros HN.
  destruct (localAnalyzeDecision_result context (two_options_nonempty _ HN))
    as (top & rest & Hfinal & ->).
  pose proof (normalize_score_range _ (rawRankings_score_range context)) as Hrange.
  rewrite Hfinal in Hrange.
  assert (Forall (fun y => 20 <= y <= 95) (map score (top :: rest))) as Hscores.
  { apply Forall_forall. intros y Hy. apply in_map_iff in Hy.
    destruct Hy as (e & <- & He). rewrite Forall_forall in Hrange. now apply Hrange. }
  simpl map in *.
  destruct (maxOf_spec (map score rest) (score top)) as [Hmax_in Hmax].
  destruct (minOf_spec (map score rest) (score top)) as [Hmin_in Hmin].
  eexists _, (maxOf (score top) (map score rest)), (minOf (score top) (map score rest)).
  split; [reflexivity|]. cbn [rankings confidence_score]. simpl map.
  assert (0 <= maxOf (score top) (map score rest) - minOf (score top) (map score rest) <= 75)
    as Hspread.
  { rewrite Forall_forall in Hscores, Hmax, Hmin.
    pose proof (Hscores _ Hmax_in). pose proof (Hscores _ Hmin_in).
    pose proof (Hmax _ Hmin_in). lia. }
  destruct (confidenceOfSpread_bounds _ Hspread) as [Hlo Hhi].
  unfold spreadOf.
  split; [exact Hmax_in|]. split; [exact Hmax|]. split; [exact Hmin_in|].
  split; [exact Hmin|]. split; [reflexivity|]. split; [exact Hlo|exact Hhi].
Qed.

Lemma confidence_from_final_spread_witness :
  (2 <= List.length (options finishOrSleep))%nat /\
  exists r, localAnalyzeDecision finishOrSleep = Some r /\
            JsNumber.le (JsNumber.lit 5 10) (confidence_score r) = true /\
            JsNumber.le (confidence_score r) (JsNumber.lit 95 100) = true.
Proof.
  assert (2 <= List.length (options finishOrSleep))%nat as HN by (simpl; lia).
  split; [exact HN|].
  destruct (confidence_from_final_spread finishOrSleep HN)
    as (r & hi & lo & Hr & _ & _ & _ & _ & _ & Hlo & Hhi).
  exists r. repeat split; assumption.
Defined.

(** *** The examples of the specification *)

(** C5. For "Finish project or sleep" (category work, urgency high) with
    the options "Finish the project" and "Go to sleep", the first option
    scores strictly higher (93 against 42), is ranked first and is the
    recommendation; its risk level is low, that of the second is high,
    and both time horizons are short-term. *)
Theorem finish_project_beats_sleep :
  exists r e1 e2,
    localAnalyzeDecision finishOrSleep = Some r /\
    rankings r = [e1; e2] /\
    option_id e1 = "1" /\ option_id e2 = "2" /\
    score e1 = 93 /\ score e2 = 42 /\ score e2 < score e1 /\
    rank e1 = 1 /\ rank e2 = 2 /\
    find (fun o => String.eqb (id o) (option_id e1)) (options finishOrSleep) =
      Some (plainOption "1" "Finish the project") /\
    recommended_action r = "Finish the project" /\
    risk_level e1 = low /\ risk_level e2 = high /\
    time_horizon e1 = "short-term" /\ time_horizon e2 = "short-term".
Proof.
  do 3 eexists.
  split; [vm_compute; reflexivity|].
  split; [vm_compute; reflexivity|].
  repeat split.
Qed.

Lemma rankOption_twins context w t o1 o2 :
  text o1 = text o2 ->
  lengthOr0 (pros o1) = 0 -> lengthOr0 (cons o1) = 0 ->
  lengthOr0 (pros o2) = 0 -> lengthOr0 (cons o2) = 0 ->
  score (rankOption context w t o1 0) - 1 <= score (rankOption context w t o2 1)
    <= score (rankOption context w t o1 0).
Proof.
  intros Ht Hp1 Hc1 Hp2 Hc2.
  unfold rankOption. cbv zeta. cbn [score].
  rewrite Ht, Hp1, Hc1, Hp2, Hc2.
  match goal with
  | |- context [Z.max 20 (?b + Z.max 0 (3 - 1))] => generalize b
  end.
  intros b. lia.
Qed.

Lemma rawRankings_twins context o1 o2 :
  options context = [o1; o2] ->
  text o1 = text o2 ->
  lengthOr0 (pros o1) = 0 -> lengthOr0 (cons o1) = 0 ->
  lengthOr0 (pros o2) = 0 -> lengthOr0 (cons o2) = 0 ->
  exists raw1 raw2,
    rawRankings context = [raw1; raw2] /\
    option_id raw1 = id o1 /\ option_id raw2 = id o2 /\
    score raw2 <= score raw1 /\ score raw1 - score raw2 < 15.
Proof.
  intros Hopts Ht Hp1 Hc1 Hp2 Hc2.
  unfold rawRankings, mapi. cbv zeta. rewrite Hopts. cbn [mapiFrom].
  change (0 + 1) with 1.
  match goal with
  | |- context [rankOption context ?w ?t o1 0] =>
      pose proof (rankOption_twins context w t o1 o2 Ht Hp1 Hc1 Hp2 Hc2) as Hraw;
      exists (rankOption context w t o1 0), (rankOption context w t o2 1)
  end.
  split; [reflexivity|]. split; [reflexivity|]. split; [reflexivity|]. lia.
Qed.

Lemma two_close_rankings (raw1 raw2 : AIRanking) :
  score raw2 <= score raw1 ->
  score raw1 - score raw2 < 15 ->
  spreadOf (map score [raw1; raw2]) < 15 /\
  needsSpreading [raw1; raw2] = true /\
  assignRanks (differentiate [raw1; raw2]) = [finish true raw1 0; finish true raw2 1].
Proof.
  intros Hle Hclose.
  assert (spreadOf (map score [raw1; raw2]) < 15) as Hspread
    by (unfold spreadOf, maxOf, minOf; simpl; lia).
  assert (needsSpreading [raw1; raw2] = true) as Hneeds.
  { unfold needsSpreading. apply andb_true_iff. split.
    - now apply Z.ltb_lt.
    - reflexivity. }
  repeat split; try assumption.
  rewrite normalize_shape, Hneeds. unfold mapi. cbn [sortDesc insertDesc].
  destruct (score raw2 <=? score raw1) eqn:E; [reflexivity|].
  apply Z.leb_gt in E. lia.
Qed.

(** C6. Two options with the same text and no pros or cons have raw
    scores at most 1 apart, the first at least the second, so the
    normalizer applies: in raw-score order the first gets
    clamp(85 - 15 * 0) = 85 and rank 1, the second
    clamp(85 - 15 * 1) = 70 and rank 2, 15 apart. *)
Theorem twin_options_are_separated context o1 o2 :
  options context = [o1; o2] ->
  text o1 = text o2 ->
  lengthOr0 (pros o1) = 0 -> lengthOr0 (cons o1) = 0 ->
  lengthOr0 (pros o2) = 0 -> lengthOr0 (cons o2) = 0 ->
  exists raw1 raw2 r e1 e2,
    rawRankings context = [raw1; raw2] /\
    score raw2 <= score raw1 /\
    spreadOf (map score (rawRankings context)) < 15 /\
    needsSpreading (rawRankings context) = true /\
    localAnalyzeDecision context = Some r /\
    rankings r = [e1; e2] /\
    subject e1 = subject raw1 /\ subject e2 = subject raw2 /\
    option_id e1 = id o1 /\ option_id e2 = id o2 /\
    score e1 = positionScore 0 /\ score e2 = positionScore 1 /\
    score e1 = 85 /\ score e2 = 70 /\
    15 <= score e1 - score e2 /\
    rank e1 = 1 /\ rank e2 = 2.
Proof.
  intros Hopts Ht Hp1 Hc1 Hp2 Hc2.
  assert (options context <> []) as Hne by (rewrite Hopts; discriminate).
  destruct (localAnalyzeDecision_result context Hne) as (top & rest & Hfinal & ->).
  destruct (rawRankings_twins context o1 o2 Hopts Ht Hp1 Hc1 Hp2 Hc2)
    as (raw1 & raw2 & Hraw & Hid1 & Hid2 & Hle & Hclose).
  rewrite Hraw in *.
  destruct (two_close_rankings raw1 raw2 Hle Hclose) as (Hspread & Hneeds & Hshape).
  rewrite Hshape in Hfinal. injection Hfinal as <- <-.
  exists raw1, raw2. eexists _, _, _.
  repeat split; try assumption; try reflexivity.
Qed.

Lemma twin_options_are_separated_witness :
  options twins = [plainOption "a" "Pizza"; plainOption "b" "Pizza"] /\
  exists r e1 e2,
    localAnalyzeDecision twins = Some r /\ rankings r = [e1; e2] /\
    option_id e1 = "a" /\ option_id e2 = "b" /\ score e1 = 85 /\ score e2 = 70.
Proof.
  split; [reflexivity|].
  destruct (twin_options_are_separated twins (plainOption "a" "Pizza")
              (plainOption "b" "Pizza") eq_refl eq_refl eq_refl eq_refl eq_refl eq_refl)
    as (raw1 & raw2 & r & e1 & e2 & _ & _ & _ & _ & Hr & Hrs & _ & _ & Hi1 & Hi2 &
        _ & _ & Hs1 & Hs2 & _).
  exists r, e1, e2. repeat split; assumption.
Defined.



End DecisionFacts.

(* ===================================================================== *)
(** ** Facts about the weekly metrics analyzer *)

Module MetricsFacts.
Import InsightsEngine.

(** *** The two copies of the fatigue score agree *)

Lemma weekly_tallyStep isoDay acc d :
  WeeklyInsights.tallyStep isoDay acc d = tallyStep isoDay acc d.
Proof.
  unfold WeeklyInsights.tallyStep, tallyStep, recordedTime.
  destruct acc as [t|]; [|reflexivity].
  destruct (isoDay (created_at d)); [|reflexivity].
  destruct (time_to_decide d) as [secs|]; [destruct (secs =? 0)|]; reflexivity.
Qed.

Lemma weekly_fatigueTermsOf isoDay ds :
  WeeklyInsights.fatigueTermsOf isoDay ds = fatigueTermsOf isoDay ds.
Proof.
  unfold WeeklyInsights.fatigueTermsOf, fatigueTermsOf, tally.
  generalize (Some emptyTally). generalize (Z.of_nat (List.length ds)).
  induction ds as [|d ds IH]; intros n acc; simpl; [reflexivity|].
  rewrite weekly_tallyStep. apply IH.
Qed.

Lemma weekly_calculateFatigueScore isoDay ds :
  WeeklyInsights.calculateFatigueScore isoDay ds = calculateFatigueScore isoDay ds.
Proof.
  unfold WeeklyInsights.calculateFatigueScore, calculateFatigueScore.
  now rewrite weekly_fatigueTermsOf.
Qed.

(** *** The example list of the specification *)

Lemma bump_same day n rest : bump day ((day, n) :: rest) = (day, n + 1) :: rest.
Proof.
  simpl. rewrite String.eqb_refl.
  destruct (n =? 0) eqn:E; [|reflexivity].
  apply Z.eqb_eq in E. now subst.
Qed.

Section OneDay.
Variable isoDay : string -> option string.
Variable day : string.

Lemma tallyStep_critical t d :
  criticalSlowOpenOn isoDay day d ->
  tallyStep isoDay (Some t) d =
  Some {| dailyDecisionCounts := bump day (dailyDecisionCounts t);
          highUrgencyCount := highUrgencyCount t + 1;
          totalTimeToDecide := totalTimeToDecide t + 900;
          decisionsWithTime := decisionsWithTime t + 1;
          incompleteCount := incompleteCount t + 1 |}.
Proof.
  intros (Hu & Ht & Hc & Hd).
  unfold tallyStep, recordedTime. rewrite Hd, Hu, Ht, Hc. reflexivity.
Qed.

Lemma five_critical_terms ds :
  List.length ds = 5%nat ->
  Forall (criticalSlowOpenOn isoDay day) ds ->
  fatigueTermsOf isoDay ds =
  Some {| dailyTerm := JsNumber.ofZ 1;
          urgencyTerm := JsNumber.lit 25 10;
          timeTerm := JsNumber.lit 25 10;
          incompleteTerm := JsNumber.lit 25 10 |}.
Proof.
  intros Hlen Hall.
  destruct ds as [|d1 [|d2 [|d3 [|d4 [|d5 [|]]]]]]; try discriminate.
  repeat match goal with
         | H : Forall _ (_ :: _) |- _ => inversion H; clear H; subst
         end.
  unfold fatigueTermsOf, tally. cbn [fold_left].
  repeat (rewrite tallyStep_critical by assumption).
  cbn [emptyTally dailyDecisionCounts highUrgencyCount totalTimeToDecide
       decisionsWithTime incompleteCount].
  change (bump day []) with [(day, 0 + 1)]. rewrite !bump_same.
  vm_compute. reflexivity.
Qed.
End OneDay.

(** C7, counterexample. Five critical decisions of 900 seconds,
    none completed, all on 4 March 2024: the daily-volume term is
    (5 / 1) / 5 = 1, less than half of its cap of 2.5. *)
Lemma daily_term_far_from_cap : ~ allTermsNearCap utcDayOfTimestamp busyDay.
Proof.
  intros (c & Hc & (Hdaily & _) & _).
  vm_compute in Hc. injection Hc as <-.
  vm_compute in Hdaily. discriminate.
Qed.

(** C7. For five decisions that are all critical, took 900
    seconds, are not completed and fall on one calendar day, the
    urgency, time and incompletion terms are each exactly 2.5, the
    daily-volume term is 1, and the fatigue score is 8.5, which does
    not exceed 10; both copies of the function agree. *)
Theorem five_critical_decisions_fatigue isoDay day ds :
  List.length ds = 5%nat ->
  Forall (criticalSlowOpenOn isoDay day) ds ->
  fatigueTermsOf isoDay ds =
    Some {| dailyTerm := JsNumber.ofZ 1;
            urgencyTerm := JsNumber.lit 25 10;
            timeTerm := JsNumber.lit 25 10;
            incompleteTerm := JsNumber.lit 25 10 |} /\
  calculateFatigueScore isoDay ds = Some (JsNumber.lit 85 10) /\
  WeeklyInsights.calculateFatigueScore isoDay ds = Some (JsNumber.lit 85 10) /\
  JsNumber.le (JsNumber.lit 85 10) (JsNumber.ofZ 10) = true.
Proof.
  intros Hlen Hall.
  pose proof (five_critical_terms isoDay day ds Hlen Hall) as Hterms.
  assert (calculateFatigueScore isoDay ds = Some (JsNumber.lit 85 10)) as Hscore.
  { unfold calculateFatigueScore. rewrite Hterms.
    destruct ds; [discriminate|]. vm_compute. reflexivity. }
  repeat split; try assumption.
  now rewrite weekly_calculateFatigueScore.
Qed.

Lemma five_critical_decisions_fatigue_witness :
  List.length busyDay = 5%nat /\
  Forall (criticalSlowOpenOn utcDayOfTimestamp "2024-03-04") busyDay /\
  calculateFatigueScore utcDayOfTimestamp busyDay = Some (JsNumber.lit 85 10).
Proof.
  assert (Forall (criticalSlowOpenOn utcDayOfTimestamp "2024-03-04") busyDay) as Hall
    by (repeat constructor).
  split; [reflexivity|]. split; [exact Hall|].
  apply (five_critical_decisions_fatigue utcDayOfTimestamp "2024-03-04" busyDay
           eq_refl Hall).
Defined.

(** *** The best category *)

Lemma zero_over_anything (y : JsNumber.float) :
  JsNumber.gt (JsNumber.div (JsNumber.ofZ 0) y) (JsNumber.ofZ 0) = false.
Proof. destruct y as [[|]|[|]| |[|] m e]; reflexivity. Qed.

Lemma betterCategory_keeps_sentinel entry :
  positive (snd entry) = 0 -> betterCategory noCategory entry = noCategory.
Proof.
  intros Hzero. unfold betterCategory, rateOf at 1. rewrite Hzero.
  change (rateOf (snd noCategory)) with (JsNumber.ofZ 0).
  destruct (0 <? total (snd entry)).
  - now rewrite zero_over_anything.
  - reflexivity.
Qed.

Lemma bestCategory_without_positives categories :
  noPositives categories -> bestCategory categories = noCategory.
Proof.
  unfold bestCategory, noPositives.
  induction 1 as [|entry categories Hzero _ IH]; simpl; [reflexivity|].
  now rewrite betterCategory_keeps_sentinel.
Qed.

Lemma biasInsight_type userId p1 p2 entry insight :
  In insight (biasInsight userId p1 p2 entry) ->
  insight_type insight = "pattern".
Proof.
  unfold biasInsight. destruct entry as [bias score].
  destruct (JsNumber.gt _ _); [|contradiction].
  destruct (biasDescriptions bias); [|contradiction].
  intros [<-|[]]. reflexivity.
Qed.

(** C8, counterexample. Two categories with three and five
    decisions and no positive outcome: the fold returns the sentinel
    "none", which is no category, and no category insight is
    reported. *)
Lemma no_zero_rate_category_is_reported :
  noPositives (categoryPerformance fruitlessWeek) /\
  forall toFixed, ~ reportsSomeCategory toFixed fruitlessWeek.
Proof.
  split; [repeat constructor|].
  intros toFixed (name & stats & Hin & _ & Hbest & _).
  vm_compute in Hbest. injection Hbest as <- <-.
  simpl in Hin. destruct Hin as [H|[H|[]]]; discriminate H.
Qed.

(** C8. When every category has zero positive outcomes, no
    rate exceeds the rate 0 of the sentinel, so the fold returns the
    sentinel ("none", total 0, positive 0) and no category insight is
    generated. *)
Theorem no_positives_no_category_insight toFixed userId m periodStart periodEnd :
  noPositives (categoryPerformance m) ->
  bestCategory (categoryPerformance m) = noCategory /\
  categoryInsights toFixed userId m periodStart periodEnd = [] /\
  Forall (fun insight => insight_type insight <> "category")
    (generateInsightsFromMetrics toFixed userId m periodStart periodEnd).
Proof.
  intros Hzero.
  pose proof (bestCategory_without_positives _ Hzero) as Hbest.
  assert (categoryInsights toFixed userId m periodStart periodEnd = []) as Hnone
    by (unfold categoryInsights; rewrite Hbest; reflexivity).
  repeat split; try assumption.
  unfold generateInsightsFromMetrics. rewrite Hnone, app_nil_r.
  apply Forall_forall. intros insight Hin.
  apply in_app_or in Hin. destruct Hin as [Hin|Hin].
  - unfold successInsights in Hin.
    destruct (JsNumber.ge _ _); [|destruct (JsNumber.lt _ _)];
      simpl in Hin; intuition; subst; discriminate.
  - apply in_app_or in Hin. destruct Hin as [Hin|Hin].
    + unfold fatigueInsights in Hin.
      destruct (JsNumber.ge _ _); simpl in Hin; intuition; subst; discriminate.
    + apply in_flat_map in Hin. destruct Hin as (entry & _ & Hin).
      apply biasInsight_type in Hin. rewrite Hin. discriminate.
Qed.

Lemma no_positives_no_category_insight_witness :
  noPositives (categoryPerformance fruitlessWeek) /\
  bestCategory (categoryPerformance fruitlessWeek) = noCategory.
Proof.
  assert (noPositives (categoryPerformance fruitlessWeek)) as Hzero
    by (repeat constructor).
  split; [exact Hzero|].
  apply (no_positives_no_category_insight (fun _ _ => "0") "u1" fruitlessWeek
           "2024-03-04T00:00:00.000Z" "2024-03-11T00:00:00.000Z" Hzero).
Defined.

(** *** A time of 0 counts as no time *)

Lemma recordedTime_swap d d' : swapsNullAndZero d d' -> recordedTime d' = recordedTime d.
Proof.
  unfold recordedTime. intros [->|[[H ->]|[H ->]]]; [reflexivity| |];
    simpl; rewrite H; reflexivity.
Qed.

Lemma tallyStep_swap isoDay acc d d' :
  swapsNullAndZero d d' -> tallyStep isoDay acc d' = tallyStep isoDay acc d.
Proof.
  intros H. unfold tallyStep. rewrite (recordedTime_swap d d' H).
  destruct H as [->|[[_ ->]|[_ ->]]]; reflexivity.
Qed.

Lemma biasStep_swap acc d d' :
  swapsNullAndZero d d' -> biasStep acc d' = biasStep acc d.
Proof.
  intros [->|[[H ->]|[H ->]]]; [reflexivity| |];
    unfold biasStep; simpl; rewrite H; reflexivity.
Qed.

Lemma weekly_biasStep_swap acc d d' :
  swapsNullAndZero d d' -> WeeklyInsights.biasStep acc d' = WeeklyInsights.biasStep acc d.
Proof.
  intros [->|[[H ->]|[H ->]]]; [reflexivity| |];
    unfold WeeklyInsights.biasStep; simpl; rewrite H; reflexivity.
Qed.

Lemma fold_left_swap {S : Type} (step : S -> Decision -> S) ds ds' (acc : S) :
  (forall a d d', swapsNullAndZero d d' -> step a d' = step a d) ->
  Forall2 swapsNullAndZero ds ds' ->
  fold_left step ds' acc = fold_left step ds acc.
Proof.
  intros Hstep H. revert acc.
  induction H as [|d d' ds ds' Hd _ IH]; intros acc; simpl; [reflexivity|].
  rewrite (Hstep _ _ _ Hd). apply IH.
Qed.

(** C10. Exchanging a [time_to_decide] of null for 0, or 0 for null, in
    any decisions of a list changes neither the fatigue score nor any
    bias fraction, in both copies of the functions: both values fail
    the truthiness test on [time_to_decide]. *)
Theorem zero_time_counts_as_no_time isoDay ds ds' :
  Forall2 swapsNullAndZero ds ds' ->
  calculateFatigueScore isoDay ds' = calculateFatigueScore isoDay ds /\
  analyzeBiases ds' = analyzeBiases ds /\
  WeeklyInsights.calculateFatigueScore isoDay ds' =
    WeeklyInsights.calculateFatigueScore isoDay ds /\
  WeeklyInsights.analyzeBiases ds' = WeeklyInsights.analyzeBiases ds.
Proof.
  intros H.
  assert (List.length ds' = List.length ds) as Hlen
    by (symmetry; eapply Forall2_length; eassumption).
  assert (calculateFatigueScore isoDay ds' = calculateFatigueScore isoDay ds) as Hf.
  { unfold calculateFatigueScore, fatigueTermsOf, tally.
    rewrite Hlen, (fold_left_swap _ ds ds' _ (tallyStep_swap isoDay) H).
    destruct H; reflexivity. }
  repeat split.
  - exact Hf.
  - unfold analyzeBiases. now rewrite Hlen, (fold_left_swap _ ds ds' _ biasStep_swap H).
  - now rewrite !weekly_calculateFatigueScore.
  - unfold WeeklyInsights.analyzeBiases.
    now rewrite Hlen, (fold_left_swap _ ds ds' _ weekly_biasStep_swap H).
Qed.

Lemma zero_time_counts_as_no_time_witness :
  Forall2 swapsNullAndZero timedDecisions timedDecisionsSwapped /\
  calculateFatigueScore utcDayOfTimestamp timedDecisionsSwapped =
    calculateFatigueScore utcDayOfTimestamp timedDecisions /\
  analyzeBiases timedDecisionsSwapped = analyzeBiases timedDecisions.
Proof.
  assert (Forall2 swapsNullAndZero timedDecisions timedDecisionsSwapped) as H.
  { unfold timedDecisions, timedDecisionsSwapped.
    apply Forall2_cons; [|apply Forall2_cons; [|apply Forall2_cons; [|apply Forall2_nil]]].
    - right; left. split; reflexivity.
    - right; right. split; reflexivity.
    - left; reflexivity. }
  split; [exact H|].
  destruct (zero_time_counts_as_no_time utcDayOfTimestamp _ _ H) as (Hf & Hb & _).
  split; assumption.
Defined.

End MetricsFacts.

(* ===================================================================== *)
(** ** Further facts about the decision analysis *)

Module DecisionExtras.
Import JsArray SupabaseAI ArrayFacts DecisionFacts.

(** *** The spread of the final scores *)

Lemma spread_covers (scores : list Z) (a b : Z) :
  In a scores -> In b scores -> a - b <= spreadOf scores.
Proof.
  destruct scores as [|x l]; [contradiction|]. intros Ha Hb. unfold spreadOf.
  destruct (maxOf_spec l x) as [_ Hmax]. destruct (minOf_spec l x) as [_ Hmin].
  rewrite Forall_forall in Hmax, Hmin.
  pose proof (Hmax _ Ha). pose proof (Hmin _ Hb). lia.
Qed.

Lemma spread_within (scores : list Z) (lo hi : Z) :
  scores <> [] ->
  Forall (fun y => lo <= y <= hi) scores ->
  0 <= spreadOf scores <= hi - lo.
Proof.
  destruct scores as [|x l]; [congruence|]. intros _ Hall. unfold spreadOf.
  destruct (maxOf_spec l x) as [Hmax_in Hmax]. destruct (minOf_spec l x) as [Hmin_in Hmin].
  rewrite Forall_forall in Hall, Hmax.
  pose proof (Hall _ Hmax_in). pose proof (Hall _ Hmin_in). pose proof (Hmax _ Hmin_in).
  lia.
Qed.

Lemma spreadOf_perm (l l' : list Z) : Permutation l l' -> spreadOf l = spreadOf l'.
Proof.
  intros Hp.
  destruct l as [|x t].
  { apply Permutation_nil in Hp. now subst. }
  destruct l' as [|x' t'].
  { symmetry in Hp. apply Permutation_nil in Hp. discriminate. }
  unfold spreadOf.
  destruct (maxOf_spec t x) as [Ha Hb]. destruct (maxOf_spec t' x') as [Ha' Hb'].
  destruct (minOf_spec t x) as [Hc Hd]. destruct (minOf_spec t' x') as [Hc' Hd'].
  rewrite Forall_forall in Hb, Hb', Hd, Hd'.
  pose proof (Hb' _ (Permutation_in _ Hp Ha)).
  pose proof (Hb _ (Permutation_in _ (Permutation_sym Hp) Ha')).
  pose proof (Hd' _ (Permutation_in _ Hp Hc)).
  pose proof (Hd _ (Permutation_in _ (Permutation_sym Hp) Hc')).
  lia.
Qed.

Lemma normalize_scores_kept raw :
  needsSpreading raw = false ->
  Permutation (map score (assignRanks (differentiate raw))) (map score raw).
Proof.
  intros Hkeep. rewrite normalize_shape, Hkeep. unfold mapi.
  rewrite (mapiFrom_map score score) by reflexivity.
  apply Permutation_map, sortDesc_perm.
Qed.

Lemma normalize_spread raw :
  (2 <= List.length raw)%nat ->
  15 <= spreadOf (map score (assignRanks (differentiate raw))).
Proof.
  intros HN. destruct (needsSpreading raw) eqn:Hlow.
  - assert (forall k, (k < 2)%nat ->
              In (positionScore (Z.of_nat k))
                 (map score (assignRanks (differentiate raw)))) as Hin.
    { intros k Hk.
      destruct (nth_error (assignRanks (differentiate raw)) k) as [e|] eqn:E.
      - pose proof E as E'. rewrite normalize_nth_error, Hlow in E'.
        destruct (nth_error (sortDesc score raw) k); [|discriminate].
        injection E' as <-. apply nth_error_In in E.
        apply (in_map score) in E. exact E.
      - apply nth_error_None in E. rewrite normalize_length in E. lia. }
    pose proof (spread_covers _ _ _ (Hin 0%nat ltac:(lia)) (Hin 1%nat ltac:(lia))) as H.
    unfold positionScore in H. simpl in H. lia.
  - rewrite (spreadOf_perm _ _ (normalize_scores_kept raw Hlow)).
    unfold needsSpreading in Hlow. apply andb_false_iff in Hlow.
    destruct Hlow as [H|H].
    + now apply Z.ltb_ge in H.
    + apply Z.ltb_ge in H. lia.
Qed.

Lemma confidenceOfSpread_spread_bounds (s : Z) :
  15 <= s <= 75 ->
  JsNumber.le (JsNumber.lit 56 100) (confidenceOfSpread s) = true /\
  JsNumber.le (confidenceOfSpread s) (JsNumber.lit 8 10) = true.
Proof.
  intros Hs.
  assert (forallb (fun k =>
                     JsNumber.le (JsNumber.lit 56 100) (confidenceOfSpread (Z.of_nat k)) &&
                     JsNumber.le (confidenceOfSpread (Z.of_nat k)) (JsNumber.lit 8 10))
            (seq 15 61) = true) as Hall by (vm_compute; reflexivity).
  rewrite forallb_forall in Hall.
  specialize (Hall (Z.to_nat s)).
  rewrite Z2Nat.id in Hall by lia.
  apply andb_true_iff. apply Hall. apply in_seq. lia.
Qed.

(** X1. With at least two options the final scores are never close: the
    largest and the smallest final score are at least 15 and at most 75
    apart, whether the scores were reassigned or kept. The confidence
    therefore lies between 0.56 and 0.8, and its cap of 0.95 is never
    reached. *)
Theorem final_scores_are_spread context :
  (2 <= List.length (options context))%nat ->
  exists r,
    localAnalyzeDecision context = Some r /\
    15 <= spreadOf (map score (rankings r)) <= 75 /\
    JsNumber.le (JsNumber.lit 56 100) (confidence_score r) = true /\
    JsNumber.le (confidence_score r) (JsNumber.lit 8 10) = true.
Proof.
  intros HN.
  destruct (localAnalyzeDecision_result context (two_options_nonempty _ HN))
    as (top & rest & Hfinal & ->).
  eexists; split; [reflexivity|]. cbn [rankings confidence_score].
  assert (15 <= spreadOf (map score (top :: rest)) <= 75) as Hspread.
  { rewrite <- Hfinal. split.
    - apply normalize_spread. now rewrite rawRankings_length.
    - assert (0 <= spreadOf (map score (assignRanks (differentiate (rawRankings context))))
              <= 95 - 20) as H; [|lia].
      apply spread_within.
      + rewrite Hfinal. discriminate.
      + apply Forall_forall. intros y Hy. apply in_map_iff in Hy.
        destruct Hy as (e & <- & He).
        pose proof (normalize_score_range _ (rawRankings_score_range context)) as Hr.
        rewrite Forall_forall in Hr. now apply Hr. }
  split; [exact Hspread|]. now apply confidenceOfSpread_spread_bounds.
Qed.

Lemma final_scores_are_spread_witness :
  (2 <= List.length (options finishOrSleep))%nat /\
  exists r, localAnalyzeDecision finishOrSleep = Some r /\
            15 <= spreadOf (map score (rankings r)) <= 75.
Proof.
  assert (2 <= List.length (options finishOrSleep))%nat as HN by (simpl; lia).
  split; [exact HN|].
  destruct (final_scores_are_spread finishOrSleep HN) as (r & Hr & Hs & _).
  exists r. split; assumption.
Defined.

(** *** One option, no option *)

Lemma single_ranking (x : AIRanking) :
  assignRanks (differentiate [x]) = [finish false x 0].
Proof.
  rewrite normalize_shape. unfold needsSpreading.
  change (1 <? Z.of_nat (List.length [x])) with false.
  now rewrite andb_false_r.
Qed.

(** X2. With exactly one option the score spreading is skipped: the one
    ranking keeps its raw score, gets rank 1, the confidence is exactly
    0.5, and the recommendation is the option's text, or "Make a choice"
    when that text is empty. *)
Theorem single_option_result context o :
  options context = [o] ->
  exists r e raw,
    localAnalyzeDecision context = Some r /\
    rawRankings context = [raw] /\
    rankings r = [e] /\
    option_id e = id o /\ rank e = 1 /\ score e = score raw /\
    subject e = subject raw /\
    confidence_score r = JsNumber.lit 5 10 /\
    recommended_action r = (if JsString.truthy (text o) then text o else "Make a choice").
Proof.
  intros Hopts.
  assert (options context <> []) as Hne by (rewrite Hopts; discriminate).
  destruct (localAnalyzeDecision_result context Hne) as (top & rest & Hfinal & ->).
  assert (exists raw, rawRankings context = [raw] /\ option_id raw = id o) as (raw & Hraw & Hid).
  { unfold rawRankings, mapi. cbv zeta. rewrite Hopts. cbn [mapiFrom].
    eexists. split; reflexivity. }
  rewrite Hraw, single_ranking in Hfinal. injection Hfinal as <- <-.
  eexists _, _, raw. split; [reflexivity|]. cbn [rankings confidence_score recommended_action].
  rewrite Hopts.
  assert (find (fun o' => String.eqb (id o') (option_id (finish false raw 0))) [o] = Some o)
    as Hfind.
  { unfold find. cbn [List.find]. rewrite finish_option_id, Hid, String.eqb_refl.
    reflexivity. }
  rewrite Hfind.
  repeat split; try assumption; try reflexivity.
  - unfold spreadOf, maxOf, minOf. cbn [map fold_left]. rewrite Z.sub_diag.
    vm_compute. reflexivity.
  - unfold recommendedAction. destruct (JsString.truthy (text o)); reflexivity.
Qed.

Lemma single_option_result_witness :
  options onlyOneOption = [plainOption "a" "Go to the gym"] /\
  exists r, localAnalyzeDecision onlyOneOption = Some r /\
            confidence_score r = JsNumber.lit 5 10 /\
            recommended_action r = "Go to the gym".
Proof.
  split; [reflexivity|].
  destruct (single_option_result onlyOneOption (plainOption "a" "Go to the gym") eq_refl)
    as (r & e & raw & Hr & _ & _ & _ & _ & _ & _ & Hc & Hrec).
  exists r. repeat split; assumption.
Defined.

Lemma result_has_options context r :
  localAnalyzeDecision context = Some r -> options context <> [].
Proof.
  intros Hr Hopts. unfold localAnalyzeDecision, rawRankings, mapi in Hr. cbv zeta in Hr.
  rewrite Hopts in Hr. discriminate.
Qed.

(** X3. The analysis fails exactly on a context without options (reading
    the first ranking of an empty array throws); on every other context
    it returns a result. *)
Theorem fails_exactly_without_options context :
  localAnalyzeDecision context = None <-> options context = [].
Proof.
  split.
  - intros Hnone. destruct (options context) as [|o os] eqn:Hopts; [reflexivity|].
    assert (options context <> []) as Hne by (rewrite Hopts; discriminate).
    destruct (localAnalyzeDecision_result context Hne) as (top & rest & _ & Hsome).
    congruence.
  - intros Hopts. unfold localAnalyzeDecision, rawRankings, mapi. cbv zeta.
    rewrite Hopts. reflexivity.
Qed.

(** X4. Whenever the analysis returns, the recommendation is not empty:
    it is the text of one of the options, or the default "Make a
    choice". *)
Theorem recommendation_never_empty context r :
  localAnalyzeDecision context = Some r ->
  recommended_action r <> "" /\
  (recommended_action r = "Make a choice" \/
   exists o, In o (options context) /\ recommended_action r = text o).
Proof.
  intros Hr.
  pose proof (result_has_options context r Hr) as Hne.
  destruct (localAnalyzeDecision_result context Hne) as (top & rest & _ & Hsome).
  rewrite Hsome in Hr. injection Hr as <-. cbn [recommended_action].
  unfold recommendedAction.
  destruct (find _ (options context)) as [o|] eqn:Hfind.
  - apply find_some in Hfind. destruct Hfind as [Ho _].
    destruct (text o) as [|c t] eqn:Ht; simpl.
    + destruct (options context) as [|o0 os]; [congruence|].
      destruct (text o0) as [|c0 t0] eqn:Ht0; simpl.
      * split; [discriminate|now left].
      * split; [discriminate|]. right. exists o0. split; [now left|]. now rewrite Ht0.
    + split; [discriminate|]. right. exists o. split; [exact Ho|]. now rewrite Ht.
  - destruct (options context) as [|o0 os]; [congruence|].
    destruct (text o0) as [|c0 t0] eqn:Ht0; simpl.
    + split; [discriminate|now left].
    + split; [discriminate|]. right. exists o0. split; [now left|]. now rewrite Ht0.
Qed.

Lemma recommendation_never_empty_witness :
  exists r, localAnalyzeDecision emptyFirstText = Some r /\ recommended_action r <> "".
Proof.
  assert (exists r, localAnalyzeDecision emptyFirstText = Some r) as [r Hr]
    by (eexists; vm_compute; reflexivity).
  exists r. split; [exact Hr|].
  apply (recommendation_never_empty emptyFirstText r Hr).
Defined.

(** X5. Whenever the analysis returns, the rankings are the raw rankings
    rearranged: every option of the input is ranked exactly once, and
    what a ranking says about its option (id, predicted outcome, risk
    level, time horizon) is what was computed for it before the scores
    were normalized. *)
Theorem every_option_ranked_once context r :
  localAnalyzeDecision context = Some r ->
  Permutation (map option_id (rankings r)) (map id (options context)) /\
  Permutation (map subject (rankings r)) (map subject (rawRankings context)).
Proof.
  intros Hr.
  pose proof (result_has_options context r Hr) as Hne.
  destruct (localAnalyzeDecision_result context Hne) as (top & rest & Hfinal & Hsome).
  rewrite Hsome in Hr. injection Hr as <-. cbn [rankings]. rewrite <- Hfinal. split.
  - rewrite normalize_option_ids, <- rawRankings_ids.
    apply Permutation_map, sortDesc_perm.
  - rewrite normalize_subjects. apply Permutation_map, sortDesc_perm.
Qed.

Lemma every_option_ranked_once_witness :
  exists r, localAnalyzeDecision sixOptions = Some r /\
            Permutation (map option_id (rankings r)) ["1"; "2"; "3"; "4"; "5"; "6"].
Proof.
  assert (exists r, localAnalyzeDecision sixOptions = Some r) as [r Hr]
    by (eexists; vm_compute; reflexivity).
  exists r. split; [exact Hr|].
  apply (every_option_ranked_once sixOptions r Hr).
Defined.

(** *** How the raw score moves *)

(** X6. Listing more pros or fewer cons for an option never lowers its
    raw score: with the same text at the same position, a version of the
    option with at least as many pros and at most as many cons scores at
    least as high. *)
Theorem more_pros_fewer_cons_never_hurt context w t o o' i :
  text o' = text o ->
  lengthOr0 (pros o) <= lengthOr0 (pros o') ->
  lengthOr0 (cons o') <= lengthOr0 (cons o) ->
  score (rankOption context w t o i) <= score (rankOption context w t o' i).
Proof.
  intros Ht Hp Hc.
  unfold rankOption. cbv zeta. cbn [score]. rewrite Ht.
  match goal with
  | |- context [?b + lengthOr0 (pros o) * 10] => generalize b
  end.
  intros b.
  match goal with
  | |- context [if ?c then _ else _] => destruct c
  end; lia.
Qed.

Lemma more_pros_fewer_cons_never_hurt_witness :
  lengthOr0 (pros (plainOption "a" "Pizza")) <=
    lengthOr0 (pros {| id := "a"; text := "Pizza"; pros := Some ["cheap"]; cons := None |}) /\
  score (rankOption twins false "lunch" (plainOption "a" "Pizza") 0) <=
  score (rankOption twins false "lunch"
           {| id := "a"; text := "Pizza"; pros := Some ["cheap"]; cons := None |} 0).
Proof.
  assert (lengthOr0 (pros (plainOption "a" "Pizza")) <=
          lengthOr0 (pros {| id := "a"; text := "Pizza"; pros := Some ["cheap"];
                              cons := None |})) as Hp by (simpl; lia).
  split; [exact Hp|].
  apply (more_pros_fewer_cons_never_hurt twins false "lunch" (plainOption "a" "Pizza")
           {| id := "a"; text := "Pizza"; pros := Some ["cheap"]; cons := None |} 0
           eq_refl Hp).
  simpl; lia.
Defined.

(** X7. Listing an option earlier never lowers its raw score, and moves
    it by at most 3 points: the position bonus is max(0, 3 - index). *)
Theorem earlier_position_never_hurts context w t o i j :
  0 <= i <= j ->
  score (rankOption context w t o j) <= score (rankOption context w t o i)
    <= score (rankOption context w t o j) + 3.
Proof.
  intros Hij.
  unfold rankOption. cbv zeta. cbn [score].
  match goal with
  | |- context [Z.max 20 (?b + Z.max 0 (3 - i))] => generalize b
  end.
  intros b. lia.
Qed.

Lemma earlier_position_never_hurts_witness :
  0 <= 0 <= 5 /\
  score (rankOption twins false "lunch" (plainOption "a" "Pizza") 5) <=
  score (rankOption twins false "lunch" (plainOption "a" "Pizza") 0).
Proof.
  assert (0 <= 0 <= 5) as H by lia.
  split; [exact H|].
  apply (earlier_position_never_hurts twins false "lunch" (plainOption "a" "Pizza") 0 5 H).
Defined.

(** *** Watch-outs *)

(** X8. [detectBiases] never returns an empty list and never more than
    four messages; the reassuring default message appears only when no
    warning was triggered, and is then the whole list. *)
Theorem watch_outs_never_empty context :
  detectBiases context <> [] /\
  (List.length (detectBiases context) <= 4)%nat /\
  (In balancedMessage (detectBiases context) -> detectBiases context = [balancedMessage]).
Proof.
  unfold detectBiases, push. cbv zeta.
  destruct (options context) as [|firstOption rest];
    try destruct (_ + 2 <? _);
    try destruct (5 <? _);
    destruct (String.eqb _ _);
    destruct (JsNumber.gt _ _);
    try destruct (JsNumber.gt _ _);
    cbn [app List.length Z.of_nat Z.eqb Pos.of_succ_nat Pos.succ];
    (split; [discriminate|]); (split; [simpl; lia|]);
    unfold firstFavoredWarning, tooManyChoicesWarning, timePressureWarning,
      positiveFramingWarning, negativeFramingWarning, balancedMessage;
    simpl; intros H; intuition (try discriminate; try reflexivity).
Qed.

Lemma watch_outs_never_empty_witness :
  detectBiases onlyOneOption = [balancedMessage].
Proof.
  destruct (watch_outs_never_empty onlyOneOption) as (_ & _ & H).
  apply H. vm_compute. left. reflexivity.
Defined.

(** *** Who is ranked first *)

Lemma sortDesc_head {A : Type} (key : A -> Z) (l : list A) (h : A) (t : list A) :
  sortDesc key l = h :: t ->
  exists before after,
    l = app before (h :: after) /\
    Forall (fun x => key x < key h) before /\
    Forall (fun x => key x <= key h) after.
Proof.
  revert h t. induction l as [|x l IH]; intros h t Hsort; [discriminate|].
  cbn [sortDesc] in Hsort.
  destruct (sortDesc key l) as [|y s] eqn:Hs.
  - cbn [insertDesc] in Hsort. injection Hsort as <- <-.
    assert (l = []) as ->.
    { apply length_zero_iff_nil. rewrite <- (sortDesc_length key l), Hs. reflexivity. }
    exists [], []. repeat split; constructor.
  - cbn [insertDesc] in Hsort. destruct (key y <=? key x) eqn:E.
    + injection Hsort as <- <-. apply Z.leb_le in E.
      exists [], l. split; [reflexivity|]. split; [constructor|].
      pose proof (sortDesc_descending key l) as Hd. rewrite Hs in Hd.
      unfold Descending in Hd. inversion Hd as [|? ? _ Hy]; subst.
      apply Forall_forall. intros z Hz.
      apply (Permutation_in _ (Permutation_sym (sortDesc_perm key l))) in Hz.
      rewrite Hs in Hz. destruct Hz as [<-|Hz]; [lia|].
      rewrite Forall_forall in Hy. pose proof (Hy _ Hz). lia.
    + injection Hsort as <- <-. apply Z.leb_gt in E.
      destruct (IH y s eq_refl) as (before & after & -> & Hb & Ha).
      exists (x :: before), after. split; [reflexivity|]. split; [|exact Ha].
      constructor; [lia|exact Hb].
Qed.

(** X23. The ranking with rank 1 belongs to an option with the highest
    raw score, and among the options with that score to the one listed
    first: every earlier option has a strictly lower raw score and no
    later option a higher one. *)
Theorem first_ranking_has_highest_raw_score context r top rest :
  localAnalyzeDecision context = Some r ->
  rankings r = top :: rest ->
  exists before raw after,
    rawRankings context = app before (raw :: after) /\
    subject top = subject raw /\
    Forall (fun x => score x < score raw) before /\
    Forall (fun x => score x <= score raw) after.
Proof.
  intros Hr Hrank.
  pose proof (result_has_options context r Hr) as Hne.
  destruct (localAnalyzeDecision_result context Hne) as (top' & rest' & Hfinal & Hsome).
  rewrite Hsome in Hr. injection Hr as <-. cbn [rankings] in Hrank.
  injection Hrank as -> ->.
  pose proof (normalize_nth_error (rawRankings context) 0) as H0.
  rewrite Hfinal in H0. cbn [nth_error] in H0.
  destruct (sortDesc score (rawRankings context)) as [|h t] eqn:Hs; [discriminate|].
  cbn [nth_error option_map] in H0. injection H0 as ->.
  destruct (sortDesc_head score _ _ _ Hs) as (before & after & Hraw & Hb & Ha).
  exists before, h, after. repeat split; try assumption.
  apply finish_subject.
Qed.

Lemma first_ranking_has_highest_raw_score_witness :
  exists r top rest,
    localAnalyzeDecision finishOrSleep = Some r /\ rankings r = top :: rest /\
    exists before raw after,
      rawRankings finishOrSleep = app before (raw :: after) /\
      subject top = subject raw /\
      Forall (fun x => score x <= score raw) after.
Proof.
  assert (exists r top rest,
             localAnalyzeDecision finishOrSleep = Some r /\ rankings r = top :: rest)
    as (r & top & rest & Hr & Hrank).
  { eexists _, _, _. split; vm_compute; reflexivity. }
  exists r, top, rest. split; [exact Hr|]. split; [exact Hrank|].
  destruct (first_ranking_has_highest_raw_score finishOrSleep r top rest Hr Hrank)
    as (before & raw & after & Hraw & Hsub & _ & Ha).
  exists before, raw, after. repeat split; assumption.
Defined.

(** X24. Every ranking of a result carries the same time horizon:
    "short-term" when the urgency of the decision is high or critical,
    and "long-term" otherwise. *)
Theorem rankings_share_time_horizon context r :
  localAnalyzeDecision context = Some r ->
  Forall (fun e =>
            time_horizon e =
            if String.eqb (urgency context) "high" || String.eqb (urgency context) "critical"
            then "short-term" else "long-term") (rankings r).
Proof.
  intros Hr.
  pose proof (result_has_options context r Hr) as Hne.
  destruct (localAnalyzeDecision_result context Hne) as (top & rest & Hfinal & Hsome).
  rewrite Hsome in Hr. injection Hr as <-. cbn [rankings]. rewrite <- Hfinal.
  assert (Permutation (map subject (assignRanks (differentiate (rawRankings context))))
            (map subject (rawRankings context))) as Hperm
    by (rewrite normalize_subjects; apply Permutation_map, sortDesc_perm).
  apply Forall_forall. intros e He.
  apply (in_map subject) in He. apply (Permutation_in _ Hperm) in He.
  apply in_map_iff in He. destruct He as (raw & Hsub & Hraw).
  unfold rawRankings, mapi in Hraw. cbv zeta in Hraw.
  apply mapiFrom_In in Hraw. destruct Hraw as (o & j & _ & _ & ->).
  unfold subject in Hsub. injection Hsub as _ _ _ Hh. rewrite <- Hh. reflexivity.
Qed.

Lemma rankings_share_time_horizon_witness :
  exists r, localAnalyzeDecision finishOrSleep = Some r /\
            Forall (fun e => time_horizon e = "short-term") (rankings r).
Proof.
  assert (exists r, localAnalyzeDecision finishOrSleep = Some r) as [r Hr]
    by (eexists; vm_compute; reflexivity).
  exists r. split; [exact Hr|].
  apply (rankings_share_time_horizon finishOrSleep r Hr).
Defined.

(** *** The reasoning text *)

Lemma top_option_found context top rest :
  assignRanks (differentiate (rawRankings context)) = top :: rest ->
  exists o, find (fun o => String.eqb (id o) (option_id top)) (options context) = Some o.
Proof.
  intros Hfinal.
  destruct (find _ (options context)) as [o|] eqn:Hfind; [now exists o|].
  exfalso.
  assert (In (option_id top) (map id (options context))) as Hin.
  { rewrite <- rawRankings_ids.
    eapply Permutation_in; [apply Permutation_map, (sortDesc_perm score)|].
    rewrite <- normalize_option_ids, Hfinal. now left. }
  apply in_map_iff in Hin. destruct Hin as (o & Hid & Ho).
  pose proof (find_none _ _ Hfind o Ho) as Hno. cbv beta in Hno.
  rewrite Hid, String.eqb_refl in Hno. discriminate.
Qed.

Lemma append_assoc (a b c : string) : ((a ++ b) ++ c = a ++ (b ++ c))%string.
Proof. induction a as [|x a IH]; cbn [append]; [reflexivity|now rewrite IH]. Qed.

Lemma join_snoc (sep : string) (front : list string) (x : string) :
  front <> [] ->
  JsString.join sep (app front [x]) = (JsString.join sep front ++ sep ++ x)%string.
Proof.
  induction front as [|p front IH]; intros Hne; [congruence|].
  destruct front as [|q front]; [reflexivity|].
  change (JsString.join sep (app (p :: q :: front) [x]))
    with (p ++ sep ++ JsString.join sep (app (q :: front) [x]))%string.
  rewrite IH by discriminate.
  change (JsString.join sep (p :: q :: front))
    with (p ++ sep ++ JsString.join sep (q :: front))%string.
  now rewrite !append_assoc.
Qed.

Lemma list_ascii_of_append (a b : string) :
  list_ascii_of_string (a ++ b) = app (list_ascii_of_string a) (list_ascii_of_string b).
Proof. induction a as [|x a IH]; cbn; [reflexivity|now rewrite IH]. Qed.

(** A text that ends with the clear-winner paragraph or with a "While
    ..." paragraph does not end with the close-options paragraph: the
    three end differently. *)
Lemma closing_is_not_close_options (front closing : string) :
  closing = clearWinnerParagraph \/ (exists topText, closing = whileParagraph topText) ->
  forall before, (front ++ closing)%string <> (before ++ closeOptionsParagraph)%string.
Proof.
  intros Hclosing before Heq.
  apply (f_equal (fun t => rev (list_ascii_of_string t))) in Heq.
  rewrite !list_ascii_of_append, !rev_app_distr in Heq.
  remember (rev (list_ascii_of_string closeOptionsParagraph)) as target eqn:Ht.
  vm_compute in Ht. subst target.
  destruct Hclosing as [->|[topText ->]].
  - remember (rev (list_ascii_of_string clearWinnerParagraph)) as ending eqn:He.
    vm_compute in He. subst ending. cbn [app] in Heq. discriminate Heq.
  - unfold whileParagraph in Heq.
    rewrite !list_ascii_of_append, !rev_app_distr in Heq.
    cbn [list_ascii_of_string rev app] in Heq. discriminate Heq.
Qed.

(** X25. With at least two options the reasoning text that the analysis
    composes always ends with one of two closing paragraphs: "There's a
    noticeable difference between the options..." when the final scores
    are more than 30 apart, and otherwise "While <the top option's
    text> seems strongest...", the top option being the one whose id
    the first ranking carries. The text never ends with the paragraph
    "Honestly, all your options are pretty close in quality...", which
    is the closing for final scores less than 15 apart: the normalizer
    rules that out. *)
Theorem reasoning_closing_paragraph context :
  (2 <= List.length (options context))%nat ->
  exists r top rest o text front closing,
    localAnalyzeDecision context = Some r /\
    rankings r = top :: rest /\
    In o (options context) /\ id o = option_id top /\
    reasoning context = Some text /\
    text = (front ++ " " ++ closing)%string /\
    (if 30 <? spreadOf (map score (rankings r))
     then closing = clearWinnerParagraph
     else closing = whileParagraph (SupabaseAI.text o)) /\
    forall before, text <> (before ++ closeOptionsParagraph)%string.
Proof.
  intros HN.
  destruct (localAnalyzeDecision_result context (two_options_nonempty _ HN))
    as (top & rest & Hfinal & Hsome).
  pose proof (normalize_spread (rawRankings context)) as Hspread.
  rewrite rawRankings_length, Hfinal in Hspread. specialize (Hspread HN).
  destruct (top_option_found context top rest Hfinal) as [o Ho].
  pose proof (find_some _ _ Ho) as [Hin Hid]. cbv beta in Hid.
  apply String.eqb_eq in Hid.
  assert (exists front closing,
             reasoning context = Some (front ++ " " ++ closing)%string /\
             (if 30 <? spreadOf (map score (top :: rest))
              then closing = clearWinnerParagraph
              else closing = whileParagraph (SupabaseAI.text o)))
    as (front & closing & Htext & Hclosing).
  { unfold reasoning. cbv zeta. rewrite Hfinal, Ho.
    unfold generateReasoning, reasoningParts. cbv zeta.
    assert ((spreadOf (map score (top :: rest)) <? 15) = false) as ->
      by (apply Z.ltb_ge; lia).
    destruct (String.eqb (urgency context) "high" || String.eqb (urgency context) "critical");
      destruct (30 <? spreadOf (map score (top :: rest)));
      unfold push; cbn [app];
      match goal with
      | |- context [JsString.join " " (?p :: ?q :: app ?l [?c])] =>
          change (p :: q :: app l [c]) with (app (p :: q :: l) [c]);
          rewrite (join_snoc " " (p :: q :: l) c) by discriminate;
          exists (JsString.join " " (p :: q :: l)), c; split; reflexivity
      end. }
  exists {| rankings := top :: rest;
            confidence_score := confidenceOfSpread (spreadOf (map score (top :: rest)));
            recommended_action :=
              recommendedAction
                (find (fun o' => String.eqb (id o') (option_id top)) (options context))
                (options context) |}, top, rest, o, (front ++ " " ++ closing)%string,
    front, closing.
  cbn [rankings]. repeat split; try assumption.
  intros before. rewrite <- append_assoc. apply closing_is_not_close_options.
  destruct (30 <? spreadOf (map score (top :: rest))); [now left|right; now exists (SupabaseAI.text o)].
Qed.

Lemma reasoning_closing_paragraph_witness :
  exists text front,
    reasoning finishOrSleep = Some text /\
    text = (front ++ " " ++ clearWinnerParagraph)%string.
Proof.
  assert (2 <= List.length (options finishOrSleep))%nat as HN by (vm_compute; lia).
  destruct (reasoning_closing_paragraph finishOrSleep HN)
    as (r & top & rest & o & text & front & closing & Hr & _ & _ & _ & Ht & Hfront & Hc & _).
  vm_compute in Hr. injection Hr as <-.
  exists text, front. split; [exact Ht|].
  rewrite Hfront. f_equal. f_equal. exact Hc.
Defined.

End DecisionExtras.

(* ===================================================================== *)
(** ** Further facts about the weekly metrics analyzer *)

Module MetricsExtras.
Import InsightsEngine MetricsFacts.

(** *** Comparing doubles *)

Lemma SFcompare_antisym (a b : JsNumber.float) :
  SFcompare b a = option_map CompOpp (SFcompare a b).
Proof.
  destruct a as [[|]|[|]| |[|] ma ea], b as [[|]|[|]| |[|] mb eb]; try reflexivity.
  - simpl. rewrite (Z.compare_antisym ea eb).
    destruct (ea ?= eb); simpl; try reflexivity.
    rewrite (Pos.compare_cont_antisym ma mb Eq). reflexivity.
  - simpl. rewrite (Z.compare_antisym ea eb).
    destruct (ea ?= eb); simpl; try reflexivity.
    rewrite (Pos.compare_cont_antisym ma mb Eq). reflexivity.
Qed.

Lemma gt_nan_right (b : JsNumber.float) : JsNumber.gt S754_nan b = false.
Proof. destruct b as [[|]|[|]| |[|] mb eb]; reflexivity. Qed.

(** [Math.min(a, b)] is never above [b]. *)
Lemma min_not_above_right (a b : JsNumber.float) :
  JsNumber.gt (JsNumber.min a b) b = false.
Proof.
  unfold JsNumber.min, JsNumber.gt, SFltb.
  destruct (SFcompare a b) as [[| |]|] eqn:E.
  - assert (SFcompare b a = Some Eq) as E' by (rewrite SFcompare_antisym, E; reflexivity).
    assert (SFcompare b b <> Some Lt) as Hbb.
    { intros H. pose proof (SFcompare_antisym b b) as Hs. rewrite H in Hs. discriminate. }
    destruct a as [[|]|[|]| |[|] ma ea]; rewrite ?E';
      try reflexivity; destruct (SFcompare b b) as [[| |]|]; congruence.
  - rewrite SFcompare_antisym, E. reflexivity.
  - assert (SFcompare b b <> Some Lt) as Hbb.
    { intros H. pose proof (SFcompare_antisym b b) as Hs. rewrite H in Hs. discriminate. }
    destruct (SFcompare b b) as [[| |]|]; congruence.
  - apply gt_nan_right.
Qed.

(** *** The fatigue score *)

(** X9. The fatigue score never exceeds 10, and neither the daily-volume
    term nor the time term exceeds its cap of 2.5, whatever the
    decisions; the same holds for the job's copy. *)
Theorem fatigue_never_above_ten isoDay decisions :
  (forall score, calculateFatigueScore isoDay decisions = Some score ->
                 JsNumber.gt score (JsNumber.ofZ 10) = false) /\
  (forall score, WeeklyInsights.calculateFatigueScore isoDay decisions = Some score ->
                 JsNumber.gt score (JsNumber.ofZ 10) = false) /\
  (forall terms, fatigueTermsOf isoDay decisions = Some terms ->
                 JsNumber.gt (dailyTerm terms) (JsNumber.lit 25 10) = false /\
                 JsNumber.gt (timeTerm terms) (JsNumber.lit 25 10) = false).
Proof.
  assert (forall score, calculateFatigueScore isoDay decisions = Some score ->
                        JsNumber.gt score (JsNumber.ofZ 10) = false) as Hengine.
  { intros score. unfold calculateFatigueScore.
    destruct decisions as [|d ds].
    - intros H. injection H as <-. reflexivity.
    - destruct (fatigueTermsOf isoDay (d :: ds)) as [c|]; [|discriminate].
      intros H. injection H as <-. unfold fatigueOfTerms. cbv zeta.
      apply min_not_above_right. }
  split; [exact Hengine|]. split.
  - intros score. rewrite weekly_calculateFatigueScore. apply Hengine.
  - intros terms. unfold fatigueTermsOf.
    destruct (tally isoDay decisions) as [t|]; [|discriminate].
    intros H. injection H as <-. unfold fatigueTerms. cbv zeta. cbn [dailyTerm timeTerm].
    split; apply min_not_above_right.
Qed.

Lemma fatigue_never_above_ten_witness :
  exists score,
    calculateFatigueScore utcDayOfTimestamp timedDecisions = Some score /\
    JsNumber.gt score (JsNumber.ofZ 10) = false.
Proof.
  assert (exists score, calculateFatigueScore utcDayOfTimestamp timedDecisions = Some score)
    as [score Hs] by (eexists; vm_compute; reflexivity).
  exists score. split; [exact Hs|].
  destruct (fatigue_never_above_ten utcDayOfTimestamp timedDecisions) as (H & _ & _).
  exact (H score Hs).
Defined.

Lemma tally_from_none isoDay decisions :
  fold_left (tallyStep isoDay) decisions None = None.
Proof. induction decisions; simpl; auto. Qed.

Lemma tallyStep_some isoDay t d :
  tallyStep isoDay (Some t) d = None <-> isoDay (created_at d) = None.
Proof.
  unfold tallyStep. destruct (isoDay (created_at d)); split; congruence.
Qed.

Lemma tally_fails_iff isoDay decisions t :
  fold_left (tallyStep isoDay) decisions (Some t) = None <->
  exists d, In d decisions /\ isoDay (created_at d) = None.
Proof.
  revert t. induction decisions as [|d ds IH]; intros t; cbn [fold_left In].
  - split; [discriminate|]. intros (d & [] & _).
  - destruct (tallyStep isoDay (Some t) d) as [t'|] eqn:E.
    + rewrite IH. split.
      * intros (d' & Hin & Hd'). exists d'. auto.
      * intros (d' & [<-|Hin] & Hd').
        -- apply (tallyStep_some isoDay t) in Hd'. congruence.
        -- exists d'. auto.
    + rewrite tally_from_none. split; [|reflexivity].
      intros _. exists d. split; [now left|]. now apply (tallyStep_some isoDay t).
Qed.

(** X10. [calculateFatigueScore] fails exactly when some decision has a
    [created_at] that is not a date (its [toISOString] throws); the
    empty list gives 0. The job's copy fails on the same lists. *)
Theorem fatigue_fails_exactly_on_bad_date isoDay decisions :
  (calculateFatigueScore isoDay decisions = None <->
   exists d, In d decisions /\ isoDay (created_at d) = None) /\
  (WeeklyInsights.calculateFatigueScore isoDay decisions = None <->
   exists d, In d decisions /\ isoDay (created_at d) = None) /\
  calculateFatigueScore isoDay [] = Some (JsNumber.ofZ 0).
Proof.
  assert (calculateFatigueScore isoDay decisions = None <->
          exists d, In d decisions /\ isoDay (created_at d) = None) as Hengine.
  { unfold calculateFatigueScore, fatigueTermsOf, tally.
    destruct decisions as [|d ds].
    - split; [discriminate|]. intros (d & [] & _).
    - rewrite <- (tally_fails_iff isoDay (d :: ds) emptyTally).
      destruct (fold_left (tallyStep isoDay) (d :: ds) (Some emptyTally));
        split; congruence. }
  split; [exact Hengine|]. split; [|reflexivity].
  now rewrite weekly_calculateFatigueScore.
Qed.

(** *** What the loop of the fatigue score counts *)

Lemma sumValues_from (counts : list (string * Z)) (a : Z) :
  fold_left (fun a kv => a + snd kv) counts a = a + sumValues counts.
Proof.
  unfold sumValues. revert a. induction counts as [|kv counts IH]; intros a; simpl.
  - lia.
  - rewrite IH, (IH (snd kv)). lia.
Qed.

Lemma sumValues_cons kv counts : sumValues (kv :: counts) = snd kv + sumValues counts.
Proof. unfold sumValues at 1. simpl. now rewrite sumValues_from. Qed.

Lemma bump_sum day counts : sumValues (bump day counts) = sumValues counts + 1.
Proof.
  induction counts as [|[k n] counts IH]; cbn [bump].
  - reflexivity.
  - destruct (String.eqb k day).
    + rewrite !sumValues_cons. cbn [snd]. destruct (n =? 0) eqn:E; [|lia].
      apply Z.eqb_eq in E. lia.
    + rewrite !sumValues_cons, IH. lia.
Qed.

Lemma bump_keys day counts k :
  In k (map fst (bump day counts)) <-> k = day \/ In k (map fst counts).
Proof.
  induction counts as [|[k' n] counts IH]; cbn [bump].
  - simpl. intuition.
  - destruct (String.eqb k' day) eqn:E.
    + apply String.eqb_eq in E. subst. simpl. intuition.
    + simpl. rewrite IH. intuition.
Qed.

Lemma bump_NoDup day counts :
  NoDup (map fst counts) -> NoDup (map fst (bump day counts)).
Proof.
  induction counts as [|[k' n] counts IH]; cbn [bump]; intros Hnd.
  - simpl. constructor; [intros []|constructor].
  - inversion Hnd as [|? ? Hnotin Hnd']; subst.
    destruct (String.eqb k' day) eqn:E.
    + simpl. now constructor.
    + simpl. constructor; [|now apply IH].
      rewrite bump_keys. intros [->|Hin]; [|contradiction].
      now rewrite String.eqb_refl in E.
Qed.

Lemma countZ_cons {A : Type} (p : A -> bool) (x : A) (l : list A) :
  countZ p (x :: l) = (if p x then 1 else 0) + countZ p l.
Proof. unfold countZ. cbn [filter]. destruct (p x); cbn [List.length]; lia. Qed.

Lemma tally_invariant isoDay decisions t0 t :
  fold_left (tallyStep isoDay) decisions (Some t0) = Some t ->
  sumValues (dailyDecisionCounts t) =
    sumValues (dailyDecisionCounts t0) + Z.of_nat (List.length decisions) /\
  (NoDup (map fst (dailyDecisionCounts t0)) -> NoDup (map fst (dailyDecisionCounts t))) /\
  (forall k, In k (map fst (dailyDecisionCounts t)) <->
             In k (map fst (dailyDecisionCounts t0)) \/
             exists d, In d decisions /\ isoDay (created_at d) = Some k) /\
  highUrgencyCount t = highUrgencyCount t0 + countZ isHighUrgency decisions /\
  totalTimeToDecide t = totalTimeToDecide t0 + recordedSeconds decisions /\
  decisionsWithTime t = decisionsWithTime t0 + countZ hasRecordedTime decisions /\
  incompleteCount t = incompleteCount t0 + countZ isOpen decisions.
Proof.
  revert t0. induction decisions as [|d ds IH]; intros t0; cbn [fold_left].
  - intros H. injection H as <-. unfold countZ, recordedSeconds. simpl.
    repeat split; try lia; auto.
    intros [H|(d & [] & _)]; exact H.
  - destruct (tallyStep isoDay (Some t0) d) as [t1|] eqn:E;
      [|rewrite tally_from_none; discriminate].
    intros H. destruct (IH _ H) as (Hsum & Hnd & Hkeys & Hhigh & Htime & Hwith & Hopen).
    unfold tallyStep in E. destruct (isoDay (created_at d)) as [day|] eqn:Hday; [|discriminate].
    injection E as <-. cbn [dailyDecisionCounts highUrgencyCount totalTimeToDecide
                           decisionsWithTime incompleteCount] in *.
    rewrite bump_sum in Hsum. rewrite !countZ_cons.
    unfold recordedSeconds, sumZ in *. cbn [map fold_right].
    repeat split.
    + rewrite Hsum. cbn [List.length]. lia.
    + intros H0. apply Hnd. now apply bump_NoDup.
    + rewrite Hkeys, bump_keys. intros [[->|Hin]|(d' & Hin & Hd')].
      * right. exists d. split; [now left|assumption].
      * now left.
      * right. exists d'. split; [now right|assumption].
    + rewrite Hkeys, bump_keys. intros [Hin|(d' & [<-|Hin] & Hd')].
      * left. now right.
      * left. left. congruence.
      * right. exists d'. split; assumption.
    + destruct (isHighUrgency d) eqn:E; unfold isHighUrgency in E; rewrite Hhigh, E; lia.
    + rewrite Htime. destruct (recordedTime d); lia.
    + destruct (hasRecordedTime d) eqn:E; unfold hasRecordedTime in E; rewrite Hwith;
        destruct (recordedTime d); try discriminate; lia.
    + destruct (isOpen d) eqn:E; unfold isOpen in E; rewrite Hopen, E; lia.
Qed.

Lemma tally_counts isoDay decisions t :
  tally isoDay decisions = Some t ->
  sumValues (dailyDecisionCounts t) = Z.of_nat (List.length decisions) /\
  NoDup (map fst (dailyDecisionCounts t)) /\
  (forall day, In day (map fst (dailyDecisionCounts t)) <->
               exists d, In d decisions /\ isoDay (created_at d) = Some day) /\
  highUrgencyCount t = countZ isHighUrgency decisions /\
  totalTimeToDecide t = recordedSeconds decisions /\
  decisionsWithTime t = countZ hasRecordedTime decisions /\
  incompleteCount t = countZ isOpen decisions.
Proof.
  intros H. unfold tally in H.
  destruct (tally_invariant isoDay decisions emptyTally t H)
    as (Hsum & Hnd & Hkeys & Hhigh & Htime & Hwith & Hopen).
  cbn [emptyTally dailyDecisionCounts highUrgencyCount totalTimeToDecide
       decisionsWithTime incompleteCount] in *.
  repeat split; try assumption.
  - apply Hnd. constructor.
  - intros Hin. apply Hkeys in Hin. destruct Hin as [[]|Hin]. exact Hin.
  - intros Hin. apply Hkeys. now right.
Qed.

(** X11. When the loop of [calculateFatigueScore] completes, its
    counters are what their names say: the per-day counts add up to the
    number of decisions and have exactly one entry per calendar day that
    occurs, and the urgency, time and incompletion counters are the
    numbers of high or critical decisions, of decisions with a recorded
    (non-zero) time, and of decisions not completed; the time total is
    the sum of the recorded times. *)
Theorem fatigue_loop_counts isoDay decisions t :
  tally isoDay decisions = Some t ->
  sumValues (dailyDecisionCounts t) = Z.of_nat (List.length decisions) /\
  NoDup (map fst (dailyDecisionCounts t)) /\
  (forall day, In day (map fst (dailyDecisionCounts t)) <->
               exists d, In d decisions /\ isoDay (created_at d) = Some day) /\
  highUrgencyCount t = countZ isHighUrgency decisions /\
  totalTimeToDecide t = recordedSeconds decisions /\
  decisionsWithTime t = countZ hasRecordedTime decisions /\
  incompleteCount t = countZ isOpen decisions.
Proof. exact (tally_counts isoDay decisions t). Qed.

Lemma fatigue_loop_counts_witness :
  exists t, tally utcDayOfTimestamp timedDecisions = Some t /\
            sumValues (dailyDecisionCounts t) = 3 /\
            map fst (dailyDecisionCounts t) = ["2024-03-04"; "2024-03-05"] /\
            decisionsWithTime t = 1.
Proof.
  assert (exists t, tally utcDayOfTimestamp timedDecisions = Some t) as [t Ht]
    by (eexists; vm_compute; reflexivity).
  exists t. split; [exact Ht|].
  destruct (fatigue_loop_counts utcDayOfTimestamp timedDecisions t Ht)
    as (Hsum & _ & _ & _ & _ & Hwith & _).
  split; [exact Hsum|]. split; [|exact Hwith].
  vm_compute in Ht. injection Ht as <-. reflexivity.
Defined.

(** *** The order of the decisions *)

Lemma countZ_perm {A : Type} (p : A -> bool) (l l' : list A) :
  Permutation l l' -> countZ p l = countZ p l'.
Proof.
  intros Hp. unfold countZ. f_equal. apply Permutation_length.
  induction Hp; simpl.
  - constructor.
  - destruct (p x); [now constructor|assumption].
  - destruct (p x), (p y); try reflexivity. apply perm_swap.
  - etransitivity; eassumption.
Qed.

Lemma sumZ_perm (l l' : list Z) : Permutation l l' -> sumZ l = sumZ l'.
Proof. induction 1; simpl; lia. Qed.

Lemma tally_fails_perm isoDay decisions decisions' :
  Permutation decisions decisions' ->
  tally isoDay decisions = None -> tally isoDay decisions' = None.
Proof.
  unfold tally. intros Hp H. apply tally_fails_iff in H. apply tally_fails_iff.
  destruct H as (x & Hin & Hx). exists x. split; [|exact Hx].
  eapply Permutation_in; [exact Hp|exact Hin].
Qed.

Lemma fatigueTermsOf_perm isoDay decisions decisions' :
  Permutation decisions decisions' ->
  fatigueTermsOf isoDay decisions' = fatigueTermsOf isoDay decisions.
Proof.
  intros Hp. unfold fatigueTermsOf.
  destruct (tally isoDay decisions) as [t|] eqn:Ht;
    [|now rewrite (tally_fails_perm isoDay _ _ Hp Ht)].
  destruct (tally isoDay decisions') as [t'|] eqn:Ht';
    [|now rewrite (tally_fails_perm isoDay _ _ (Permutation_sym Hp) Ht') in Ht].
  destruct (tally_counts _ _ _ Ht)
    as (Hsum & Hnd & Hkeys & Hhigh & Htime & Hwith & Hopen).
  destruct (tally_counts _ _ _ Ht')
    as (Hsum' & Hnd' & Hkeys' & Hhigh' & Htime' & Hwith' & Hopen').
  assert (List.length (dailyDecisionCounts t') = List.length (dailyDecisionCounts t))
    as Hdays.
  { rewrite <- (length_map fst (dailyDecisionCounts t')),
            <- (length_map fst (dailyDecisionCounts t)).
    apply Permutation_length, NoDup_Permutation; try assumption.
    intros day. rewrite Hkeys, Hkeys'. split; intros (x & Hin & Hx); exists x; split; auto.
    - eapply Permutation_in; [symmetry; exact Hp|exact Hin].
    - eapply Permutation_in; [exact Hp|exact Hin]. }
  f_equal. unfold fatigueTerms.
  rewrite Hsum, Hsum', Hdays, Hhigh, Hhigh', Htime, Htime', Hwith, Hwith', Hopen, Hopen'.
  rewrite <- (Permutation_length Hp).
  rewrite <- (countZ_perm isHighUrgency _ _ Hp), <- (countZ_perm hasRecordedTime _ _ Hp),
          <- (countZ_perm isOpen _ _ Hp).
  unfold recordedSeconds. rewrite <- (sumZ_perm _ _ (Permutation_map _ Hp)).
  reflexivity.
Qed.

(** X12. The fatigue score does not depend on the order of the
    decisions: two lists with the same decisions in any order give the
    same score, or both fail. *)
Theorem fatigue_ignores_order isoDay decisions decisions' :
  Permutation decisions decisions' ->
  calculateFatigueScore isoDay decisions' = calculateFatigueScore isoDay decisions.
Proof.
  intros Hp. unfold calculateFatigueScore.
  rewrite (fatigueTermsOf_perm isoDay _ _ Hp).
  destruct decisions as [|d ds], decisions' as [|d' ds']; try reflexivity.
  - apply Permutation_nil in Hp. discriminate.
  - symmetry in Hp. apply Permutation_nil in Hp. discriminate.
Qed.

Lemma fatigue_ignores_order_witness :
  Permutation timedDecisions (rev timedDecisions) /\
  calculateFatigueScore utcDayOfTimestamp (rev timedDecisions) =
  calculateFatigueScore utcDayOfTimestamp timedDecisions.
Proof.
  assert (Permutation timedDecisions (rev timedDecisions)) as Hp by apply Permutation_rev.
  split; [exact Hp|].
  apply (fatigue_ignores_order utcDayOfTimestamp _ _ Hp).
Defined.

(** *** The two copies *)

Lemma weekly_biasStep_tracks acc t d :
  acc = (firstOptionCount t, highConfidenceLowSuccess t, longDecisionTime t) ->
  WeeklyInsights.biasStep acc d =
  (firstOptionCount (biasStep t d), highConfidenceLowSuccess (biasStep t d),
   longDecisionTime (biasStep t d)).
Proof.
  intros ->. unfold WeeklyInsights.biasStep, biasStep.
  destruct (options d) as [[|o os]|], (chosen_option d) as [chosen|]; reflexivity.
Qed.

Lemma weekly_bias_fold decisions acc t :
  acc = (firstOptionCount t, highConfidenceLowSuccess t, longDecisionTime t) ->
  fold_left WeeklyInsights.biasStep decisions acc =
  (firstOptionCount (fold_left biasStep decisions t),
   highConfidenceLowSuccess (fold_left biasStep decisions t),
   longDecisionTime (fold_left biasStep decisions t)).
Proof.
  revert acc t. induction decisions as [|d ds IH]; intros acc t Hacc; cbn [fold_left].
  - exact Hacc.
  - apply IH. now apply weekly_biasStep_tracks.
Qed.

(** X13. The scheduled job's copies of the metric functions compute what
    the engine's functions compute: the same fatigue score and the same
    success rate on every input, and each of the job's three bias
    fractions is the engine's fraction of the same name. *)
Theorem job_copies_agree isoDay decisions outcomes :
  WeeklyInsights.calculateFatigueScore isoDay decisions =
    calculateFatigueScore isoDay decisions /\
  WeeklyInsights.calculateSuccessRate outcomes = calculateSuccessRate outcomes /\
  (forall key fraction,
      In (key, fraction) (WeeklyInsights.analyzeBiases decisions) ->
      In (key, fraction) (analyzeBiases decisions)).
Proof.
  split; [apply weekly_calculateFatigueScore|]. split; [reflexivity|].
  intros key fraction. unfold WeeklyInsights.analyzeBiases, analyzeBiases.
  rewrite (weekly_bias_fold decisions (0, 0, 0)
             {| firstOptionCount := 0; lastOptionCount := 0;
                highConfidenceLowSuccess := 0; longDecisionTime := 0 |} eq_refl).
  cbv zeta. cbn [In].
  intros [H|[H|[H|[]]]]; rewrite <- H; auto 6.
Qed.

(** *** Bias fractions *)

Lemma biasStep_bounds t d k :
  0 <= firstOptionCount t <= k -> 0 <= lastOptionCount t <= k ->
  0 <= highConfidenceLowSuccess t <= k -> 0 <= longDecisionTime t <= k ->
  0 <= firstOptionCount (biasStep t d) <= k + 1 /\
  0 <= lastOptionCount (biasStep t d) <= k + 1 /\
  0 <= highConfidenceLowSuccess (biasStep t d) <= k + 1 /\
  0 <= longDecisionTime (biasStep t d) <= k + 1.
Proof.
  intros H1 H2 H3 H4. unfold biasStep.
  destruct (match options d with
            | Some (o :: os) =>
                match chosen_option d with
                | Some chosen =>
                    (String.eqb (ref_id o) (ref_id chosen),
                     String.eqb (ref_id (last os o)) (ref_id chosen))
                | None => (false, false)
                end
            | _ => (false, false)
            end) as [first lst].
  cbn [firstOptionCount lastOptionCount highConfidenceLowSuccess longDecisionTime].
  repeat split;
    repeat match goal with
           | |- context [if ?c then _ else _] => destruct c
           end; lia.
Qed.

Lemma bias_fold_bounds decisions t k :
  0 <= firstOptionCount t <= k -> 0 <= lastOptionCount t <= k ->
  0 <= highConfidenceLowSuccess t <= k -> 0 <= longDecisionTime t <= k ->
  let t' := fold_left biasStep decisions t in
  let n := k + Z.of_nat (List.length decisions) in
  0 <= firstOptionCount t' <= n /\ 0 <= lastOptionCount t' <= n /\
  0 <= highConfidenceLowSuccess t' <= n /\ 0 <= longDecisionTime t' <= n.
Proof.
  revert t k. induction decisions as [|d ds IH]; intros t k H1 H2 H3 H4; cbn [fold_left].
  - cbv zeta. cbn [List.length]. rewrite Z.add_0_r. auto.
  - destruct (biasStep_bounds t d k H1 H2 H3 H4) as (B1 & B2 & B3 & B4).
    pose proof (IH _ _ B1 B2 B3 B4) as H. cbv zeta in *.
    replace (k + Z.of_nat (List.length (d :: ds)))
      with (k + 1 + Z.of_nat (List.length ds)) by (cbn [List.length]; lia).
    exact H.
Qed.

(** X14. [analyzeBiases] always returns the same five keys in the same
    order; [status_quo_bias] is always 0; every other fraction is a
    count between 0 and the number of decisions, divided by that number
    (by 1 for the empty list, which therefore gives 0 everywhere and
    never NaN). *)
Theorem bias_fractions_are_bounded_counts decisions :
  exists first lst confident slow,
    let n := Z.of_nat (List.length decisions) in
    0 <= first <= n /\ 0 <= lst <= n /\ 0 <= confident <= n /\ 0 <= slow <= n /\
    analyzeBiases decisions =
      [ ("first_option_bias", JsNumber.div (JsNumber.ofZ first) (JsNumber.ofZ (Z.max 1 n)));
        ("last_option_bias", JsNumber.div (JsNumber.ofZ lst) (JsNumber.ofZ (Z.max 1 n)));
        ("status_quo_bias", S754_zero false);
        ("overconfidence_bias",
          JsNumber.div (JsNumber.ofZ confident) (JsNumber.ofZ (Z.max 1 n)));
        ("analysis_paralysis", JsNumber.div (JsNumber.ofZ slow) (JsNumber.ofZ (Z.max 1 n))) ] /\
    analyzeBiases [] =
      [ ("first_option_bias", S754_zero false); ("last_option_bias", S754_zero false);
        ("status_quo_bias", S754_zero false); ("overconfidence_bias", S754_zero false);
        ("analysis_paralysis", S754_zero false) ].
Proof.
  pose (t0 := {| firstOptionCount := 0; lastOptionCount := 0;
                 highConfidenceLowSuccess := 0; longDecisionTime := 0 |}).
  pose proof (bias_fold_bounds decisions t0 0) as H. cbv zeta in H.
  cbn [t0 firstOptionCount lastOptionCount highConfidenceLowSuccess longDecisionTime] in H.
  destruct H as (B1 & B2 & B3 & B4); try lia.
  exists (firstOptionCount (fold_left biasStep decisions t0)),
         (lastOptionCount (fold_left biasStep decisions t0)),
         (highConfidenceLowSuccess (fold_left biasStep decisions t0)),
         (longDecisionTime (fold_left biasStep decisions t0)).
  cbv zeta. rewrite Z.add_0_l in *.
  split; [lia|]. split; [lia|]. split; [lia|]. split; [lia|]. split.
  - unfold analyzeBiases. cbv zeta. fold t0.
    replace (if Z.of_nat (List.length decisions) =? 0 then 1
             else Z.of_nat (List.length decisions))
      with (Z.max 1 (Z.of_nat (List.length decisions))).
    + reflexivity.
    + destruct (Z.of_nat (List.length decisions) =? 0) eqn:E.
      * apply Z.eqb_eq in E. lia.
      * apply Z.eqb_neq in E. lia.
  - vm_compute. reflexivity.
Qed.

(** *** Time of day *)





(** *** Category performance *)

Section Stores.
Context {V : Type}.

Lemma storeGet_set_same (k : string) (v : V) (m : list (string * V)) :
  storeGet k (storeSet k v m) = Some v.
Proof.
  induction m as [|[k' v'] m IH]; cbn [storeSet storeGet].
  - now rewrite String.eqb_refl.
  - destruct (String.eqb k' k) eqn:E; cbn [storeGet]; rewrite E; auto.
Qed.

Lemma storeGet_set_other (k k' : string) (v : V) (m : list (string * V)) :
  k' <> k -> storeGet k' (storeSet k v m) = storeGet k' m.
Proof.
  intros Hne. induction m as [|[k0 v0] m IH]; cbn [storeSet storeGet].
  - destruct (String.eqb k k') eqn:E; [|reflexivity].
    apply String.eqb_eq in E. congruence.
  - destruct (String.eqb k0 k) eqn:E; cbn [storeGet].
    + apply String.eqb_eq in E. subst k0.
      destruct (String.eqb k k') eqn:E'; [|reflexivity].
      apply String.eqb_eq in E'. congruence.
    + destruct (String.eqb k0 k'); auto.
Qed.

Lemma storeSet_keys (k k' : string) (v : V) (m : list (string * V)) :
  In k' (map fst (storeSet k v m)) <-> k' = k \/ In k' (map fst m).
Proof.
  induction m as [|[k0 v0] m IH]; cbn [storeSet].
  - simpl. intuition.
  - destruct (String.eqb k0 k) eqn:E.
    + apply String.eqb_eq in E. subst. simpl. intuition.
    + simpl. rewrite IH. intuition.
Qed.

Lemma storeSet_NoDup (k : string) (v : V) (m : list (string * V)) :
  NoDup (map fst m) -> NoDup (map fst (storeSet k v m)).
Proof.
  induction m as [|[k0 v0] m IH]; cbn [storeSet]; intros Hnd.
  - simpl. constructor; [intros []|constructor].
  - inversion Hnd as [|? ? Hnotin Hnd']; subst.
    destruct (String.eqb k0 k) eqn:E.
    + simpl. now constructor.
    + simpl. constructor; [|now apply IH].
      rewrite storeSet_keys. intros [->|Hin]; [|contradiction].
      now rewrite String.eqb_refl in E.
Qed.

Lemma storeSet_Forall (Q : V -> Prop) (k : string) (v : V) (m : list (string * V)) :
  Q v -> Forall (fun kv => Q (snd kv)) m -> Forall (fun kv => Q (snd kv)) (storeSet k v m).
Proof.
  intros Hv. induction 1 as [|[k0 v0] m Hx Hm IH]; cbn [storeSet].
  - repeat constructor. exact Hv.
  - destruct (String.eqb k0 k); constructor; auto.
Qed.

Lemma storeGet_Forall (Q : V -> Prop) (k : string) (v : V) (m : list (string * V)) :
  Forall (fun kv => Q (snd kv)) m -> storeGet k m = Some v -> Q v.
Proof.
  induction 1 as [|[k0 v0] m Hx Hm IH]; cbn [storeGet]; [discriminate|].
  destruct (String.eqb k0 k); [|exact IH].
  intros H. injection H as <-. exact Hx.
Qed.

Lemma storeSet_sum (f : V -> Z) (k : string) (v : V) (m : list (string * V)) :
  sumZ (map (fun kv => f (snd kv)) (storeSet k v m)) =
  sumZ (map (fun kv => f (snd kv)) m) + f v -
  match storeGet k m with Some old => f old | None => 0 end.
Proof.
  induction m as [|[k0 v0] m IH]; cbn [storeSet storeGet].
  - simpl. lia.
  - destruct (String.eqb k0 k); cbn [map sumZ fold_right snd] in *.
    + lia.
    + unfold sumZ in IH. rewrite IH. lia.
Qed.
End Stores.

Lemma insertByIndex_perm {V : Type} (e : Z * (string * V)) l :
  Permutation (insertByIndex e l) (e :: l).
Proof.
  induction l as [|e' l IH]; cbn [insertByIndex]; [reflexivity|].
  destruct (fst e <=? fst e'); [reflexivity|].
  rewrite IH. apply perm_swap.
Qed.

Lemma filter_split_perm {A : Type} (p q : A -> bool) (l : list A) :
  (forall x, q x = negb (p x)) ->
  Permutation (app (filter p l) (filter q l)) l.
Proof.
  intros Hq. induction l as [|x l IH]; cbn [filter]; [constructor|].
  rewrite Hq. destruct (p x); cbn [negb app].
  - now constructor.
  - rewrite <- Permutation_middle. now constructor.
Qed.

Lemma objectEntries_perm {V : Type} (m : list (string * V)) :
  Permutation (objectEntries m) m.
Proof.
  unfold objectEntries. cbv zeta.
  set (isIndex := fun kv : string * V =>
                    match arrayIndex (fst kv) with Some _ => true | None => false end).
  transitivity (app (filter isIndex m)
                  (filter (fun kv => match arrayIndex (fst kv) with
                                     | Some _ => false
                                     | None => true
                                     end) m)).
  - apply Permutation_app_tail.
    induction m as [|kv m IH]; cbn [fold_right filter]; [constructor|].
    unfold isIndex at 1. destruct (arrayIndex (fst kv)) as [i|].
    + rewrite insertByIndex_perm. cbn [map snd]. now constructor.
    + exact IH.
  - apply filter_split_perm. intros kv. unfold isIndex.
    destruct (arrayIndex (fst kv)); reflexivity.
Qed.

Lemma categoryStep_invariant byDecision stats d :
  Forall (fun kv => soundTally (snd kv)) stats ->
  NoDup (map fst stats) ->
  let stats' := categoryStep byDecision stats d in
  Forall (fun kv => soundTally (snd kv)) stats' /\
  NoDup (map fst stats') /\
  sumZ (map (fun kv => tallyTotal (snd kv)) stats') =
    sumZ (map (fun kv => tallyTotal (snd kv)) stats) + (if isCounted d then 1 else 0) /\
  sumZ (map (fun kv => tallyPositive (snd kv)) stats') =
    sumZ (map (fun kv => tallyPositive (snd kv)) stats) +
    (if isCounted d && match storeGet (id d) byDecision with
                       | Some outcome => isPositive outcome
                       | None => false
                       end then 1 else 0) /\
  (forall name, In name (map fst stats') <->
                In name (map fst stats) \/ (isCounted d = true /\ countedCategory d = name)).
Proof.
  intros Hsound Hnd. cbv zeta. unfold categoryStep, isCounted, countedCategory. cbv zeta.
  set (cat := if JsString.truthy (category d) then category d else "general").
  destruct (inheritedKey cat) eqn:Hinh; cbn [negb andb].
  - repeat split; auto; try lia.
    + intros [H|[H _]]; [exact H|discriminate].
  - set (found := match storeGet (id d) byDecision with
                  | Some outcome => isPositive outcome
                  | None => false
                  end).
    destruct (storeGet cat stats) as [old|] eqn:Hget.
    + pose proof (storeGet_Forall soundTally cat old stats Hsound Hget) as (H1 & H2 & H3).
      repeat split.
      * apply storeSet_Forall; [|exact Hsound].
        unfold soundTally. cbn [tallyTotal tallyPositive]. destruct found; lia.
      * now apply storeSet_NoDup.
      * rewrite (storeSet_sum tallyTotal), Hget. cbn [tallyTotal]. lia.
      * rewrite (storeSet_sum tallyPositive), Hget. cbn [tallyPositive].
        destruct found; lia.
      * rewrite storeSet_keys. intros [->|H]; [right; auto|now left].
      * rewrite storeSet_keys. intros [H|[_ H]]; [now right|now left].
    + repeat split.
      * apply storeSet_Forall; [|exact Hsound].
        unfold soundTally. cbn [tallyTotal tallyPositive]. destruct found; lia.
      * now apply storeSet_NoDup.
      * rewrite (storeSet_sum tallyTotal), Hget. cbn [tallyTotal]. lia.
      * rewrite (storeSet_sum tallyPositive), Hget. cbn [tallyPositive].
        destruct found; lia.
      * rewrite storeSet_keys. intros [->|H]; [right; auto|now left].
      * rewrite storeSet_keys. intros [H|[_ H]]; [now right|now left].
Qed.

Lemma categoryTallies_invariant byDecision decisions stats :
  Forall (fun kv => soundTally (snd kv)) stats ->
  NoDup (map fst stats) ->
  let stats' := fold_left (categoryStep byDecision) decisions stats in
  Forall (fun kv => soundTally (snd kv)) stats' /\
  NoDup (map fst stats') /\
  sumZ (map (fun kv => tallyTotal (snd kv)) stats') =
    sumZ (map (fun kv => tallyTotal (snd kv)) stats) + countZ isCounted decisions /\
  sumZ (map (fun kv => tallyPositive (snd kv)) stats') =
    sumZ (map (fun kv => tallyPositive (snd kv)) stats) +
    countZ (fun d => isCounted d && match storeGet (id d) byDecision with
                                    | Some outcome => isPositive outcome
                                    | None => false
                                    end) decisions /\
  (forall name, In name (map fst stats') <->
                In name (map fst stats) \/
                exists d, In d decisions /\ isCounted d = true /\ countedCategory d = name).
Proof.
  revert stats. induction decisions as [|d ds IH]; intros stats Hsound Hnd; cbn [fold_left].
  - cbv zeta. unfold countZ. simpl. repeat split; auto; try lia.
    intros [H|(d & [] & _)]. exact H.
  - destruct (categoryStep_invariant byDecision stats d Hsound Hnd)
      as (Hs1 & Hn1 & Ht1 & Hp1 & Hk1).
    destruct (IH _ Hs1 Hn1) as (Hs & Hn & Ht & Hp & Hk). cbv zeta in *.
    rewrite !countZ_cons.
    repeat split; auto; try lia.
    + rewrite Hk, Hk1. intros [[H|[H1 H2]]|(d' & Hin & H1 & H2)].
      * now left.
      * right. exists d. repeat split; auto. now left.
      * right. exists d'. repeat split; auto. now right.
    + rewrite Hk, Hk1. intros [H|(d' & [<-|Hin] & H1 & H2)].
      * left. now left.
      * left. right. auto.
      * right. exists d'. auto.
Qed.

Lemma analyzeCategoryPerformance_totals decisions outcomes :
  let result := analyzeCategoryPerformance decisions outcomes in
  sumZ (map (fun entry => perf_total (snd entry)) result) = countZ isCounted decisions /\
  sumZ (map (fun entry => perf_positive (snd entry)) result) =
    countZ (fun d => isCounted d && hasPositiveOutcome outcomes d) decisions /\
  Forall (fun entry => 1 <= perf_total (snd entry) /\
                       0 <= perf_positive (snd entry) <= perf_total (snd entry)) result /\
  NoDup (map fst result) /\
  (forall name, In name (map fst result) <->
                exists d, In d decisions /\ isCounted d = true /\ countedCategory d = name).
Proof.
  cbv zeta. unfold analyzeCategoryPerformance, categoryTallies.
  destruct (categoryTallies_invariant (outcomesByDecision outcomes) decisions []
              (Forall_nil _) (NoDup_nil _)) as (Hs & Hn & Ht & Hp & Hk).
  cbv zeta in *.
  set (stats := fold_left (categoryStep (outcomesByDecision outcomes)) decisions []) in *.
  pose proof (objectEntries_perm stats) as Hperm.
  rewrite !map_map. cbn [snd fst perf_total perf_positive].
  repeat split.
  - rewrite (sumZ_perm _ _ (Permutation_map _ Hperm)). exact Ht.
  - rewrite (sumZ_perm _ _ (Permutation_map _ Hperm)). exact Hp.
  - apply Forall_forall. intros entry Hin. apply in_map_iff in Hin.
    destruct Hin as (kv & <- & Hin). cbn [snd perf_total perf_positive].
    rewrite Forall_forall in Hs. apply (Hs kv).
    eapply Permutation_in; [exact Hperm|exact Hin].
  - eapply Permutation_NoDup; [symmetry; apply Permutation_map; exact Hperm|exact Hn].
  - intros Hin. apply (Permutation_in _ (Permutation_map fst Hperm)) in Hin.
    apply Hk in Hin. destruct Hin as [[]|Hin]. exact Hin.
  - intros Hin. apply (Permutation_in _ (Permutation_sym (Permutation_map fst Hperm))).
    apply Hk. now right.
Qed.

Lemma storeGet_In {V : Type} (k : string) (v : V) (m : list (string * V)) :
  NoDup (map fst m) -> In (k, v) m -> storeGet k m = Some v.
Proof.
  induction m as [|[k0 v0] m IH]; intros Hnd Hin; [destruct Hin|].
  cbn [map fst] in Hnd. inversion Hnd as [|? ? Hnotin Hnd']; subst.
  cbn [storeGet]. destruct Hin as [Heq|Hin].
  - injection Heq as -> ->. now rewrite String.eqb_refl.
  - destruct (String.eqb k0 k) eqn:E; [|now apply IH].
    apply String.eqb_eq in E. subst k0. exfalso. apply Hnotin.
    apply in_map_iff. now exists (k, v).
Qed.

Lemma countZ_filter {A : Type} (p q : A -> bool) (l : list A) :
  countZ p (filter q l) = countZ (fun x => q x && p x) l.
Proof.
  induction l as [|x l IH]; [reflexivity|].
  cbn [filter]. rewrite (countZ_cons (fun x => q x && p x)).
  destruct (q x); cbn [andb]; [rewrite countZ_cons|]; rewrite IH; lia.
Qed.

Lemma countZ_ext {A : Type} (p q : A -> bool) (l : list A) :
  (forall x, p x = q x) -> countZ p l = countZ q l.
Proof.
  intros H. induction l as [|x l IH]; [reflexivity|].
  now rewrite !countZ_cons, H, IH.
Qed.

Lemma categoryStep_get byDecision stats d name :
  inheritedKey name = false ->
  storeGet name (categoryStep byDecision stats d) =
  if String.eqb (countedCategory d) name then
    let before :=
      match storeGet name stats with
      | Some t => t
      | None => {| tallyTotal := 0; tallyPositive := 0; confidenceSum := JsNumber.ofZ 0 |}
      end in
    Some {| tallyTotal := tallyTotal before + 1;
            tallyPositive :=
              if match storeGet (id d) byDecision with
                 | Some outcome => isPositive outcome
                 | None => false
                 end
              then tallyPositive before + 1 else tallyPositive before;
            confidenceSum := JsNumber.add (confidenceSum before) (givenConfidence d) |}
  else storeGet name stats.
Proof.
  intros Hname. unfold categoryStep. cbv zeta.
  fold (countedCategory d). fold (givenConfidence d).
  destruct (String.eqb (countedCategory d) name) eqn:E.
  - apply String.eqb_eq in E. rewrite E, Hname. apply storeGet_set_same.
  - destruct (inheritedKey (countedCategory d)); [reflexivity|].
    apply storeGet_set_other. intros Heq. rewrite Heq, String.eqb_refl in E.
    discriminate.
Qed.

(** What the loop of [analyzeCategoryPerformance] leaves under one
    category that is not an inherited key: the earlier tally advanced by
    the decisions of that category, in their order. *)
Lemma categoryTallies_of_category byDecision name decisions :
  inheritedKey name = false ->
  forall stats,
    let mine := filter (fun d => String.eqb (countedCategory d) name) decisions in
    let before :=
      match storeGet name stats with
      | Some t => t
      | None => {| tallyTotal := 0; tallyPositive := 0; confidenceSum := JsNumber.ofZ 0 |}
      end in
    match storeGet name (fold_left (categoryStep byDecision) decisions stats) with
    | Some t =>
        tallyTotal t = tallyTotal before + Z.of_nat (List.length mine) /\
        tallyPositive t =
          tallyPositive before +
          countZ (fun d => match storeGet (id d) byDecision with
                           | Some outcome => isPositive outcome
                           | None => false
                           end) mine /\
        confidenceSum t =
          fold_left (fun sum d => JsNumber.add sum (givenConfidence d)) mine
            (confidenceSum before)
    | None => storeGet name stats = None /\ mine = []
    end.
Proof.
  intros Hname. induction decisions as [|d ds IH]; intros stats; cbv zeta.
  - cbn [fold_left filter List.length]. destruct (storeGet name stats).
    + unfold countZ. cbn. repeat split; lia.
    + split; reflexivity.
  - cbn [fold_left filter]. specialize (IH (categoryStep byDecision stats d)).
    cbv zeta in IH. rewrite (categoryStep_get _ _ _ _ Hname) in IH.
    destruct (String.eqb (countedCategory d) name) eqn:E; [|exact IH].
    cbv zeta in IH.
    destruct (storeGet name (fold_left (categoryStep byDecision) ds
                               (categoryStep byDecision stats d)))
      as [t|]; [|destruct IH; discriminate].
    cbn [tallyTotal tallyPositive confidenceSum] in IH.
    destruct IH as (Ht & Hp & Hc). rewrite countZ_cons.
    cbn [List.length fold_left]. repeat split.
    + lia.
    + rewrite Hp.
      destruct (match storeGet (id d) byDecision with
                | Some outcome => isPositive outcome
                | None => false
                end); lia.
    + exact Hc.
Qed.

(** An entry of the result comes from the tally kept under its name. *)
Lemma analyzeCategoryPerformance_entry decisions outcomes name perf :
  In (name, perf) (analyzeCategoryPerformance decisions outcomes) ->
  inheritedKey name = false /\
  exists t,
    storeGet name (categoryTallies decisions outcomes) = Some t /\
    perf_total perf = tallyTotal t /\
    perf_positive perf = tallyPositive t /\
    avgConfidence perf =
      (if 0 <? tallyTotal t
       then JsNumber.div (confidenceSum t) (JsNumber.ofZ (tallyTotal t))
       else JsNumber.ofZ 0).
Proof.
  intros Hin. unfold analyzeCategoryPerformance in Hin.
  apply in_map_iff in Hin. destruct Hin as ([k t] & Heq & Hin).
  cbn [fst snd] in Heq. injection Heq as -> <-.
  apply (Permutation_in _ (objectEntries_perm _)) in Hin.
  unfold categoryTallies in *.
  destruct (categoryTallies_invariant (outcomesByDecision outcomes) decisions []
              (Forall_nil _) (NoDup_nil _)) as (_ & Hn & _ & _ & Hk).
  cbv zeta in *. split.
  - assert (In name (map fst (fold_left (categoryStep (outcomesByDecision outcomes))
                                decisions []))) as Hkey
      by (apply in_map_iff; now exists (name, t)).
    apply Hk in Hkey. destruct Hkey as [[]|(d & _ & Hc & <-)].
    unfold isCounted in Hc. now apply negb_true_iff in Hc.
  - exists t. split; [now apply storeGet_In|]. repeat split.
Qed.

(** X16. [analyzeCategoryPerformance] counts every decision under its
    own category, "general" when it has none: the entry of a category
    has as total the number of decisions of that category, which is at
    least 1, and as average confidence the sum of their confidences,
    added in the order of the decisions, divided by that total. Each
    category occurs once. The categories reported are those of the
    decisions, except the names that every object inherits (such as
    "constructor"): decisions filed under such a name are left out, so
    the totals add up to the number of the other decisions. *)
Theorem category_totals_account_for_decisions decisions outcomes :
  let result := analyzeCategoryPerformance decisions outcomes in
  NoDup (map fst result) /\
  (forall name, In name (map fst result) <->
                exists d, In d decisions /\ isCounted d = true /\ countedCategory d = name) /\
  (forall name perf,
      In (name, perf) result ->
      let mine := filter (fun d => String.eqb (countedCategory d) name) decisions in
      perf_total perf = Z.of_nat (List.length mine) /\
      1 <= perf_total perf /\
      avgConfidence perf =
        JsNumber.div
          (fold_left (fun sum d => JsNumber.add sum (givenConfidence d)) mine (JsNumber.ofZ 0))
          (JsNumber.ofZ (perf_total perf))) /\
  sumZ (map (fun entry => perf_total (snd entry)) result) = countZ isCounted decisions.
Proof.
  cbv zeta.
  destruct (analyzeCategoryPerformance_totals decisions outcomes)
    as (Hsum & _ & Hall & Hnd & Hkeys).
  cbv zeta in *. split; [exact Hnd|]. split; [exact Hkeys|]. split; [|exact Hsum].
  intros name perf Hin.
  rewrite Forall_forall in Hall. destruct (Hall _ Hin) as (Hone & _). cbn [snd] in Hone.
  destruct (analyzeCategoryPerformance_entry _ _ _ _ Hin)
    as (Hname & t & Hget & Ht & _ & Hc).
  pose proof (categoryTallies_of_category (outcomesByDecision outcomes) name decisions
                Hname []) as Hcat.
  cbv zeta in Hcat. unfold categoryTallies in Hget. rewrite Hget in Hcat.
  cbn [storeGet tallyTotal tallyPositive confidenceSum] in Hcat.
  destruct Hcat as (Htotal & _ & Hconf).
  split; [lia|]. split; [exact Hone|].
  rewrite Hc, Ht, <- Hconf.
  assert ((0 <? tallyTotal t) = true) as -> by (apply Z.ltb_lt; lia).
  reflexivity.
Qed.

Lemma category_totals_account_for_decisions_witness :
  exists perf,
    In ("work", perf) (analyzeCategoryPerformance mixedDecisions mixedOutcomes) /\
    perf_total perf = 2 /\
    ~ In "constructor" (map fst (analyzeCategoryPerformance mixedDecisions mixedOutcomes)).
Proof.
  assert (exists perf,
             In ("work", perf) (analyzeCategoryPerformance mixedDecisions mixedOutcomes))
    as [perf Hin] by (eexists; vm_compute; left; reflexivity).
  exists perf. split; [exact Hin|].
  destruct (category_totals_account_for_decisions mixedDecisions mixedOutcomes)
    as (_ & Hkeys & Hentry & _).
  cbv zeta in *. split.
  - destruct (Hentry "work" perf Hin) as (Htotal & _). rewrite Htotal. reflexivity.
  - intros Hc. apply Hkeys in Hc. destruct Hc as (d & _ & Hcounted & Hname).
    unfold isCounted in Hcounted. rewrite Hname in Hcounted. discriminate.
Defined.

Lemma outcomesByDecision_last outcomes k :
  storeGet k (outcomesByDecision outcomes) =
  List.find (fun o => String.eqb (decision_id o) k) (rev outcomes).
Proof.
  unfold outcomesByDecision.
  induction outcomes as [|o outcomes IH] using rev_ind; [reflexivity|].
  rewrite fold_left_app, rev_app_distr. cbn [fold_left rev app List.find].
  destruct (String.eqb (decision_id o) k) eqn:E.
  - apply String.eqb_eq in E. subst. apply storeGet_set_same.
  - rewrite storeGet_set_other; [exact IH|].
    intros ->. now rewrite String.eqb_refl in E.
Qed.

(** X17. The number of positives that [analyzeCategoryPerformance]
    reports for a category is the number of decisions of that category
    whose outcome is positive, where the outcome of a decision is the
    last one in the list of outcomes that refers to it: when several
    outcomes refer to the same decision the last one decides, and a
    decision without an outcome does not count. The positives of a
    category are never more than its total. *)
Theorem last_outcome_decides decisions outcomes name perf :
  In (name, perf) (analyzeCategoryPerformance decisions outcomes) ->
  perf_positive perf =
    countZ (fun d =>
              String.eqb (countedCategory d) name &&
              match List.find (fun o => String.eqb (decision_id o) (id d)) (rev outcomes) with
              | Some outcome => isPositive outcome
              | None => false
              end) decisions /\
  0 <= perf_positive perf <= perf_total perf.
Proof.
  intros Hin.
  destruct (analyzeCategoryPerformance_totals decisions outcomes) as (_ & _ & Hall & _).
  cbv zeta in Hall. rewrite Forall_forall in Hall.
  destruct (Hall _ Hin) as (_ & Hrange). cbn [snd] in Hrange.
  split; [|exact Hrange].
  destruct (analyzeCategoryPerformance_entry _ _ _ _ Hin)
    as (Hname & t & Hget & _ & Hp & _).
  pose proof (categoryTallies_of_category (outcomesByDecision outcomes) name decisions
                Hname []) as Hcat.
  cbv zeta in Hcat. unfold categoryTallies in Hget. rewrite Hget in Hcat.
  cbn [storeGet tallyTotal tallyPositive confidenceSum] in Hcat.
  destruct Hcat as (_ & Hpos & _).
  rewrite Hp, Hpos, countZ_filter. rewrite Z.add_0_l.
  apply countZ_ext. intros d. now rewrite outcomesByDecision_last.
Qed.

Lemma last_outcome_decides_witness :
  exists perf,
    In ("work", perf) (analyzeCategoryPerformance mixedDecisions mixedOutcomes) /\
    perf_positive perf = 1.
Proof.
  assert (exists perf,
             In ("work", perf) (analyzeCategoryPerformance mixedDecisions mixedOutcomes))
    as [perf Hin] by (eexists; vm_compute; left; reflexivity).
  exists perf. split; [exact Hin|].
  destruct (last_outcome_decides mixedDecisions mixedOutcomes "work" perf Hin) as (Hp & _).
  rewrite Hp. reflexivity.
Defined.

(** *** The insights of the engine *)

Lemma successInsights_facts toFixed userId m p1 p2 :
  (List.length (successInsights toFixed userId m p1 p2) <= 1)%nat /\
  Forall (fun i => insight_user_id i = userId /\ period_start i = p1 /\ period_end i = p2 /\
                   In (priority i) [5; 8] /\ insight_type i = "weekly")
    (successInsights toFixed userId m p1 p2).
Proof.
  unfold successInsights.
  destruct (JsNumber.ge _ _); [|destruct (JsNumber.lt _ _)];
    (split; [simpl; lia|]);
    repeat (apply Forall_cons || apply Forall_nil); simpl; intuition.
Qed.

Lemma fatigueInsights_facts toFixed userId m p1 p2 :
  (List.length (fatigueInsights toFixed userId m p1 p2) <= 1)%nat /\
  Forall (fun i => insight_user_id i = userId /\ period_start i = p1 /\ period_end i = p2 /\
                   priority i = 9 /\ insight_type i = "pattern")
    (fatigueInsights toFixed userId m p1 p2).
Proof.
  unfold fatigueInsights.
  destruct (JsNumber.ge _ _); (split; [simpl; lia|]); repeat constructor.
Qed.

Lemma biasInsight_facts userId p1 p2 entry :
  (List.length (biasInsight userId p1 p2 entry) <= 1)%nat /\
  Forall (fun i => insight_user_id i = userId /\ period_start i = p1 /\ period_end i = p2 /\
                   priority i = 7 /\ insight_type i = "pattern")
    (biasInsight userId p1 p2 entry).
Proof.
  unfold biasInsight. destruct entry as [bias score].
  destruct (JsNumber.gt _ _); [destruct (biasDescriptions bias)|];
    (split; [simpl; lia|]); repeat constructor.
Qed.

Lemma categoryInsights_facts toFixed userId m p1 p2 :
  (List.length (categoryInsights toFixed userId m p1 p2) <= 1)%nat /\
  Forall (fun i => insight_user_id i = userId /\ period_start i = p1 /\ period_end i = p2 /\
                   priority i = 4 /\ insight_type i = "category")
    (categoryInsights toFixed userId m p1 p2).
Proof.
  unfold categoryInsights. cbv zeta.
  destruct (negb _ && _); (split; [simpl; lia|]); repeat constructor.
Qed.

Lemma flat_map_length_le {A B : Type} (f : A -> list B) (l : list A) :
  (forall x, List.length (f x) <= 1)%nat ->
  (List.length (flat_map f l) <= List.length l)%nat.
Proof.
  intros Hf. induction l as [|x l IH]; cbn [flat_map List.length]; [lia|].
  rewrite length_app. pose proof (Hf x). lia.
Qed.

(** X18. Every insight that [generateInsightsFromMetrics] returns
    carries the user id and the period it was called with, a priority
    among 4, 5, 7, 8 and 9, and one of the types weekly, pattern and
    category; there are at most three insights more than there are bias
    entries. *)
Theorem insights_are_well_formed toFixed userId m periodStart periodEnd :
  let insights := generateInsightsFromMetrics toFixed userId m periodStart periodEnd in
  Forall (fun i => insight_user_id i = userId /\
                   period_start i = periodStart /\ period_end i = periodEnd /\
                   In (priority i) [4; 5; 7; 8; 9] /\
                   In (insight_type i) ["weekly"; "pattern"; "category"]) insights /\
  (List.length insights <= List.length (biasAnalysis m) + 3)%nat.
Proof.
  cbv zeta. unfold generateInsightsFromMetrics.
  destruct (successInsights_facts toFixed userId m periodStart periodEnd) as [Ls Fs].
  destruct (fatigueInsights_facts toFixed userId m periodStart periodEnd) as [Lf Ff].
  destruct (categoryInsights_facts toFixed userId m periodStart periodEnd) as [Lc Fc].
  split.
  - repeat (apply Forall_app; split).
    + eapply Forall_impl; [|exact Fs]. cbn beta.
      intros i (H1 & H2 & H3 & H4 & H5). rewrite H5. repeat split; auto.
      * simpl in H4. simpl. intuition.
      * simpl. auto.
    + eapply Forall_impl; [|exact Ff]. cbn beta.
      intros i (H1 & H2 & H3 & H4 & H5). rewrite H4, H5. repeat split; simpl; auto 7.
    + apply Forall_forall. intros i Hin. apply in_flat_map in Hin.
      destruct Hin as (entry & _ & Hin).
      destruct (biasInsight_facts userId periodStart periodEnd entry) as [_ Fb].
      rewrite Forall_forall in Fb. destruct (Fb _ Hin) as (H1 & H2 & H3 & H4 & H5).
      rewrite H4, H5. repeat split; simpl; auto 7.
    + eapply Forall_impl; [|exact Fc]. cbn beta.
      intros i (H1 & H2 & H3 & H4 & H5). rewrite H4, H5. repeat split; simpl; auto 7.
  - rewrite !length_app.
    pose proof (flat_map_length_le (biasInsight userId periodStart periodEnd) (biasAnalysis m)
                  (fun entry => proj1 (biasInsight_facts userId periodStart periodEnd entry))).
    lia.
Qed.

(** *** Which category is reported *)

Lemma binary_round_aux_notNegative (mx ex : Z) (lx : location) :
  notNegative (binary_round_aux JsNumber.prec JsNumber.emax false mx ex lx) = true.
Proof.
  unfold binary_round_aux.
  destruct (shr_fexp _ _ mx ex lx) as [mrs e'].
  destruct (shr_fexp _ _ _ e' loc_Exact) as [mrs2 e2].
  destruct (shr_m mrs2); [reflexivity| |reflexivity].
  destruct (Z.leb _ _); reflexivity.
Qed.

Lemma ofZ_notNegative (z : Z) : 0 <= z -> notNegative (JsNumber.ofZ z) = true.
Proof.
  intros Hz. unfold JsNumber.ofZ, binary_normalize.
  destruct z as [|p|p]; [reflexivity| |lia].
  unfold binary_round. destruct (shl_align _ _ _) as [mz ez].
  apply binary_round_aux_notNegative.
Qed.

Lemma div_notNegative (a b : JsNumber.float) :
  notNegative a = true -> notNegative b = true -> notNegative (JsNumber.div a b) = true.
Proof.
  destruct a as [[|]|[|]| |[|] ma ea], b as [[|]|[|]| |[|] mb eb];
    cbn [notNegative negb]; intros Ha Hb; try discriminate; try reflexivity.
  unfold JsNumber.div, SFdiv.
  match goal with
  | |- context [SFdiv_core_binary ?p ?q ?m1 ?e1 ?m2 ?e2] =>
      destruct (SFdiv_core_binary p q m1 e1 m2 e2) as [[mz ez] lz]
  end.
  apply binary_round_aux_notNegative.
Qed.

Lemma rateOf_notNegative stats :
  0 <= total stats -> 0 <= positive stats -> notNegative (rateOf stats) = true.
Proof.
  intros Ht Hp. unfold rateOf. destruct (0 <? total stats); [|reflexivity].
  apply div_notNegative; now apply ofZ_notNegative.
Qed.

Lemma zero_not_above (b : JsNumber.float) :
  notNegative b = true -> JsNumber.gt (JsNumber.ofZ 0) b = false.
Proof. destruct b as [[|]|[|]| |[|] mb eb]; cbn [notNegative negb]; intros H; try discriminate; reflexivity. Qed.

Lemma zero_quotient_not_above (y b : JsNumber.float) :
  notNegative b = true -> JsNumber.gt (JsNumber.div (JsNumber.ofZ 0) y) b = false.
Proof.
  destruct y as [[|]|[|]| |[|] my ey], b as [[|]|[|]| |[|] mb eb];
    cbn [notNegative negb]; intros H; try discriminate; reflexivity.
Qed.

Lemma better_rate_has_positives (stats : CategoryStats) (b : JsNumber.float) :
  notNegative b = true ->
  JsNumber.gt (rateOf stats) b = true ->
  0 < total stats /\ positive stats <> 0.
Proof.
  intros Hb Hgt. unfold rateOf in Hgt.
  destruct (0 <? total stats) eqn:Et.
  - apply Z.ltb_lt in Et. split; [exact Et|].
    intros Hzero. rewrite Hzero, zero_quotient_not_above in Hgt by exact Hb. discriminate.
  - rewrite zero_not_above in Hgt by exact Hb. discriminate.
Qed.

Lemma bestCategory_invariant categories best :
  Forall plausibleStats categories ->
  (best = noCategory \/
   (In best categories /\ 0 < total (snd best) /\ positive (snd best) <> 0)) ->
  forall rest, incl rest categories ->
  let final := fold_left betterCategory rest best in
  final = noCategory \/
  (In final categories /\ 0 < total (snd final) /\ positive (snd final) <> 0).
Proof.
  intros Hall Hbest rest. revert best Hbest.
  induction rest as [|entry rest IH]; intros best Hbest Hincl; cbn [fold_left].
  - exact Hbest.
  - apply IH; [|intros x Hx; apply Hincl; now right].
    unfold betterCategory. cbv zeta.
    destruct (JsNumber.gt (rateOf (snd entry)) (rateOf (snd best))) eqn:Hgt; [|exact Hbest].
    right. assert (In entry categories) as Hin by (apply Hincl; now left).
    split; [exact Hin|].
    apply (better_rate_has_positives _ (rateOf (snd best))); [|exact Hgt].
    destruct Hbest as [->|(Hb & _)]; [reflexivity|].
    rewrite Forall_forall in Hall. destruct (Hall _ Hb) as [Ht Hp].
    now apply rateOf_notNegative.
Qed.

(** X19. A category insight is only ever generated for a category of
    [categoryPerformance] that has at least 3 decisions and at least one
    positive outcome, and never for one that is called "none" (the name
    of the sentinel); the counts are taken not to be negative. *)
Theorem reported_category_has_positives toFixed userId m periodStart periodEnd insight :
  Forall plausibleStats (categoryPerformance m) ->
  In insight (generateInsightsFromMetrics toFixed userId m periodStart periodEnd) ->
  insight_type insight = "category" ->
  exists name stats,
    In (name, stats) (categoryPerformance m) /\
    insight_category insight = Some name /\
    name <> "none" /\ 3 <= total stats /\ 1 <= positive stats.
Proof.
  intros Hall Hin Htype.
  pose proof (bestCategory_invariant (categoryPerformance m) noCategory Hall
                (or_introl eq_refl) (categoryPerformance m) (incl_refl _)) as Hbest.
  cbv zeta in Hbest. fold (bestCategory (categoryPerformance m)) in Hbest.
  unfold generateInsightsFromMetrics in Hin.
  apply in_app_or in Hin. destruct Hin as [Hin|Hin].
  { destruct (successInsights_facts toFixed userId m periodStart periodEnd) as [_ F].
    rewrite Forall_forall in F. destruct (F _ Hin) as (_ & _ & _ & _ & H). congruence. }
  apply in_app_or in Hin. destruct Hin as [Hin|Hin].
  { destruct (fatigueInsights_facts toFixed userId m periodStart periodEnd) as [_ F].
    rewrite Forall_forall in F. destruct (F _ Hin) as (_ & _ & _ & _ & H). congruence. }
  apply in_app_or in Hin. destruct Hin as [Hin|Hin].
  { apply in_flat_map in Hin. destruct Hin as (entry & _ & Hin).
    apply biasInsight_type in Hin. congruence. }
  unfold categoryInsights in Hin. cbv zeta in Hin.
  destruct (bestCategory (categoryPerformance m)) as [name stats] eqn:Eb.
  cbn [fst snd] in *.
  destruct (negb (String.eqb name "none") && (3 <=? total stats)) eqn:Eg; [|contradiction].
  apply andb_true_iff in Eg. destruct Eg as [Hname Htotal].
  apply negb_true_iff, String.eqb_neq in Hname. apply Z.leb_le in Htotal.
  destruct Hin as [<-|[]]. cbn [insight_category].
  destruct Hbest as [Hs|(Hmem & Ht & Hp)].
  - unfold noCategory in Hs. injection Hs as -> _. congruence.
  - exists name, stats. repeat split; auto.
    rewrite Forall_forall in Hall. destruct (Hall _ Hmem) as [_ Hnn]. cbn [snd] in Hnn. lia.
Qed.

Lemma reported_category_has_positives_witness :
  Forall plausibleStats (categoryPerformance productiveWeek) /\
  exists insight name stats,
    In insight (generateInsightsFromMetrics (fun _ _ => "75") "u1" productiveWeek
                  "2024-03-04T00:00:00.000Z" "2024-03-11T00:00:00.000Z") /\
    insight_type insight = "category" /\
    In (name, stats) (categoryPerformance productiveWeek) /\
    insight_category insight = Some name /\ 3 <= total stats.
Proof.
  assert (Forall plausibleStats (categoryPerformance productiveWeek)) as Hall
    by (repeat constructor; simpl; lia).
  split; [exact Hall|].
  assert (exists insight,
             In insight (generateInsightsFromMetrics (fun _ _ => "75") "u1" productiveWeek
                           "2024-03-04T00:00:00.000Z" "2024-03-11T00:00:00.000Z") /\
             insight_type insight = "category") as (insight & Hin & Htype).
  { eexists. split.
    - unfold generateInsightsFromMetrics.
      apply in_or_app; right. apply in_or_app; right. apply in_or_app; right.
      match goal with
      | |- In _ ?l => let l' := eval vm_compute in l in change l with l'
      end.
      left. reflexivity.
    - reflexivity. }
  destruct (reported_category_has_positives _ _ _ _ _ insight Hall Hin Htype)
    as (name & stats & Hmem & Hcat & _ & Htotal & _).
  exists insight, name, stats. repeat split; assumption.
Defined.

(** *** A week without outcomes *)

Lemma sumZ_zero_all (l : list Z) :
  Forall (fun x => 0 <= x) l -> sumZ l = 0 -> Forall (fun x => x = 0) l.
Proof.
  induction 1 as [|x l Hx Hl IH]; intros Hsum; [constructor|].
  cbn [sumZ fold_right] in Hsum. fold (sumZ l) in Hsum.
  assert (0 <= sumZ l) as Hpos.
  { clear - Hl. induction Hl; cbn [sumZ fold_right]; [lia|]. fold (sumZ l). lia. }
  constructor; [lia|]. apply IH. lia.
Qed.

Lemma countZ_never {A : Type} (p : A -> bool) (l : list A) :
  (forall x, p x = false) -> countZ p l = 0.
Proof.
  intros Hp. unfold countZ. induction l as [|x l IH]; cbn [filter]; [reflexivity|].
  now rewrite Hp.
Qed.

Lemma no_outcomes_no_positives decisions :
  noPositives (map statsOfPerformance (analyzeCategoryPerformance decisions [])).
Proof.
  destruct (analyzeCategoryPerformance_totals decisions []) as (_ & Hsum & Hall & _).
  cbv zeta in *.
  rewrite countZ_never in Hsum
    by (intros d; unfold hasPositiveOutcome; cbn; apply andb_false_r).
  assert (Forall (fun x => x = 0)
            (map (fun entry => perf_positive (snd entry))
               (analyzeCategoryPerformance decisions []))) as Hzero.
  { apply sumZ_zero_all; [|exact Hsum].
    apply Forall_forall. intros x Hx. apply in_map_iff in Hx.
    destruct Hx as (entry & <- & Hin). rewrite Forall_forall in Hall.
    destruct (Hall _ Hin) as (_ & H & _). exact H. }
  unfold noPositives. apply Forall_forall. intros entry Hin.
  apply in_map_iff in Hin. destruct Hin as (e & <- & Hin).
  cbn [statsOfPerformance snd positive].
  rewrite Forall_forall in Hzero. apply Hzero.
  apply (in_map (fun entry => perf_positive (snd entry))). exact Hin.
Qed.

(** X20. For a user who has decisions but no recorded outcome, the
    metrics that [generateWeeklyInsightsForUser] builds (the success
    rate of an empty list of outcomes, the category performance of the
    decisions without outcomes) always lead to the "Decision Quality
    Alert" as the first insight, with priority 8 and a success rate
    of 0, and never to a category insight: every other insight is a
    pattern insight. *)
Theorem no_outcomes_give_quality_alert toFixed userId m decisions periodStart periodEnd :
  successRate m = calculateSuccessRate [] ->
  categoryPerformance m = map statsOfPerformance (analyzeCategoryPerformance decisions []) ->
  exists alert rest,
    generateInsightsFromMetrics toFixed userId m periodStart periodEnd = alert :: rest /\
    insight_title alert = "Decision Quality Alert" /\
    priority alert = 8 /\
    metrics alert = MetricNumber "successRate" (S754_zero false) /\
    Forall (fun i => insight_type i = "pattern") rest.
Proof.
  intros Hrate Hcats.
  pose proof (no_outcomes_no_positives decisions) as Hzero. rewrite <- Hcats in Hzero.
  pose proof (bestCategory_without_positives _ Hzero) as Hbest.
  unfold generateInsightsFromMetrics, successInsights, categoryInsights. cbv zeta.
  rewrite Hbest, Hrate.
  change (JsNumber.ge (calculateSuccessRate []) (JsNumber.lit 7 10)) with false.
  change (JsNumber.lt (calculateSuccessRate []) (JsNumber.lit 5 10)) with true.
  cbn [noCategory fst snd String.eqb negb andb app].
  eexists _, _. split; [reflexivity|].
  split; [reflexivity|]. split; [reflexivity|]. split; [reflexivity|].
  rewrite app_nil_r. apply Forall_app. split.
  - destruct (fatigueInsights_facts toFixed userId m periodStart periodEnd) as [_ F].
    eapply Forall_impl; [|exact F]. cbn beta. tauto.
  - apply Forall_forall. intros i Hin. apply in_flat_map in Hin.
    destruct Hin as (entry & _ & Hin). now apply biasInsight_type in Hin.
Qed.

Lemma no_outcomes_give_quality_alert_witness :
  let m := {| successRate := calculateSuccessRate [];
              fatigueScore := JsNumber.ofZ 3;
              biasAnalysis := analyzeBiases mixedDecisions;
              categoryPerformance :=
                map statsOfPerformance (analyzeCategoryPerformance mixedDecisions []) |} in
  exists alert rest,
    generateInsightsFromMetrics (fun _ _ => "0.0") "u1" m
      "2024-03-04T00:00:00.000Z" "2024-03-11T00:00:00.000Z" = alert :: rest /\
    insight_title alert = "Decision Quality Alert".
Proof.
  cbv zeta.
  destruct (no_outcomes_give_quality_alert (fun _ _ => "0.0") "u1"
              {| successRate := calculateSuccessRate [];
                 fatigueScore := JsNumber.ofZ 3;
                 biasAnalysis := analyzeBiases mixedDecisions;
                 categoryPerformance :=
                   map statsOfPerformance (analyzeCategoryPerformance mixedDecisions []) |}
              mixedDecisions "2024-03-04T00:00:00.000Z" "2024-03-11T00:00:00.000Z"
              eq_refl eq_refl) as (alert & rest & Heq & Htitle & _).
  exists alert, rest. split; assumption.
Defined.

(** *** The insights of the scheduled job *)

Lemma biasAlert_facts userId p1 p2 entry :
  (List.length (WeeklyInsights.biasAlert userId p1 p2 entry) <= 1)%nat /\
  Forall (fun i => WeeklyInsights.job_user_id i = userId /\
                   WeeklyInsights.job_insight_type i = "pattern" /\
                   WeeklyInsights.job_priority i = 7)
    (WeeklyInsights.biasAlert userId p1 p2 entry).
Proof.
  unfold WeeklyInsights.biasAlert. destruct entry as [bias score].
  destruct (JsNumber.gt _ _); [destruct (WeeklyInsights.descriptions bias)|];
    (split; [simpl; lia|]); repeat (apply Forall_cons || apply Forall_nil); simpl; auto.
Qed.

(** X21. The job's [generateInsightsFromMetrics] never returns an empty
    list: the weekly summary, of priority 5, always comes first. What
    follows are pattern insights for the user, of priority 7 or 9, at
    most one more than there are bias entries. *)
Theorem job_insights_start_with_summary toFixed userId m totalDecisions periodStart periodEnd :
  exists rest,
    WeeklyInsights.generateInsightsFromMetrics toFixed userId m totalDecisions
      periodStart periodEnd =
      WeeklyInsights.summaryInsight toFixed userId m totalDecisions periodStart periodEnd
      :: rest /\
    Forall (fun i => WeeklyInsights.job_user_id i = userId /\
                     WeeklyInsights.job_insight_type i = "pattern" /\
                     In (WeeklyInsights.job_priority i) [7; 9]) rest /\
    (List.length rest <= List.length (WeeklyInsights.job_biasAnalysis m) + 1)%nat.
Proof.
  unfold WeeklyInsights.generateInsightsFromMetrics.
  eexists. split; [reflexivity|]. split.
  - apply Forall_app. split.
    + unfold WeeklyInsights.fatigueAlert. destruct (JsNumber.ge _ _);
        repeat (apply Forall_cons || apply Forall_nil); simpl; auto.
    + apply Forall_forall. intros i Hin. apply in_flat_map in Hin.
      destruct Hin as (entry & _ & Hin).
      destruct (biasAlert_facts userId periodStart periodEnd entry) as [_ F].
      rewrite Forall_forall in F. destruct (F _ Hin) as (H1 & H2 & H3).
      rewrite H3. simpl. auto.
  - rewrite length_app.
    pose proof (flat_map_length_le (WeeklyInsights.biasAlert userId periodStart periodEnd)
                  (WeeklyInsights.job_biasAnalysis m)
                  (fun entry => proj1 (biasAlert_facts userId periodStart periodEnd entry))).
    assert (List.length (WeeklyInsights.fatigueAlert toFixed userId m periodStart periodEnd)
            <= 1)%nat
      by (unfold WeeklyInsights.fatigueAlert; destruct (JsNumber.ge _ _); simpl; lia).
    lia.
Qed.

(** *** Titles of the bias insights *)

Lemma append_nil_right (s : string) : (s ++ "")%string = s.
Proof. induction s; simpl; [reflexivity|now rewrite IHs]. Qed.

Lemma append_associative (a b c : string) : ((a ++ b) ++ c)%string = (a ++ (b ++ c))%string.
Proof. induction a; simpl; [reflexivity|now rewrite IHa]. Qed.

Lemma splitCharFrom_nonempty sep s cur : JsString.splitCharFrom sep s cur <> [].
Proof.
  revert cur. induction s as [|c s IH]; intros cur; cbn [JsString.splitCharFrom].
  - discriminate.
  - destruct (Ascii.eqb c sep); [discriminate|apply IH].
Qed.

Lemma join_cons sep piece rest :
  rest <> [] ->
  JsString.join sep (piece :: rest) = (piece ++ sep ++ JsString.join sep rest)%string.
Proof. destruct rest; [congruence|reflexivity]. Qed.

Lemma capitalizeFirst_snoc cur c :
  cur <> "" ->
  JsString.capitalizeFirst (cur ++ String c "") =
  (JsString.capitalizeFirst cur ++ String c "")%string.
Proof. destruct cur; [congruence|reflexivity]. Qed.

Lemma titles_step (s : string) :
  allWordChars s = true ->
  JsString.join " " (map JsString.capitalizeFirst (JsString.splitCharFrom "_" s "")) =
    JsString.capitalizeWordsFrom (JsString.underscoresToSpaces s) false /\
  (forall cur, cur <> "" ->
     JsString.join " " (map JsString.capitalizeFirst (JsString.splitCharFrom "_" s cur)) =
     (JsString.capitalizeFirst cur ++
      JsString.capitalizeWordsFrom (JsString.underscoresToSpaces s) true)%string).
Proof.
  induction s as [|c s IH]; intros Hall.
  - split; [reflexivity|]. intros cur _. cbn. now rewrite append_nil_right.
  - cbn [allWordChars] in Hall. apply andb_true_iff in Hall. destruct Hall as [Hc Hs].
    destruct (IH Hs) as [IHa IHb].
    cbn [JsString.splitCharFrom JsString.underscoresToSpaces JsString.capitalizeWordsFrom].
    destruct (Ascii.eqb c "_") eqn:E.
    + change (JsString.isWordChar " ") with false. cbn [andb negb map].
      split.
      * rewrite join_cons
          by (intros H; apply map_eq_nil in H; now apply splitCharFrom_nonempty in H).
        rewrite IHa. reflexivity.
      * intros cur Hcur.
        rewrite join_cons
          by (intros H; apply map_eq_nil in H; now apply splitCharFrom_nonempty in H).
        rewrite IHa. reflexivity.
    + rewrite Hc. cbn [andb negb]. split.
      * change ("" ++ String c "")%string with (String c "").
        rewrite (IHb (String c "")) by discriminate. reflexivity.
      * intros cur Hcur.
        rewrite (IHb (cur ++ String c "")%string)
          by (destruct cur; [congruence|discriminate]).
        rewrite capitalizeFirst_snoc by exact Hcur.
        now rewrite append_associative.
Qed.

(** X22. For a bias key made of letters, digits and underscores, the
    title that the job gives its bias insight is the title that the
    engine gives it, without the word "Detected": splitting at
    underscores and capitalizing each piece is the same as replacing
    the underscores by spaces and capitalizing at each word start. *)
Theorem bias_titles_agree bias :
  allWordChars bias = true ->
  JsString.capitalizeWords (JsString.underscoresToSpaces bias) = WeeklyInsights.biasTitle bias.
Proof.
  intros Hall. unfold WeeklyInsights.biasTitle, JsString.splitChar, JsString.capitalizeWords.
  symmetry. apply titles_step. exact Hall.
Qed.

Lemma bias_titles_agree_witness :
  allWordChars "analysis_paralysis" = true /\
  JsString.capitalizeWords (JsString.underscoresToSpaces "analysis_paralysis") =
  WeeklyInsights.biasTitle "analysis_paralysis".
Proof.
  split; [reflexivity|]. apply (bias_titles_agree "analysis_paralysis"). reflexivity.
Defined.

End MetricsExtras.
